(** * ecomerce-server: a shallow embedding of the request handlers

    The development follows the TypeScript sources of the server:
    [src/utils/index.ts] (JWTUtil, PasswordUtil, ResponseUtil, PermissionUtil,
    ErrorUtil), [middleware/errorHandler.ts], [controllers/authController.ts],
    [controllers/productController.ts] and [services/socketService.ts].

    Conventions.
    - HTTP statuses, epoch milliseconds and row counts are integers of [Z].
      The numbers read from a query string ([page], [limit]) and what is
      computed from them are [Js.number]s: integers held as doubles, [NaN]
      and the two infinities, with the rounding of double arithmetic.
    - Identifiers, e-mail addresses, tokens and messages are [string]s and
      are only ever compared; the password checked by the strength rules is
      a sequence of UTF-16 code units, because the rules look inside it.
    - An [async] handler is a function from the database before the request
      to the database after it, together with what the handler answered or
      threw. Console output is not part of the model.
    - The database is the set of tables the handlers touch, each a list of
      rows; the ORM calls are the list functions of [Prisma]. *)

From Stdlib Require Import List String Ascii Bool ZArith NArith QArith Lia.
From Stdlib Require Import DecimalString.
Import ListNotations.

Local Open Scope string_scope.
Local Open Scope Z_scope.
Local Open Scope list_scope.

(** ** Enumerations of the schema (re-exported by [src/types/index.ts]) *)

Inductive UserRole := BUYER | SELLER | ADMIN.
Inductive SellerRole := MANAGER | ACCOUNTANT | INVENTORY_STAFF.
Inductive UserStatus := ACTIVE | SUSPENDED | BANNED.

Definition UserRole_eqb (a b : UserRole) : bool :=
  match a, b with
  | BUYER, BUYER | SELLER, SELLER | ADMIN, ADMIN => true
  | _, _ => false
  end.

Definition SellerRole_eqb (a b : SellerRole) : bool :=
  match a, b with
  | MANAGER, MANAGER | ACCOUNTANT, ACCOUNTANT
  | INVENTORY_STAFF, INVENTORY_STAFF => true
  | _, _ => false
  end.

Definition UserStatus_eqb (a b : UserStatus) : bool :=
  match a, b with
  | ACTIVE, ACTIVE | SUSPENDED, SUSPENDED | BANNED, BANNED => true
  | _, _ => false
  end.

(** [sellerRole === SellerRole.X] where [sellerRole] may be [null] or
    [undefined]. *)
Definition sellerRole_is (sr : option SellerRole) (x : SellerRole) : bool :=
  match sr with
  | Some r => SellerRole_eqb r x
  | None => false
  end.

(** ** PermissionUtil (src/utils/index.ts) *)

Module PermissionUtil.

Definition canManageProducts (role : UserRole) (sellerRole : option SellerRole) : bool :=
  if UserRole_eqb role ADMIN then true
  else if UserRole_eqb role SELLER then
    sellerRole_is sellerRole MANAGER || sellerRole_is sellerRole INVENTORY_STAFF
  else false.

Definition canViewOrders (role : UserRole) (sellerRole : option SellerRole) : bool :=
  if UserRole_eqb role ADMIN then true
  else if UserRole_eqb role SELLER then true
  else if UserRole_eqb role BUYER then true
  else false.

Definition canManageOrders (role : UserRole) (sellerRole : option SellerRole) : bool :=
  if UserRole_eqb role ADMIN then true
  else if UserRole_eqb role SELLER then sellerRole_is sellerRole MANAGER
  else false.

Definition canViewFinancials (role : UserRole) (sellerRole : option SellerRole) : bool :=
  if UserRole_eqb role ADMIN then true
  else if UserRole_eqb role SELLER then
    sellerRole_is sellerRole MANAGER || sellerRole_is sellerRole ACCOUNTANT
  else false.

Definition canManageUsers (role : UserRole) : bool := UserRole_eqb role ADMIN.

End PermissionUtil.

(** ** JavaScript strings seen as UTF-16 code units *)

Module Js.

Definition codeunit := N.
Definition jsstring := list codeunit.

Definition unit_of_ascii (a : ascii) : codeunit := N_of_ascii a.

Fixpoint units (s : string) : jsstring :=
  match s with
  | EmptyString => []
  | String a r => unit_of_ascii a :: units r
  end.

(** A character range [[lo-hi]] of a regular expression. *)
Definition in_range (lo hi : ascii) (c : codeunit) : bool :=
  (unit_of_ascii lo <=? c)%N && (c <=? unit_of_ascii hi)%N.

(** A character class given by the list of its members. *)
Definition in_class (members : jsstring) (c : codeunit) : bool :=
  existsb (N.eqb c) members.

(** [/[...]/.test(s)] for a one-character pattern: some unit of [s]
    matches. *)
Definition test (class : codeunit -> bool) (s : jsstring) : bool :=
  existsb class s.

(** [x || d] on a status code, an integer when there is one: [undefined]
    and [0] are falsy. *)
Definition num_or (x : option Z) (d : Z) : Z :=
  match x with
  | Some 0 | None => d
  | Some n => n
  end.

(** [x || d] on a string: [undefined] and the empty string are falsy. *)
Definition str_or (x : option string) (d : string) : string :=
  match x with
  | Some EmptyString | None => d
  | Some s => s
  end.

Definition truthy_str (x : option string) : bool :=
  match x with
  | Some EmptyString | None => false
  | Some _ => true
  end.

(** [Array.prototype.join]. *)
Fixpoint join (sep : string) (l : list string) : string :=
  match l with
  | [] => EmptyString
  | [x] => x
  | x :: r => (x ++ sep ++ join sep r)%string
  end.

(** [s.startsWith(p)]. *)
Definition startsWith (p s : string) : bool := String.prefix p s.

(** [s.includes(p)]. *)
Fixpoint includes (p s : string) : bool :=
  String.prefix p s ||
  match s with
  | EmptyString => false
  | String _ r => includes p r
  end.

Definition digit_of (a : ascii) : option Z :=
  let n := Z.of_nat (nat_of_ascii a) in
  if (48 <=? n) && (n <=? 57) then Some (n - 48) else None.

(** *** Numbers

    The numbers the list endpoints compute with are integers, [NaN] and
    the two infinities. An integer is held as a double: with 53 significant
    bits, rounded to the nearest such value, ties to the even one, and to
    an infinity from [2 ^ 1024 - 2 ^ 970] on. [Num 0] stands for both
    zeros: the program only tests a zero for truthiness. *)
Inductive number := NaN | Num (z : Z) | Infinity (negative : bool).

Definition MAX_SAFE_INTEGER : Z := 2 ^ 53 - 1.

(** The integer nearest to [n / d], ties to even, for [0 <= n] and
    [0 < d]. *)
Definition nearest (n d : Z) : Z :=
  let q := n / d in
  let r := n mod d in
  if (d <? 2 * r) || ((d =? 2 * r) && Z.odd q) then q + 1 else q.

(** The double nearest to the integer [z]. *)
Definition to_double (z : Z) : number :=
  let e := Z.log2 (Z.abs z) - 52 in
  if e <=? 0 then Num z
  else
    let v := nearest (Z.abs z) (2 ^ e) * 2 ^ e in
    if 2 ^ 1024 <=? v then Infinity (z <? 0) else Num (Z.sgn z * v).

(** [x || d] on a number: [NaN] and zero are falsy. *)
Definition number_or (x d : number) : number :=
  match x with
  | NaN | Num 0 => d
  | _ => x
  end.

(** [x - y]. *)
Definition sub (x y : number) : number :=
  match x, y with
  | NaN, _ | _, NaN => NaN
  | Num a, Num b => to_double (a - b)
  | Infinity s, Num _ => Infinity s
  | Num _, Infinity s => Infinity (negb s)
  | Infinity s, Infinity s' => if Bool.eqb s s' then NaN else Infinity s
  end.

(** [x * y]. *)
Definition mul (x y : number) : number :=
  match x, y with
  | NaN, _ | _, NaN => NaN
  | Num a, Num b => to_double (a * b)
  | Infinity s, Num b | Num b, Infinity s =>
      if b =? 0 then NaN else Infinity (xorb s (b <? 0))
  | Infinity s, Infinity s' => Infinity (xorb s s')
  end.

(** [x < y]; a comparison with [NaN] is false. *)
Definition lt (x y : number) : bool :=
  match x, y with
  | NaN, _ | _, NaN => false
  | Num a, Num b => a <? b
  | Num _, Infinity s => negb s
  | Infinity s, Num _ => s
  | Infinity s, Infinity s' => s && negb s'
  end.

(** A quotient of two numbers need not be whole. A finite one is the
    double [m * 2 ^ e]. *)
Inductive quotient := QNaN | Dyadic (m e : Z) | QInfinity (negative : bool).

(** The binary exponent of [a / b] for positive [a] and [b]: the [e] with
    [2 ^ e <= a / b < 2 ^ (e + 1)]. *)
Definition exponent (a b : Z) : Z :=
  let e := Z.log2 a - Z.log2 b in
  if (if 0 <=? e then b * 2 ^ e <=? a else b <=? a * 2 ^ (- e)) then e else e - 1.

(** The double nearest to [a / b] for positive [a] and [b]: 53 significant
    bits, or fewer below [2 ^ (-1022)]. *)
Definition div_pos (a b : Z) : Z * Z :=
  let e := Z.max (exponent a b - 52) (-1074) in
  (if 0 <=? e then nearest a (b * 2 ^ e) else nearest (a * 2 ^ (- e)) b, e).

(** [x / y], the zero divisor being the positive zero. *)
Definition div (x y : number) : quotient :=
  match x, y with
  | NaN, _ | _, NaN => QNaN
  | Infinity _, Infinity _ => QNaN
  | Infinity s, Num b => QInfinity (xorb s (b <? 0))
  | Num _, Infinity _ => Dyadic 0 0
  | Num a, Num b =>
      if b =? 0 then (if a =? 0 then QNaN else QInfinity (a <? 0))
      else if a =? 0 then Dyadic 0 0
      else
        let (m, e) := div_pos (Z.abs a) (Z.abs b) in
        Dyadic (Z.sgn a * Z.sgn b * m) e
  end.

(** [Math.ceil]. *)
Definition Math_ceil (q : quotient) : number :=
  match q with
  | QNaN => NaN
  | QInfinity s => Infinity s
  | Dyadic m e => if 0 <=? e then Num (m * 2 ^ e) else Num (- ((- m) / 2 ^ (- e)))
  end.

(** The code units [parseInt] skips at the start of its argument: the
    white space and line terminators of the language, those of [trim]. *)
Definition is_StrWhiteSpaceChar (c : codeunit) : bool :=
  ((9 <=? c) && (c <=? 13))%N
  || in_class [32; 160; 5760; 8232; 8233; 8239; 8287; 12288; 65279]%N c
  || ((8192 <=? c) && (c <=? 8202))%N.

Fixpoint skip_spaces (s : jsstring) : jsstring :=
  match s with
  | c :: r => if is_StrWhiteSpaceChar c then skip_spaces r else s
  | [] => []
  end.

Definition digit_value (c : codeunit) : option Z :=
  if ((48 <=? c) && (c <=? 57))%N then Some (Z.of_N c - 48) else None.

(** The longest prefix of decimal digits, as an integer; [acc] is what was
    read so far, [None] before the first digit. *)
Fixpoint read_digits (s : jsstring) (acc : option Z) : option Z :=
  match s with
  | c :: r =>
      match digit_value c with
      | Some d => read_digits r (Some (10 * match acc with Some n => n | None => 0 end + d))
      | None => acc
      end
  | [] => acc
  end.

Definition minus_sign : codeunit := 45%N.
Definition plus_sign : codeunit := 43%N.

(** [parseInt(s, 10)] on the string [s]: leading white space is skipped,
    then a sign and the longest run of decimal digits are read, whatever
    follows being ignored; without a digit the result is [NaN], and the
    integer read is rounded to a double. *)
Definition parseInt (s : jsstring) : number :=
  let t := skip_spaces s in
  let (negative, digits) :=
    match t with
    | c :: r =>
        if (c =? minus_sign)%N then (true, r)
        else if (c =? plus_sign)%N then (false, r)
        else (false, t)
    | [] => (false, t)
    end in
  match read_digits digits None with
  | Some n => to_double (if negative then - n else n)
  | None => NaN
  end.

Definition decimal (n : Z) : string := NilZero.string_of_int (Z.to_int n).

End Js.

(** ** PasswordUtil.validatePasswordStrength (src/utils/index.ts) *)

Module PasswordUtil.

Record Strength := { isValid : bool; errors : list string }.

Definition double_quote : ascii := ascii_of_nat 34.

(** The members of the character class of the last pattern, in the order
    of the pattern: the punctuation up to the colon, the double quote
    (code unit 34), then backslash, bar, comma, dot, angle brackets and
    question mark. *)
Definition special_class : Js.jsstring :=
  (Js.units "!@#$%^&*()_+-=[]{};':" ++ [Js.unit_of_ascii double_quote]
     ++ Js.units "\|,.<>?")%list.

Definition push (cond : bool) (msg : string) (errors : list string) : list string :=
  if cond then (errors ++ [msg])%list else errors.

Definition validatePasswordStrength (password : Js.jsstring) : Strength :=
  let errors := [] in
  let errors := push (Z.of_nat (List.length password) <? 8)
                  "Password must be at least 8 characters long" errors in
  let errors := push (negb (Js.test (Js.in_range "A" "Z") password))
                  "Password must contain at least one uppercase letter" errors in
  let errors := push (negb (Js.test (Js.in_range "a" "z") password))
                  "Password must contain at least one lowercase letter" errors in
  let errors := push (negb (Js.test (Js.in_range "0" "9") password))
                  "Password must contain at least one number" errors in
  let errors := push (negb (Js.test (Js.in_class special_class) password))
                  "Password must contain at least one special character" errors in
  {| isValid := (List.length errors =? 0)%nat; errors := errors |}.

End PasswordUtil.

(** ** ResponseUtil.paginate (src/utils/index.ts) *)

Module ResponseUtil.

Record Meta := {
  page : Js.number;
  limit : Js.number;
  total : Js.number;
  totalPages : Js.number;
  hasNext : bool;
  hasPrev : bool
}.

Record Page (T : Type) := { data : list T; meta : Meta }.
Arguments data {T} _.
Arguments meta {T} _.

Definition paginate {T : Type} (data : list T) (page limit total : Js.number) : Page T :=
  let totalPages := Js.Math_ceil (Js.div total limit) in
  {| data := data;
     meta := {| page := page;
                limit := limit;
                total := total;
                totalPages := totalPages;
                hasNext := Js.lt page totalPages;
                hasPrev := Js.lt (Js.Num 1) page |} |}.

End ResponseUtil.

(** ** Thrown values

    The error handler receives a value of type [any] and reads the fields
    below from it. [stack] is the trace the runtime records when an [Error]
    is constructed: its message followed by the frames that were active, the
    innermost first. *)

Module JsError.

Record ZodIssue := {
  path : list string;
  issue_message : string;
  received : option string
}.

Record FieldFault := {
  fault_path : string;
  fault_message : string;
  fault_value : option string
}.

Record t := {
  name : string;
  message : string;
  statusCode : option Z;
  code : option string;
  meta_target : option (list string);
  issues : list ZodIssue;
  errors : list FieldFault;
  stack : string
}.

Definition newline : string := String (ascii_of_nat 10) EmptyString.

Definition trace (name message : string) (frames : list string) : string :=
  (name ++ ": " ++ message
     ++ String.concat "" (map (fun f => newline ++ "    at " ++ f) frames))%string.

(** [new Error(message)] evaluated with the call stack [frames]. *)
Definition new_Error (frames : list string) (message : string) : t :=
  {| name := "Error";
     message := message;
     statusCode := None;
     code := None;
     meta_target := None;
     issues := [];
     errors := [];
     stack := trace "Error" message frames |}.

(** A [TypeError] raised by the runtime. *)
Definition new_TypeError (frames : list string) (message : string) : t :=
  {| name := "TypeError";
     message := message;
     statusCode := None;
     code := None;
     meta_target := None;
     issues := [];
     errors := [];
     stack := trace "TypeError" message frames |}.

Definition with_status (e : t) (statusCode : Z) (code : option string) : t :=
  {| name := name e;
     message := message e;
     statusCode := Some statusCode;
     code := code;
     meta_target := meta_target e;
     issues := issues e;
     errors := errors e;
     stack := stack e |}.

End JsError.

(** What a [try] block ends with: a value, or a thrown error. *)
Inductive Outcome (A : Type) : Type :=
| Return (a : A)
| Throw (e : JsError.t).
Arguments Return {A} a.
Arguments Throw {A} e.

Definition bind {A B : Type} (m : Outcome A) (k : A -> Outcome B) : Outcome B :=
  match m with
  | Return a => k a
  | Throw e => Throw e
  end.

(** [try { m } catch (error) { throw h }]. *)
Definition catch_rethrow {A : Type} (m : Outcome A) (h : JsError.t) : Outcome A :=
  match m with
  | Return a => Return a
  | Throw _ => Throw h
  end.

(** ** Thrown values of any class

    [next(error)] hands the error middleware whatever was thrown, and the
    middleware calls methods on what it reads from it. A [JsError.t] is an
    error whose [code] is a string when it has one, whose [meta.target] is
    an array and whose [issues] and [errors] are there when its name asks
    for them. [Thrown.t] also holds the errors that are not: a [code] that
    is a number, a [meta.target] that is the name of a constraint, and
    missing [issues] or [errors]. *)

Module Thrown.

(** [error.code]: [undefined], a string or a number. *)
Inductive Code := NoCode | Text (c : string) | Numeric (n : Z).

(** [error.meta?.target]: [undefined], an array of field names or a
    string. *)
Inductive Target := NoTarget | Fields (fields : list string) | Constraint (name : string).

Record t := {
  name : string;
  message : string;
  statusCode : option Z;
  code : Code;
  target : Target;
  issues : option (list JsError.ZodIssue);
  errors : option (list JsError.FieldFault);
  stack : string
}.

Definition code_text (error : t) : option string :=
  match code error with
  | Text c => Some c
  | NoCode | Numeric _ => None
  end.

(** An error of [JsError.t] as a thrown value. *)
Definition of_error (e : JsError.t) : t :=
  {| name := JsError.name e;
     message := JsError.message e;
     statusCode := JsError.statusCode e;
     code := match JsError.code e with Some c => Text c | None => NoCode end;
     target := match JsError.meta_target e with Some f => Fields f | None => NoTarget end;
     issues := Some (JsError.issues e);
     errors := Some (JsError.errors e);
     stack := JsError.stack e |}.

End Thrown.

(** ** ErrorUtil (src/utils/index.ts)

    Every constructor runs [new Error] in its own frame, called from the
    frame [caller]. *)

Module ErrorUtil.

Definition createError (caller : string) (message : string) (statusCode : Z)
    (code : option string) : JsError.t :=
  JsError.with_status
    (JsError.new_Error ["ErrorUtil.createError (utils/index.ts:361)"; caller] message)
    statusCode code.

Definition createNotFoundError (caller : string) (resource : string) : JsError.t :=
  JsError.with_status
    (JsError.new_Error ["ErrorUtil.createNotFoundError (utils/index.ts:376)"; caller]
       (resource ++ " not found")%string)
    404 (Some "NOT_FOUND").

Definition createUnauthorizedError (caller : string) (message : string) : JsError.t :=
  JsError.with_status
    (JsError.new_Error ["ErrorUtil.createUnauthorizedError (utils/index.ts:383)"; caller]
       message)
    401 (Some "UNAUTHORIZED").

Definition createForbiddenError (caller : string) (message : string) : JsError.t :=
  JsError.with_status
    (JsError.new_Error ["ErrorUtil.createForbiddenError (utils/index.ts:390)"; caller]
       message)
    403 (Some "FORBIDDEN").

End ErrorUtil.

(** ** Rows of the relational schema

    The columns are the ones the handlers read or write. Instants are epoch
    milliseconds. *)

Module Schema.

Record User := {
  user_id : string;
  user_email : string;
  user_password : string;
  user_name : string;
  user_phone : option string;
  user_role : UserRole;
  user_sellerRole : option SellerRole;
  user_businessName : option string;
  user_businessPhone : option string;
  user_businessAddress : option string;
  user_status : UserStatus;
  user_createdAt : Z
}.

Record RefreshToken := {
  rt_id : string;
  rt_token : string;
  rt_userId : string;
  rt_expiresAt : Z
}.

Record Product := {
  product_id : string;
  product_title : string;
  product_description : string;
  product_price : Q;
  product_discountPrice : option Q;
  product_discountEndDate : option Z;
  product_stock : Z;
  product_sku : string;
  product_categoryId : string;
  product_sellerId : string;
  product_images : list string;
  product_video : option string;
  product_isActive : bool;
  product_createdAt : Z
}.

Record OrderItem := {
  item_id : string;
  item_orderId : string;
  item_productId : string;
  item_quantity : Z;
  item_price : Q
}.

Record Order := {
  order_id : string;
  order_orderNumber : string;
  order_status : string;
  order_buyerId : string;
  order_sellerId : string;
  order_total : Q
}.

Record OrderStatusHistory := {
  history_orderId : string;
  history_status : string;
  history_notes : option string
}.

Record Db := {
  users : list User;
  refreshTokens : list RefreshToken;
  products : list Product;
  orderItems : list OrderItem;
  orders : list Order;
  orderStatusHistory : list OrderStatusHistory
}.

Definition set_users (db : Db) (us : list User) : Db :=
  {| users := us;
     refreshTokens := refreshTokens db;
     products := products db;
     orderItems := orderItems db;
     orders := orders db;
     orderStatusHistory := orderStatusHistory db |}.

Definition set_refreshTokens (db : Db) (rts : list RefreshToken) : Db :=
  {| users := users db;
     refreshTokens := rts;
     products := products db;
     orderItems := orderItems db;
     orders := orders db;
     orderStatusHistory := orderStatusHistory db |}.

Definition set_products (db : Db) (ps : list Product) : Db :=
  {| users := users db;
     refreshTokens := refreshTokens db;
     products := ps;
     orderItems := orderItems db;
     orders := orders db;
     orderStatusHistory := orderStatusHistory db |}.

End Schema.

(** ** The HTTP answer: status, cookies and the JSON envelope *)

Module Http.

(** The [select] of the login query, without the password. *)
Record UserProfile := {
  profile_id : string;
  profile_email : string;
  profile_name : string;
  profile_phone : option string;
  profile_role : UserRole;
  profile_sellerRole : option SellerRole;
  profile_businessName : option string;
  profile_businessPhone : option string;
  profile_businessAddress : option string;
  profile_status : UserStatus;
  profile_createdAt : Z
}.

(** The [select] of the refresh query and of the authentication
    middleware. *)
Record UserSummary := {
  summary_id : string;
  summary_email : string;
  summary_name : string;
  summary_role : UserRole;
  summary_sellerRole : option SellerRole;
  summary_status : UserStatus
}.

Record Tokens := { accessToken : string; refreshToken : string }.

Inductive ResponseData :=
| LoginData (user : UserProfile) (tokens : Tokens)
| RefreshData (user : UserSummary) (tokens : Tokens)
| Listing (page : ResponseUtil.Page Schema.Product).

Record FieldError := {
  field : string;
  field_message : string;
  value : option string
}.

Record Details := {
  details_name : string;
  originalMessage : string;
  details_code : option string
}.

Inductive ErrorInfo :=
| Validation (validation : list FieldError)
| Coded (code : option string) (statusCode : Z)
        (stack : option string) (details : option Details).

Record Envelope := {
  success : bool;
  message : string;
  data : option ResponseData;
  error : option ErrorInfo;
  statusCode : option Z
}.

Inductive Cookie :=
| SetCookie (name value : string) (secure : bool) (maxAge : Z)
| ClearCookie (name : string).

Record Response := {
  status : Z;
  cookies : list Cookie;
  body : Envelope
}.

(** [ResponseUtil.success(message, data)]. *)
Definition success_body (message : string) (data : option ResponseData) : Envelope :=
  {| success := true; message := message; data := data;
     error := None; statusCode := None |}.

(** [ResponseUtil.error(message, statusCode, error)]. *)
Definition error_body (message : string) (statusCode : Z) (error : ErrorInfo) : Envelope :=
  {| success := false; message := message; data := None;
     error := Some error; statusCode := Some statusCode |}.

(** [res.json(body)] with the default status 200. *)
Definition json (cookies : list Cookie) (body : Envelope) : Response :=
  {| status := 200; cookies := cookies; body := body |}.

End Http.

(** ** errorHandler (middleware/errorHandler.ts)

    The handler keeps three locals, [statusCode], [message] and [code], and
    lets each group of rules overwrite them in turn; the two validation
    groups answer at once. [nodeEnv] is [process.env.NODE_ENV]. *)

Module ErrorHandler.

Record Verdict := {
  statusCode : Z;
  message : string;
  code : option string
}.

Definition verdict (statusCode : Z) (message code : string) : Verdict :=
  {| statusCode := statusCode; message := message; code := Some code |}.

Definition name_is (error : JsError.t) (n : string) : bool :=
  String.eqb (JsError.name error) n.

(** [error.code === c]. *)
Definition code_is (error : JsError.t) (c : string) : bool :=
  match JsError.code error with
  | Some c' => String.eqb c' c
  | None => false
  end.

(** [error.code?.startsWith(p)]. *)
Definition code_startsWith (error : JsError.t) (p : string) : bool :=
  match JsError.code error with
  | Some c' => Js.startsWith p c'
  | None => false
  end.

Definition initial (error : JsError.t) : Verdict :=
  {| statusCode := Js.num_or (JsError.statusCode error) 500;
     message := Js.str_or (Some (JsError.message error)) "Internal Server Error";
     code := JsError.code error |}.

Definition jwt_rules (error : JsError.t) (v : Verdict) : Verdict :=
  if name_is error "JsonWebTokenError" then verdict 401 "Invalid token" "INVALID_TOKEN"
  else if name_is error "TokenExpiredError" then verdict 401 "Token expired" "TOKEN_EXPIRED"
  else v.

Definition duplicate_message (error : JsError.t) : string :=
  ("Duplicate entry: "
     ++ Js.str_or (option_map (Js.join ", ") (JsError.meta_target error)) "field"
     ++ " already exists")%string.

Definition prisma_rules (error : JsError.t) (v : Verdict) : Verdict :=
  if code_is error "P2002" then verdict 409 (duplicate_message error) "DUPLICATE_ENTRY"
  else if code_is error "P2025" then verdict 404 "Record not found" "NOT_FOUND"
  else if code_startsWith error "P" then verdict 400 "Database operation failed" "DATABASE_ERROR"
  else v.

Definition multer_rules (error : JsError.t) (v : Verdict) : Verdict :=
  if code_is error "LIMIT_FILE_SIZE" then verdict 413 "File size too large" "FILE_SIZE_ERROR"
  else if code_is error "LIMIT_UNEXPECTED_FILE" then
    verdict 400 "Unexpected file field" "INVALID_FILE_FIELD"
  else v.

Definition cors_rule (error : JsError.t) (v : Verdict) : Verdict :=
  if String.eqb (JsError.message error) "Not allowed by CORS" then
    verdict 403 "CORS policy violation" "CORS_ERROR"
  else v.

Definition rate_limit_rule (error : JsError.t) (v : Verdict) : Verdict :=
  if Js.truthy_str (Some (JsError.message error))
     && Js.includes "Too many requests" (JsError.message error) then
    verdict 429 "Too many requests, please try again later" "RATE_LIMIT_EXCEEDED"
  else v.

Definition network_rule (error : JsError.t) (v : Verdict) : Verdict :=
  if code_is error "ECONNREFUSED" || code_is error "ENOTFOUND" then
    verdict 503 "Service unavailable" "SERVICE_UNAVAILABLE"
  else v.

Definition zod_field (issue : JsError.ZodIssue) : Http.FieldError :=
  {| Http.field := Js.join "." (JsError.path issue);
     Http.field_message := JsError.issue_message issue;
     Http.value := JsError.received issue |}.

Definition mongoose_field (err : JsError.FieldFault) : Http.FieldError :=
  {| Http.field := JsError.fault_path err;
     Http.field_message := JsError.fault_message err;
     Http.value := JsError.fault_value err |}.

Definition validation_response (validation : list Http.FieldError) : Http.Response :=
  {| Http.status := 400;
     Http.cookies := [];
     Http.body := Http.error_body "Validation failed" 400 (Http.Validation validation) |}.

Definition is_development (nodeEnv : option string) : bool :=
  match nodeEnv with
  | Some e => String.eqb e "development"
  | None => false
  end.

Definition errorHandler (nodeEnv : option string) (error : JsError.t) : Http.Response :=
  let v := initial error in
  let v := jwt_rules error v in
  let v := prisma_rules error v in
  if name_is error "ZodError" then
    validation_response (map zod_field (JsError.issues error))
  else
    let v := multer_rules error v in
    if name_is error "ValidationError" then
      validation_response (map mongoose_field (JsError.errors error))
    else
      let v := cors_rule error v in
      let v := rate_limit_rule error v in
      let v := network_rule error v in
      let dev := is_development nodeEnv in
      {| Http.status := statusCode v;
         Http.cookies := [];
         Http.body :=
           {| Http.success := false;
              Http.message := message v;
              Http.data := None;
              Http.error :=
                Some (Http.Coded (code v) (statusCode v)
                        (if dev then Some (JsError.stack error) else None)
                        (if dev then
                           Some {| Http.details_name := JsError.name error;
                                   Http.originalMessage := JsError.message error;
                                   Http.details_code := JsError.code error |}
                         else None));
              Http.statusCode := None |} |}.

(** The same middleware on a thrown value of any class. Where it calls a
    method that the value it read does not have, or reads a property of
    [undefined], the runtime throws a [TypeError] out of the middleware,
    and no answer is sent by it. *)

Definition frame : string := "errorHandler (middleware/errorHandler.ts)".

Definition not_a_function (callee : string) : JsError.t :=
  JsError.new_TypeError [frame] (callee ++ " is not a function")%string.

Definition thrown_code_is (error : Thrown.t) (c : string) : bool :=
  match Thrown.code error with
  | Thrown.Text c' => String.eqb c' c
  | Thrown.NoCode | Thrown.Numeric _ => false
  end.

(** The locals before the first rule. A numeric [code] is not kept: the
    Prisma rules throw on it. *)
Definition thrown_initial (error : Thrown.t) : Verdict :=
  {| statusCode := Js.num_or (Thrown.statusCode error) 500;
     message := Js.str_or (Some (Thrown.message error)) "Internal Server Error";
     code := Thrown.code_text error |}.

Definition thrown_jwt_rules (error : Thrown.t) (v : Verdict) : Verdict :=
  if String.eqb (Thrown.name error) "JsonWebTokenError" then
    verdict 401 "Invalid token" "INVALID_TOKEN"
  else if String.eqb (Thrown.name error) "TokenExpiredError" then
    verdict 401 "Token expired" "TOKEN_EXPIRED"
  else v.

(** [error.meta?.target?.join(', ') || 'field']. *)
Definition thrown_target (error : Thrown.t) : Outcome string :=
  match Thrown.target error with
  | Thrown.NoTarget => Return "field"
  | Thrown.Fields fields => Return (Js.str_or (Some (Js.join ", " fields)) "field")
  | Thrown.Constraint _ => Throw (not_a_function "error.meta?.target?.join")
  end.

Definition thrown_prisma_rules (error : Thrown.t) (v : Verdict) : Outcome Verdict :=
  if thrown_code_is error "P2002" then
    bind (thrown_target error) (fun target =>
    Return (verdict 409 ("Duplicate entry: " ++ target ++ " already exists")%string
              "DUPLICATE_ENTRY"))
  else if thrown_code_is error "P2025" then
    Return (verdict 404 "Record not found" "NOT_FOUND")
  else
    match Thrown.code error with
    | Thrown.NoCode => Return v
    | Thrown.Text c =>
        Return (if Js.startsWith "P" c then
                  verdict 400 "Database operation failed" "DATABASE_ERROR"
                else v)
    | Thrown.Numeric _ => Throw (not_a_function "error.code?.startsWith")
    end.

Definition thrown_multer_rules (error : Thrown.t) (v : Verdict) : Verdict :=
  if thrown_code_is error "LIMIT_FILE_SIZE" then
    verdict 413 "File size too large" "FILE_SIZE_ERROR"
  else if thrown_code_is error "LIMIT_UNEXPECTED_FILE" then
    verdict 400 "Unexpected file field" "INVALID_FILE_FIELD"
  else v.

Definition thrown_cors_rule (error : Thrown.t) (v : Verdict) : Verdict :=
  if String.eqb (Thrown.message error) "Not allowed by CORS" then
    verdict 403 "CORS policy violation" "CORS_ERROR"
  else v.

Definition thrown_rate_limit_rule (error : Thrown.t) (v : Verdict) : Verdict :=
  if Js.truthy_str (Some (Thrown.message error))
     && Js.includes "Too many requests" (Thrown.message error) then
    verdict 429 "Too many requests, please try again later" "RATE_LIMIT_EXCEEDED"
  else v.

Definition thrown_network_rule (error : Thrown.t) (v : Verdict) : Verdict :=
  if thrown_code_is error "ECONNREFUSED" || thrown_code_is error "ENOTFOUND" then
    verdict 503 "Service unavailable" "SERVICE_UNAVAILABLE"
  else v.

Definition handle (nodeEnv : option string) (error : Thrown.t) : Outcome Http.Response :=
  let v := thrown_initial error in
  let v := thrown_jwt_rules error v in
  bind (thrown_prisma_rules error v) (fun v =>
  if String.eqb (Thrown.name error) "ZodError" then
    match Thrown.issues error with
    | Some issues => Return (validation_response (map zod_field issues))
    | None =>
        Throw (JsError.new_TypeError [frame]
                 "Cannot read properties of undefined (reading 'map')")
    end
  else
    let v := thrown_multer_rules error v in
    if String.eqb (Thrown.name error) "ValidationError" then
      match Thrown.errors error with
      | Some errors => Return (validation_response (map mongoose_field errors))
      | None =>
          Throw (JsError.new_TypeError [frame] "Cannot convert undefined or null to object")
      end
    else
      let v := thrown_cors_rule error v in
      let v := thrown_rate_limit_rule error v in
      let v := thrown_network_rule error v in
      let dev := is_development nodeEnv in
      Return
        {| Http.status := statusCode v;
           Http.cookies := [];
           Http.body :=
             {| Http.success := false;
                Http.message := message v;
                Http.data := None;
                Http.error :=
                  Some (Http.Coded (code v) (statusCode v)
                          (if dev then Some (Thrown.stack error) else None)
                          (if dev then
                             Some {| Http.details_name := Thrown.name error;
                                     Http.originalMessage := Thrown.message error;
                                     Http.details_code := Thrown.code_text error |}
                           else None));
                Http.statusCode := None |} |}).

End ErrorHandler.

(** ** The jsonwebtoken and bcryptjs packages

    Both are dependencies of the server, not part of it; the handlers are
    written against the interfaces below. *)

Module Jwt.

(** [JwtPayload] of src/types/index.ts. The cast [as JwtPayload] of the
    verifiers checks nothing, so [type] is whatever string the token
    carries. *)
Record Payload := {
  userId : string;
  email : string;
  role : UserRole;
  sellerRole : option SellerRole;
  type : string
}.

(** [sign payload secret expiresIn clock] is [jwt.sign(payload, secret,
    { expiresIn })] evaluated when [Date.now()] reads [clock], [None] when
    it throws, as it does for an [expiresIn] that the package cannot read
    as a timespan; [verify token secret clock] is [jwt.verify(token,
    secret)], [None] when it throws. A token that verifies decodes to the
    payload that was signed, and the package stamps tokens in whole
    seconds. *)
Record Lib := {
  sign : Payload -> string -> string -> Z -> option string;
  verify : string -> string -> Z -> option Payload;
  verify_sign :
    forall p k e t token k' t' d,
      sign p k e t = Some token -> verify token k' t' = Some d -> d = p;
  sign_clock :
    forall p k e t t', t / 1000 = t' / 1000 -> sign p k e t = sign p k e t'
}.

Definition quote : string := String (ascii_of_nat 34) EmptyString.

(** The message of the error [jwt.sign] throws for an [expiresIn] it cannot
    read; the words expiresIn, 1d and 20h stand between double quotes. *)
Definition expiresIn_message : string :=
  (quote ++ "expiresIn" ++ quote
     ++ " should be a number of seconds or string representing a timespan eg: "
     ++ quote ++ "1d" ++ quote ++ ", " ++ quote ++ "20h" ++ quote ++ ", 60")%string.

End Jwt.

Module Bcrypt.

(** [hash password rounds salt] is [bcrypt.hash(password, rounds)] when
    the package draws [salt]; [compare password hash] is
    [bcrypt.compare]. *)
Record Lib := {
  hash : string -> Z -> string -> string;
  compare : string -> string -> bool
}.

End Bcrypt.

(** ** JWTUtil (src/utils/index.ts) *)

Module JWTUtil.

Record Config := {
  accessSecret : string;
  refreshSecret : string;
  accessExpiresIn : string;
  refreshExpiresIn : string
}.

(** The static initialisers: [process.env.X || default]. *)
Definition config_of_env (env : string -> option string) : Config :=
  {| accessSecret := Js.str_or (env "JWT_ACCESS_SECRET") "access-secret-key";
     refreshSecret := Js.str_or (env "JWT_REFRESH_SECRET") "refresh-secret-key";
     accessExpiresIn := Js.str_or (env "JWT_ACCESS_EXPIRES_IN") "15m";
     refreshExpiresIn := Js.str_or (env "JWT_REFRESH_EXPIRES_IN") "7d" |}.

(** The argument of the generators. *)
Record Subject := {
  userId : string;
  email : string;
  role : UserRole;
  sellerRole : option SellerRole
}.

(** [{ ...payload, type }]. *)
Definition with_type (payload : Subject) (type : string) : Jwt.Payload :=
  {| Jwt.userId := userId payload;
     Jwt.email := email payload;
     Jwt.role := role payload;
     Jwt.sellerRole := sellerRole payload;
     Jwt.type := type |}.

Section WithPackage.

Context (J : Jwt.Lib) (cfg : Config).

(** The error of [jwt.sign], raised inside the package; [callers] are the
    frames below it. The generators do not catch it. *)
Definition sign_error (callers : list string) : JsError.t :=
  JsError.new_Error ("jwt.sign" :: callers) Jwt.expiresIn_message.

Definition generateAccessToken (callers : list string) (now : Z) (payload : Subject)
  : Outcome string :=
  match Jwt.sign J (with_type payload "access") (accessSecret cfg) (accessExpiresIn cfg)
          now with
  | Some token => Return token
  | None =>
      Throw (sign_error ("JWTUtil.generateAccessToken (utils/index.ts:23)" :: callers))
  end.

Definition generateRefreshToken (callers : list string) (now : Z) (payload : Subject)
  : Outcome string :=
  match Jwt.sign J (with_type payload "refresh") (refreshSecret cfg) (refreshExpiresIn cfg)
          now with
  | Some token => Return token
  | None =>
      Throw (sign_error ("JWTUtil.generateRefreshToken (utils/index.ts:39)" :: callers))
  end.

(** Whatever is thrown inside the [try] block, by the package or by the
    type test, is caught and replaced; the error standing for the one
    of the package is therefore never observed. *)
Definition verifyAccessToken (caller : string) (now : Z) (token : string)
  : Outcome Jwt.Payload :=
  catch_rethrow
    match Jwt.verify J token (accessSecret cfg) now with
    | Some decoded =>
        if negb (String.eqb (Jwt.type decoded) "access") then
          Throw (JsError.new_Error
                   ["JWTUtil.verifyAccessToken (utils/index.ts:48)"; caller]
                   "Invalid token type")
        else Return decoded
    | None =>
        Throw (JsError.new_Error ["jwt.verify"; caller] "jwt.verify failed")
    end
    (JsError.new_Error ["JWTUtil.verifyAccessToken (utils/index.ts:52)"; caller]
       "Invalid or expired access token").

Definition verifyRefreshToken (caller : string) (now : Z) (token : string)
  : Outcome Jwt.Payload :=
  catch_rethrow
    match Jwt.verify J token (refreshSecret cfg) now with
    | Some decoded =>
        if negb (String.eqb (Jwt.type decoded) "refresh") then
          Throw (JsError.new_Error
                   ["JWTUtil.verifyRefreshToken (utils/index.ts:60)"; caller]
                   "Invalid token type")
        else Return decoded
    | None =>
        Throw (JsError.new_Error ["jwt.verify"; caller] "jwt.verify failed")
    end
    (JsError.new_Error ["JWTUtil.verifyRefreshToken (utils/index.ts:64)"; caller]
       "Invalid or expired refresh token").

(** The access token is generated first. *)
Definition generateTokenPair (caller : string) (now : Z) (payload : Subject)
  : Outcome Http.Tokens :=
  bind (generateAccessToken ["JWTUtil.generateTokenPair (utils/index.ts:75)"; caller]
          now payload)
    (fun accessToken =>
  bind (generateRefreshToken ["JWTUtil.generateTokenPair (utils/index.ts:76)"; caller]
          now payload)
    (fun refreshToken =>
  Return {| Http.accessToken := accessToken; Http.refreshToken := refreshToken |})).

End WithPackage.

End JWTUtil.

(** ** The ORM calls the handlers make

    [findUnique] is only offered on unique columns, so [id], [token] and
    [email] are unique: a write that would duplicate a token is rejected with
    P2002, and a write addressed to a missing row with P2025. *)

Module Prisma.

Import Schema.

Definition knownRequestError (code : string) (target : option (list string))
    (message : string) : JsError.t :=
  {| JsError.name := "PrismaClientKnownRequestError";
     JsError.message := message;
     JsError.statusCode := None;
     JsError.code := Some code;
     JsError.meta_target := target;
     JsError.issues := [];
     JsError.errors := [];
     JsError.stack := JsError.trace "PrismaClientKnownRequestError" message ["prisma"] |}.

Definition uniqueViolation (column : string) : JsError.t :=
  knownRequestError "P2002" (Some [column])
    ("Unique constraint failed on the fields: (`" ++ column ++ "`)")%string.

Definition recordNotFound : JsError.t :=
  knownRequestError "P2025" None "Record to update or delete does not exist.".

Definition user_findUnique_email (email : string) (rows : list User) : option User :=
  find (fun u => String.eqb (user_email u) email) rows.

Definition user_findUnique_id (id : string) (rows : list User) : option User :=
  find (fun u => String.eqb (user_id u) id) rows.

Definition set_password (password : string) (u : User) : User :=
  {| user_id := user_id u;
     user_email := user_email u;
     user_password := password;
     user_name := user_name u;
     user_phone := user_phone u;
     user_role := user_role u;
     user_sellerRole := user_sellerRole u;
     user_businessName := user_businessName u;
     user_businessPhone := user_businessPhone u;
     user_businessAddress := user_businessAddress u;
     user_status := user_status u;
     user_createdAt := user_createdAt u |}.

(** [user.update({ where: { id }, data: { password } })]. *)
Definition user_update_password (id password : string) (rows : list User)
  : Outcome (list User) :=
  if existsb (fun u => String.eqb (user_id u) id) rows then
    Return (map (fun u => if String.eqb (user_id u) id then set_password password u else u)
              rows)
  else Throw recordNotFound.

Definition refreshToken_findUnique_token (token : string) (rows : list RefreshToken)
  : option RefreshToken :=
  find (fun r => String.eqb (rt_token r) token) rows.

Definition refreshToken_create (row : RefreshToken) (rows : list RefreshToken)
  : Outcome (list RefreshToken) :=
  if existsb (fun r => String.eqb (rt_token r) (rt_token row)) rows then
    Throw (uniqueViolation "token")
  else Return (rows ++ [row]).

(** [refreshToken.delete({ where: { id } })]. *)
Definition refreshToken_delete (id : string) (rows : list RefreshToken)
  : Outcome (list RefreshToken) :=
  if existsb (fun r => String.eqb (rt_id r) id) rows then
    Return (filter (fun r => negb (String.eqb (rt_id r) id)) rows)
  else Throw recordNotFound.

(** [refreshToken.update({ where: { id }, data: { token, expiresAt } })]. *)
Definition refreshToken_update (id token : string) (expiresAt : Z)
    (rows : list RefreshToken) : Outcome (list RefreshToken) :=
  if negb (existsb (fun r => String.eqb (rt_id r) id) rows) then Throw recordNotFound
  else if existsb (fun r => negb (String.eqb (rt_id r) id) && String.eqb (rt_token r) token)
            rows then
    Throw (uniqueViolation "token")
  else
    Return (map (fun r =>
                   if String.eqb (rt_id r) id then
                     {| rt_id := rt_id r; rt_token := token;
                        rt_userId := rt_userId r; rt_expiresAt := expiresAt |}
                   else r)
              rows).

(** [refreshToken.deleteMany({ where })]. *)
Definition refreshToken_deleteMany (where_ : RefreshToken -> bool)
    (rows : list RefreshToken) : list RefreshToken :=
  filter (fun r => negb (where_ r)) rows.

Definition product_findUnique (id : string) (rows : list Product) : option Product :=
  find (fun p => String.eqb (product_id p) id) rows.

Definition set_isActive (isActive : bool) (p : Product) : Product :=
  {| product_id := product_id p;
     product_title := product_title p;
     product_description := product_description p;
     product_price := product_price p;
     product_discountPrice := product_discountPrice p;
     product_discountEndDate := product_discountEndDate p;
     product_stock := product_stock p;
     product_sku := product_sku p;
     product_categoryId := product_categoryId p;
     product_sellerId := product_sellerId p;
     product_images := product_images p;
     product_video := product_video p;
     product_isActive := isActive;
     product_createdAt := product_createdAt p |}.

(** [product.update({ where: { id }, data: { isActive } })]. *)
Definition product_update_isActive (id : string) (isActive : bool) (rows : list Product)
  : Outcome (list Product) :=
  if existsb (fun p => String.eqb (product_id p) id) rows then
    Return (map (fun p => if String.eqb (product_id p) id then set_isActive isActive p else p)
              rows)
  else Throw recordNotFound.

(** [product.delete({ where: { id } })]. *)
Definition product_delete (id : string) (rows : list Product) : Outcome (list Product) :=
  if existsb (fun p => String.eqb (product_id p) id) rows then
    Return (filter (fun p => negb (String.eqb (product_id p) id)) rows)
  else Throw recordNotFound.

(** [orderItem.count({ where: { productId } })]. *)
Definition orderItem_count (productId : string) (rows : list OrderItem) : Z :=
  Z.of_nat (List.length (filter (fun i => String.eqb (item_productId i) productId) rows)).

Definition order_findUnique (id : string) (rows : list Order) : option Order :=
  find (fun o => String.eqb (order_id o) id) rows.

(** [findMany({ where, orderBy, skip, take })] and [count({ where })] on
    any table. [skip] and [take] are 64-bit integers of the query engine:
    [NaN], an infinity and an integer outside that range are refused
    ([None]), and so is a negative [skip]. A negative [take] reads from
    the end of the ordered rows. *)
Definition findMany {T : Type} (where_ : T -> bool) (orderBy : list T -> list T)
    (skip take : Js.number) (rows : list T) : option (list T) :=
  match skip, take with
  | Js.Num skip, Js.Num take =>
      if (skip <? 0) || (2 ^ 63 <=? skip) || (2 ^ 63 <=? Z.abs take) then None
      else
        let matching := orderBy (filter where_ rows) in
        if take <? 0 then
          Some (rev (firstn (Z.to_nat (- take)) (skipn (Z.to_nat skip) (rev matching))))
        else Some (firstn (Z.to_nat take) (skipn (Z.to_nat skip) matching))
  | _, _ => None
  end.

Definition count {T : Type} (where_ : T -> bool) (rows : list T) : Z :=
  Z.of_nat (List.length (filter where_ rows)).

End Prisma.

(** ** Handlers and middleware

    A handler maps the database to the database after the request and to
    what it handed to Express: a response, or the error passed to [next],
    which Express gives to the error middleware. *)

Module Express.

Definition Handler : Type := Schema.Db -> Schema.Db * Outcome Http.Response.

Definition respond (nodeEnv : option string) (r : Schema.Db * Outcome Http.Response)
  : Schema.Db * Http.Response :=
  match r with
  | (db, Return res) => (db, res)
  | (db, Throw e) => (db, ErrorHandler.errorHandler nodeEnv e)
  end.

End Express.

(** ** AuthController (controllers/authController.ts)

    [now] is the clock reading of the request. *)

Module AuthController.

Import Schema.

Definition Handler : Type := Express.Handler.

Definition sevenDays : Z := 7 * 24 * 60 * 60 * 1000.
Definition fifteenMinutes : Z := 15 * 60 * 1000.

Definition subject_of (id email : string) (role : UserRole)
    (sellerRole : option SellerRole) : JWTUtil.Subject :=
  {| JWTUtil.userId := id; JWTUtil.email := email;
     JWTUtil.role := role; JWTUtil.sellerRole := sellerRole |}.

(** [const { password: _, ...userResponse } = user]. *)
Definition profile_of (u : User) : Http.UserProfile :=
  {| Http.profile_id := user_id u;
     Http.profile_email := user_email u;
     Http.profile_name := user_name u;
     Http.profile_phone := user_phone u;
     Http.profile_role := user_role u;
     Http.profile_sellerRole := user_sellerRole u;
     Http.profile_businessName := user_businessName u;
     Http.profile_businessPhone := user_businessPhone u;
     Http.profile_businessAddress := user_businessAddress u;
     Http.profile_status := user_status u;
     Http.profile_createdAt := user_createdAt u |}.

Definition summary_of (u : User) : Http.UserSummary :=
  {| Http.summary_id := user_id u;
     Http.summary_email := user_email u;
     Http.summary_name := user_name u;
     Http.summary_role := user_role u;
     Http.summary_sellerRole := user_sellerRole u;
     Http.summary_status := user_status u |}.

Definition clear_cookies : list Http.Cookie :=
  [Http.ClearCookie "accessToken"; Http.ClearCookie "refreshToken"].

Section Handlers.

Context (J : Jwt.Lib) (cfg : JWTUtil.Config) (B : Bcrypt.Lib)
        (nodeEnv : option string).

Definition secure : bool :=
  match nodeEnv with
  | Some e => String.eqb e "production"
  | None => false
  end.

Definition token_cookies (tokens : Http.Tokens) : list Http.Cookie :=
  [Http.SetCookie "accessToken" (Http.accessToken tokens) secure fifteenMinutes;
   Http.SetCookie "refreshToken" (Http.refreshToken tokens) secure sevenDays].

(** [rowId] is the key the store gives the new refresh-token row. *)
Definition login (now : Z) (rowId : string) (email password : string) : Handler :=
  fun db =>
  match Prisma.user_findUnique_email email (users db) with
  | None =>
      (db, Throw (ErrorUtil.createUnauthorizedError
                    "AuthController.login (authController.ts:150)"
                    "Invalid email or password"))
  | Some user =>
      if negb (UserStatus_eqb (user_status user) ACTIVE) then
        (db, Throw (ErrorUtil.createUnauthorizedError
                      "AuthController.login (authController.ts:155)"
                      "Account is suspended or banned"))
      else if negb (Bcrypt.compare B password (user_password user)) then
        (db, Throw (ErrorUtil.createUnauthorizedError
                      "AuthController.login (authController.ts:161)"
                      "Invalid email or password"))
      else
        match JWTUtil.generateTokenPair J cfg
                "AuthController.login (authController.ts:165)" now
                (subject_of (user_id user) (user_email user) (user_role user)
                   (user_sellerRole user)) with
        | Throw e => (db, Throw e)
        | Return tokens =>
            match Prisma.refreshToken_create
                    {| rt_id := rowId;
                       rt_token := Http.refreshToken tokens;
                       rt_userId := user_id user;
                       rt_expiresAt := now + sevenDays |}
                    (refreshTokens db) with
            | Throw e => (db, Throw e)
            | Return rows =>
                (set_refreshTokens db rows,
                 Return (Http.json (token_cookies tokens)
                           (Http.success_body "Login successful"
                              (Some (Http.LoginData (profile_of user) tokens)))))
            end
        end
  end.

(** The [include: { user }] of the refresh query: the row of the owner.
    A token row whose owner is missing makes [tokenRecord.user.status]
    fail with a TypeError. *)
Definition refreshToken (now : Z) (refreshToken : string) : Handler :=
  fun db =>
  match JWTUtil.verifyRefreshToken J cfg
          "AuthController.refreshToken (authController.ts:219)" now refreshToken with
  | Throw e => (db, Throw e)
  | Return decoded =>
      match Prisma.refreshToken_findUnique_token refreshToken (refreshTokens db) with
      | None =>
          (db, Throw (ErrorUtil.createUnauthorizedError
                        "AuthController.refreshToken (authController.ts:239)"
                        "Invalid refresh token"))
      | Some tokenRecord =>
          if rt_expiresAt tokenRecord <? now then
            match Prisma.refreshToken_delete (rt_id tokenRecord) (refreshTokens db) with
            | Throw e => (db, Throw e)
            | Return rows =>
                (set_refreshTokens db rows,
                 Throw (ErrorUtil.createUnauthorizedError
                          "AuthController.refreshToken (authController.ts:248)"
                          "Refresh token expired"))
            end
          else
            match Prisma.user_findUnique_id (rt_userId tokenRecord) (users db) with
            | None =>
                (db, Throw (JsError.new_TypeError
                              ["AuthController.refreshToken (authController.ts:252)"]
                              "Cannot read properties of null (reading 'status')"))
            | Some user =>
                if negb (UserStatus_eqb (user_status user) ACTIVE) then
                  (db, Throw (ErrorUtil.createUnauthorizedError
                                "AuthController.refreshToken (authController.ts:253)"
                                "Account is suspended or banned"))
                else
                  match JWTUtil.generateTokenPair J cfg
                          "AuthController.refreshToken (authController.ts:257)" now
                          (subject_of (user_id user) (user_email user) (user_role user)
                             (user_sellerRole user)) with
                  | Throw e => (db, Throw e)
                  | Return tokens =>
                      match Prisma.refreshToken_update (rt_id tokenRecord)
                              (Http.refreshToken tokens) (now + sevenDays)
                              (refreshTokens db) with
                      | Throw e => (db, Throw e)
                      | Return rows =>
                          (set_refreshTokens db rows,
                           Return (Http.json (token_cookies tokens)
                                     (Http.success_body "Token refreshed successfully"
                                        (Some (Http.RefreshData (summary_of user)
                                                 tokens)))))
                      end
                  end
            end
      end
  end.

(** [refreshToken] is [req.cookies?.refreshToken] and [userId] the
    [req.user.id] set by the authentication middleware. *)
Definition logout (refreshToken : option string) (userId : string) : Handler :=
  fun db =>
  let db :=
    match refreshToken with
    | Some token =>
        if Js.truthy_str refreshToken then
          set_refreshTokens db
            (Prisma.refreshToken_deleteMany
               (fun r => String.eqb (rt_token r) token && String.eqb (rt_userId r) userId)
               (refreshTokens db))
        else db
    | None => db
    end in
  (db, Return (Http.json clear_cookies
                 (Http.success_body "Logged out successfully" None))).

Definition logoutAll (userId : string) : Handler :=
  fun db =>
  (set_refreshTokens db
     (Prisma.refreshToken_deleteMany (fun r => String.eqb (rt_userId r) userId)
        (refreshTokens db)),
   Return (Http.json clear_cookies
             (Http.success_body "Logged out from all devices successfully" None))).

Definition saltRounds : Z := 12.

(** [salt] is the salt bcrypt draws for the new hash. *)
Definition changePassword (salt : string) (userId : string)
    (currentPassword newPassword : string) : Handler :=
  fun db =>
  match Prisma.user_findUnique_id userId (users db) with
  | None =>
      (db, Throw (ErrorUtil.createNotFoundError
                    "AuthController.changePassword (authController.ts:358)" "User"))
  | Some user =>
      if negb (Bcrypt.compare B currentPassword (user_password user)) then
        (db, Throw (ErrorUtil.createUnauthorizedError
                      "AuthController.changePassword (authController.ts:364)"
                      "Current password is incorrect"))
      else
        let hashedNewPassword := Bcrypt.hash B newPassword saltRounds salt in
        match Prisma.user_update_password userId hashedNewPassword (users db) with
        | Throw e => (db, Throw e)
        | Return us =>
            let db := set_users db us in
            (set_refreshTokens db
               (Prisma.refreshToken_deleteMany
                  (fun r => String.eqb (rt_userId r) userId) (refreshTokens db)),
             Return (Http.json clear_cookies
                       (Http.success_body
                          "Password changed successfully. Please login again." None)))
        end
  end.

End Handlers.

End AuthController.

(** ** authenticate (middleware/auth.ts) *)

Module AuthMiddleware.

Import Schema.

(** The token of an [Authorization: Bearer ...] header. *)
Definition bearer (authorization : option string) : option string :=
  match authorization with
  | Some h =>
      if Js.truthy_str authorization && Js.startsWith "Bearer " h then
        Some (String.substring 7 (String.length h - 7) h)
      else None
  | None => None
  end.

(** The header first, then the [accessToken] cookie. *)
Definition request_token (authorization accessCookie : option string) : option string :=
  let token := bearer authorization in
  if negb (Js.truthy_str token) && Js.truthy_str accessCookie then accessCookie
  else token.

Section Middleware.

Context (J : Jwt.Lib) (cfg : JWTUtil.Config).

(** The value is the [req.user] the middleware attaches. *)
Definition authenticate (now : Z) (authorization accessCookie : option string)
    (db : Db) : Outcome Http.UserSummary :=
  match request_token authorization accessCookie with
  | Some token =>
      if negb (Js.truthy_str (Some token)) then
        Throw (ErrorUtil.createUnauthorizedError "authenticate (auth.ts:29)"
                 "Access token required")
      else
        bind (JWTUtil.verifyAccessToken J cfg "authenticate (auth.ts:33)" now token)
          (fun decoded =>
             match Prisma.user_findUnique_id (Jwt.userId decoded) (users db) with
             | None =>
                 Throw (ErrorUtil.createUnauthorizedError "authenticate (auth.ts:49)"
                          "User not found")
             | Some user =>
                 if negb (UserStatus_eqb (user_status user) ACTIVE) then
                   Throw (ErrorUtil.createUnauthorizedError "authenticate (auth.ts:53)"
                            "Account is suspended or banned")
                 else Return (AuthController.summary_of user)
             end)
  | None =>
      Throw (ErrorUtil.createUnauthorizedError "authenticate (auth.ts:29)"
               "Access token required")
  end.

End Middleware.

End AuthMiddleware.

(** ** ProductController (controllers/productController.ts) *)

Module ProductController.

Import Schema.

(** A destructuring default: [const { x = d } = req.query]. A query value
    is given by the string [parseInt] makes of it. *)
Definition param (x : option Js.jsstring) (d : string) : Js.jsstring :=
  match x with
  | Some s => s
  | None => Js.units d
  end.

Definition validationError (message : string) : JsError.t :=
  {| JsError.name := "PrismaClientValidationError";
     JsError.message := message;
     JsError.statusCode := None;
     JsError.code := None;
     JsError.meta_target := None;
     JsError.issues := [];
     JsError.errors := [];
     JsError.stack := JsError.trace "PrismaClientValidationError" message ["prisma"] |}.

(** The list endpoints ([getProducts], [getSellerProducts],
    [searchProducts]) share this shape. [where_] and [orderBy] stand for
    the filter and the ordering the endpoint builds from its other query
    parameters; the rating columns it adds to each row are left out. *)
Definition getProducts (where_ : Product -> bool) (orderBy : list Product -> list Product)
    (pageParam limitParam : option Js.jsstring) : Express.Handler :=
  fun db =>
  let page := Js.number_or (Js.parseInt (param pageParam "1")) (Js.Num 1) in
  let limit := Js.number_or (Js.parseInt (param limitParam "10")) (Js.Num 10) in
  let skip := Js.mul (Js.sub page (Js.Num 1)) limit in
  match Prisma.findMany where_ orderBy skip limit (products db) with
  | None => (db, Throw (validationError "Invalid value for skip or take"))
  | Some found =>
      let total := Js.to_double (Prisma.count where_ (products db)) in
      (db, Return (Http.json []
                     (Http.success_body "Products retrieved successfully"
                        (Some (Http.Listing (ResponseUtil.paginate found page limit total))))))
  end.

(** [user] is the [req.user] of the authentication middleware and [id]
    the route parameter. *)
Definition deleteProduct (user : Http.UserSummary) (id : string) : Express.Handler :=
  fun db =>
  if negb (PermissionUtil.canManageProducts (Http.summary_role user)
             (Http.summary_sellerRole user)) then
    (db, Throw (ErrorUtil.createForbiddenError
                  "ProductController.deleteProduct (productController.ts:354)"
                  "You do not have permission to manage products"))
  else
    match Prisma.product_findUnique id (products db) with
    | None =>
        (db, Throw (ErrorUtil.createNotFoundError
                      "ProductController.deleteProduct (productController.ts:363)"
                      "Product"))
    | Some existingProduct =>
        if UserRole_eqb (Http.summary_role user) SELLER
           && negb (String.eqb (product_sellerId existingProduct) (Http.summary_id user)) then
          (db, Throw (ErrorUtil.createForbiddenError
                        "ProductController.deleteProduct (productController.ts:368)"
                        "You can only delete your own products"))
        else
          let orderCount := Prisma.orderItem_count id (orderItems db) in
          if orderCount >? 0 then
            match Prisma.product_update_isActive id false (products db) with
            | Throw e => (db, Throw e)
            | Return rows =>
                (set_products db rows,
                 Return (Http.json []
                           (Http.success_body
                              "Product deactivated successfully (has existing orders)"
                              None)))
            end
          else
            match Prisma.product_delete id (products db) with
            | Throw e => (db, Throw e)
            | Return rows =>
                (set_products db rows,
                 Return (Http.json []
                           (Http.success_body "Product deleted successfully" None)))
            end
    end.

End ProductController.

(** ** setupSocketHandlers, the [order-status-update] event
    (services/socketService.ts) *)

Module SocketService.

Import Schema.

Record SocketUser := {
  id : string;
  email : string;
  name : string;
  role : UserRole;
  sellerRole : option SellerRole
}.

(** The argument of the event. *)
Record StatusUpdate := {
  orderId : string;
  status : string;
  notes : option string
}.

Record SocketNotification := {
  notification_id : string;
  title : string;
  message : string;
  type : string;
  userId : string;
  data_orderId : string;
  data_orderNumber : string;
  data_status : string;
  data_notes : option string;
  createdAt : Z
}.

Inductive Payload :=
| ErrorMessage (message : string)
| Notify (notification : SocketNotification)
| OrderUpdated (orderId status : string) (notes : option string)
| StatusUpdated (success : bool) (orderId status : string).

(** [socket.emit(event, payload)] and [io.to(room).emit(event, payload)]. *)
Inductive Emit :=
| ToSocket (event : string) (payload : Payload)
| ToRoom (room event : string) (payload : Payload).

Definition user_room (userId : string) : string := ("user_" ++ userId)%string.

Definition unauthorized : list Emit := [ToSocket "error" (ErrorMessage "Unauthorized")].

(** The handler reads the order and emits; the first component of the
    result is the database it leaves. *)
Definition orderStatusUpdate (now : Z) (user : SocketUser) (data : StatusUpdate)
    (db : Db) : Db * list Emit :=
  if negb (UserRole_eqb (role user) SELLER) && negb (UserRole_eqb (role user) ADMIN) then
    (db, unauthorized)
  else
    match Prisma.order_findUnique (orderId data) (orders db) with
    | None => (db, [ToSocket "error" (ErrorMessage "Order not found")])
    | Some order =>
        if UserRole_eqb (role user) SELLER
           && negb (String.eqb (order_sellerId order) (id user)) then
          (db, unauthorized)
        else
          let notification :=
            {| notification_id := ("notif_" ++ Js.decimal now)%string;
               title := "Order Status Updated";
               message := ("Your order #" ++ order_orderNumber order
                             ++ " status has been updated to " ++ status data)%string;
               type := "order_status";
               userId := order_buyerId order;
               data_orderId := order_id order;
               data_orderNumber := order_orderNumber order;
               data_status := status data;
               data_notes := notes data;
               createdAt := now |} in
          (db,
           [ToRoom (user_room (order_buyerId order)) "notification" (Notify notification);
            ToRoom (user_room (order_buyerId order)) "order-updated"
              (OrderUpdated (order_id order) (status data) (notes data));
            ToSocket "order-status-updated"
              (StatusUpdated true (order_id order) (status data))])
    end.

End SocketService.

(** ** A reference implementation of the two packages

    Used to run the handlers on concrete requests. A token is the text of
    its claims, each field preceded by its length in unary, and names the
    key it was signed with where a real token carries the keyed digest. As
    in the package, [iat] is the clock in whole seconds, [exp] is [iat] plus
    the span of [expiresIn], a token is expired once the clock, in seconds,
    has reached [exp], and signing fails on an [expiresIn] that is not a
    timespan. *)

Module PlainJwt.

Fixpoint ones (n : nat) (rest : string) : string :=
  match n with
  | O => String "0" rest
  | S m => String "1" (ones m rest)
  end.

(** [s], framed, in front of [rest]. *)
Definition frame (s rest : string) : string :=
  ones (String.length s) (s ++ rest)%string.

Fixpoint count_ones (s : string) : option (nat * string) :=
  match s with
  | String "1" r =>
      match count_ones r with
      | Some (n, t) => Some (S n, t)
      | None => None
      end
  | String "0" r => Some (O, r)
  | _ => None
  end.

Fixpoint split_at (n : nat) (s : string) : option (string * string) :=
  match n, s with
  | O, _ => Some (EmptyString, s)
  | S m, String a r =>
      match split_at m r with
      | Some (x, t) => Some (String a x, t)
      | None => None
      end
  | S _, EmptyString => None
  end.

Definition unframe (s : string) : option (string * string) :=
  match count_ones s with
  | Some (n, r) => split_at n r
  | None => None
  end.

Definition role_text (r : UserRole) : string :=
  match r with
  | BUYER => "BUYER"
  | SELLER => "SELLER"
  | ADMIN => "ADMIN"
  end.

Definition role_of_text (s : string) : option UserRole :=
  if String.eqb s "BUYER" then Some BUYER
  else if String.eqb s "SELLER" then Some SELLER
  else if String.eqb s "ADMIN" then Some ADMIN
  else None.

Definition sellerRole_text (r : option SellerRole) : string :=
  match r with
  | None => "null"
  | Some MANAGER => "MANAGER"
  | Some ACCOUNTANT => "ACCOUNTANT"
  | Some INVENTORY_STAFF => "INVENTORY_STAFF"
  end.

Definition sellerRole_of_text (s : string) : option (option SellerRole) :=
  if String.eqb s "null" then Some None
  else if String.eqb s "MANAGER" then Some (Some MANAGER)
  else if String.eqb s "ACCOUNTANT" then Some (Some ACCOUNTANT)
  else if String.eqb s "INVENTORY_STAFF" then Some (Some INVENTORY_STAFF)
  else None.

(** The digits [s] begins with, as a number, and what follows them. *)
Fixpoint leading_number (s : string) (acc : option Z) : option Z * string :=
  match s with
  | String a r =>
      match Js.digit_of a with
      | Some d =>
          leading_number r (Some (10 * match acc with Some n => n | None => 0 end + d))
      | None => (acc, s)
      end
  | EmptyString => (acc, s)
  end.

Definition lower_case (a : ascii) : ascii :=
  let n := nat_of_ascii a in
  if (65 <=? n)%nat && (n <=? 90)%nat then ascii_of_nat (n + 32) else a.

Fixpoint lower (s : string) : string :=
  match s with
  | String a r => String (lower_case a) (lower r)
  | EmptyString => EmptyString
  end.

Fixpoint skip_blanks (s : string) : string :=
  match s with
  | String " " r => skip_blanks r
  | _ => s
  end.

(** The milliseconds in a unit of time, by its names. *)
Definition unit_milliseconds (unit : string) : option Z :=
  let named := existsb (String.eqb unit) in
  if named ["years"; "year"; "yrs"; "yr"; "y"] then Some 31557600000
  else if named ["weeks"; "week"; "w"] then Some 604800000
  else if named ["days"; "day"; "d"] then Some 86400000
  else if named ["hours"; "hour"; "hrs"; "hr"; "h"] then Some 3600000
  else if named ["minutes"; "minute"; "mins"; "min"; "m"] then Some 60000
  else if named ["seconds"; "second"; "secs"; "sec"; "s"] then Some 1000
  else if named ["milliseconds"; "millisecond"; "msecs"; "msec"; "ms"; ""] then Some 1
  else None.

(** The digits [s] begins with, read after the number [acc], how many they
    are, and what follows them. *)
Fixpoint leading_digits (s : string) (acc : Z) (count : nat) : Z * nat * string :=
  match s with
  | String a r =>
      match Js.digit_of a with
      | Some d => leading_digits r (10 * acc + d) (S count)
      | None => (acc, count, s)
      end
  | EmptyString => (acc, count, s)
  end.

(** A decimal number without a sign at the start of [s]: digits, digits
    with a fraction, or a fraction alone. The number is [n / 10 ^ k]. *)
Definition leading_decimal (s : string) : option (Z * nat * string) :=
  let '(whole, digits, rest) := leading_digits s 0 0 in
  match rest with
  | String "." r =>
      let '(n, k, rest') := leading_digits r whole 0 in
      match k with
      | O => if (digits =? 0)%nat then None else Some (whole, O, rest)
      | S _ => Some (n, k, rest')
      end
  | _ => if (digits =? 0)%nat then None else Some (whole, O, rest)
  end.

(** The timespans this package reads, in whole seconds, rounded down: a
    decimal number, with a minus sign or without, then blanks and the name
    of a unit, in either case, as in ["15m"], ["7d"], ["1.5h"] and
    ["2 Days"]; without a unit the number counts milliseconds. A text of
    more than 100 characters is not a timespan. The span is computed
    exactly, where the package computes it in doubles. *)
Definition span (expiresIn : string) : option Z :=
  if (100 <? String.length expiresIn)%nat then None
  else
    let (negative, number) :=
      match expiresIn with
      | String "-" r => (true, r)
      | _ => (false, expiresIn)
      end in
    match leading_decimal number with
    | Some (n, k, rest) =>
        match unit_milliseconds (lower (skip_blanks rest)) with
        | Some unit =>
            Some ((if negative then - n else n) * unit / (10 ^ Z.of_nat k * 1000))
        | None => None
        end
    | None => None
    end.

Definition sign (p : Jwt.Payload) (secret expiresIn : string) (clock : Z)
  : option string :=
  match span expiresIn with
  | None => None
  | Some lifetime =>
      let iat := clock / 1000 in
      let exp := iat + lifetime in
      Some (frame (Jwt.type p)
              (frame (Jwt.userId p)
                 (frame (Jwt.email p)
                    (frame (role_text (Jwt.role p))
                       (frame (sellerRole_text (Jwt.sellerRole p))
                          (frame (Js.decimal iat)
                             (frame (Js.decimal exp)
                                (frame secret EmptyString))))))))
  end.

Definition verify (token secret : string) (clock : Z) : option Jwt.Payload :=
  match unframe token with
  | Some (type, r1) =>
  match unframe r1 with
  | Some (userId, r2) =>
  match unframe r2 with
  | Some (email, r3) =>
  match unframe r3 with
  | Some (role, r4) =>
  match unframe r4 with
  | Some (sellerRole, r5) =>
  match unframe r5 with
  | Some (iat, r6) =>
  match unframe r6 with
  | Some (exp, r7) =>
  match unframe r7 with
  | Some (key, EmptyString) =>
      match role_of_text role, sellerRole_of_text sellerRole,
            fst (leading_number exp None) with
      | Some role, Some sellerRole, Some exp =>
          if String.eqb key secret && (clock / 1000 <? exp) then
            Some {| Jwt.userId := userId; Jwt.email := email; Jwt.role := role;
                    Jwt.sellerRole := sellerRole; Jwt.type := type |}
          else None
      | _, _, _ => None
      end
  | _ => None
  end
  | None => None end
  | None => None end
  | None => None end
  | None => None end
  | None => None end
  | None => None end
  | None => None end.

End PlainJwt.

Module PlainBcrypt.

(** The digest is the salted password itself. *)
Definition hash (password : string) (rounds : Z) (salt : string) : string :=
  PlainJwt.frame salt password.

Definition compare (password hash : string) : bool :=
  match PlainJwt.unframe hash with
  | Some (_, p) => String.eqb p password
  | None => false
  end.

Definition lib : Bcrypt.Lib := {| Bcrypt.hash := hash; Bcrypt.compare := compare |}.

End PlainBcrypt.

(** ** A small shop, for running the handlers *)

Module Sample.

Import Schema.

Definition account (id email password name : string) (role : UserRole)
    (sellerRole : option SellerRole) (status : UserStatus) : User :=
  {| user_id := id; user_email := email; user_password := password;
     user_name := name; user_phone := None; user_role := role;
     user_sellerRole := sellerRole; user_businessName := None;
     user_businessPhone := None; user_businessAddress := None;
     user_status := status; user_createdAt := 0 |}.

Definition alice : User :=
  account "u-alice" "alice@example.com" (PlainBcrypt.hash "Wonder1and!" 12 "s1")
    "Alice" BUYER None ACTIVE.

Definition bob : User :=
  account "u-bob" "bob@example.com" (PlainBcrypt.hash "Bu1lder!!" 12 "s2")
    "Bob" SELLER (Some MANAGER) ACTIVE.

Definition carol : User :=
  account "u-carol" "carol@example.com" (PlainBcrypt.hash "Adm1n!!!" 12 "s3")
    "Carol" ADMIN None ACTIVE.

Definition item (id title : string) (price : Q) (seller : string) : Product :=
  {| product_id := id; product_title := title; product_description := title;
     product_price := price; product_discountPrice := None;
     product_discountEndDate := None; product_stock := 5; product_sku := id;
     product_categoryId := "c-1"; product_sellerId := seller;
     product_images := ["https://example.com/a.png"]; product_video := None;
     product_isActive := true; product_createdAt := 1000 |}.

Definition lamp : Product := item "p-lamp" "Lamp" (1200 # 1) "u-bob".
Definition mug : Product := item "p-mug" "Mug" (250 # 1) "u-bob".

Definition order1 : Order :=
  {| order_id := "o-1"; order_orderNumber := "ORD-1"; order_status := "PROCESSING";
     order_buyerId := "u-alice"; order_sellerId := "u-bob"; order_total := 1300 # 1 |}.

Definition shop : Db :=
  {| users := [alice; bob; carol];
     refreshTokens := [];
     products := [lamp; mug];
     orderItems := [{| item_id := "i-1"; item_orderId := "o-1";
                       item_productId := "p-lamp"; item_quantity := 1;
                       item_price := 1200 # 1 |}];
     orders := [order1];
     orderStatusHistory :=
       [{| history_orderId := "o-1"; history_status := "PENDING_APPROVAL";
           history_notes := Some "Order placed successfully" |};
        {| history_orderId := "o-1"; history_status := "PROCESSING";
           history_notes := Some "Order approved and processing started" |}] |}.

(** The configuration when no variable of the environment is set. *)
Definition config : JWTUtil.Config := JWTUtil.config_of_env (fun _ => None).

(** The token of a generator that returned. *)
Definition token_of (generated : Outcome string) : string :=
  match generated with
  | Return token => token
  | Throw _ => ""
  end.

End Sample.

(** ** The other middleware of middleware/auth.ts

    A middleware that only inspects [req.user] is a function of it; its
    value is what it leaves for the next handler. *)

Module Authorization.

Import Schema.

Section Optional.

Context (J : Jwt.Lib) (cfg : JWTUtil.Config).

(** [optionalAuth]: the value is the [req.user] it attaches, if any. Token
    errors are swallowed by the inner [catch], and nothing outside it can
    throw, so the middleware always calls [next()]. *)
Definition optionalAuth (now : Z) (authorization accessCookie : option string) (db : Db)
  : option Http.UserSummary :=
  match AuthMiddleware.request_token authorization accessCookie with
  | Some token =>
      if Js.truthy_str (Some token) then
        match JWTUtil.verifyAccessToken J cfg "optionalAuth (auth.ts:87)" now token with
        | Return decoded =>
            match Prisma.user_findUnique_id (Jwt.userId decoded) (users db) with
            | Some user =>
                if UserStatus_eqb (user_status user) ACTIVE then
                  Some (AuthController.summary_of user)
                else None
            | None => None
            end
        | Throw _ => None
        end
      else None
  | None => None
  end.

End Optional.

(** [allowedRoles.includes(role)]. *)
Definition includes_role (allowed : list UserRole) (role : UserRole) : bool :=
  existsb (UserRole_eqb role) allowed.

Definition includes_sellerRole (allowed : list SellerRole) (sellerRole : SellerRole) : bool :=
  existsb (SellerRole_eqb sellerRole) allowed.

Definition authorize (allowedRoles : list UserRole) (user : option Http.UserSummary)
  : Outcome unit :=
  match user with
  | None =>
      Throw (ErrorUtil.createUnauthorizedError "authorize (auth.ts:121)"
               "Authentication required")
  | Some u =>
      if negb (includes_role allowedRoles (Http.summary_role u)) then
        Throw (ErrorUtil.createForbiddenError "authorize (auth.ts:125)"
                 "Insufficient permissions")
      else Return tt
  end.

Definition authorizeSellerRole (allowedSellerRoles : list SellerRole)
    (user : option Http.UserSummary) : Outcome unit :=
  match user with
  | None =>
      Throw (ErrorUtil.createUnauthorizedError "authorizeSellerRole (auth.ts:140)"
               "Authentication required")
  | Some u =>
      if negb (UserRole_eqb (Http.summary_role u) SELLER)
         && negb (UserRole_eqb (Http.summary_role u) ADMIN) then
        Throw (ErrorUtil.createForbiddenError "authorizeSellerRole (auth.ts:144)"
                 "Seller access required")
      else if UserRole_eqb (Http.summary_role u) ADMIN then Return tt
      else
        match Http.summary_sellerRole u with
        | None =>
            Throw (ErrorUtil.createForbiddenError "authorizeSellerRole (auth.ts:153)"
                     "Insufficient seller permissions")
        | Some sellerRole =>
            if negb (includes_sellerRole allowedSellerRoles sellerRole) then
              Throw (ErrorUtil.createForbiddenError "authorizeSellerRole (auth.ts:153)"
                       "Insufficient seller permissions")
            else Return tt
        end
  end.

Definition requirePermission (permissionCheck : UserRole -> option SellerRole -> bool)
    (user : option Http.UserSummary) : Outcome unit :=
  match user with
  | None =>
      Throw (ErrorUtil.createUnauthorizedError "requirePermission (auth.ts:168)"
               "Authentication required")
  | Some u =>
      let hasPermission := permissionCheck (Http.summary_role u) (Http.summary_sellerRole u) in
      if negb hasPermission then
        Throw (ErrorUtil.createForbiddenError "requirePermission (auth.ts:174)"
                 "Permission denied")
      else Return tt
  end.

Definition adminOnly := authorize [ADMIN].
Definition sellerOnly := authorize [SELLER].
Definition buyerOnly := authorize [BUYER].
Definition managerOnly := authorizeSellerRole [MANAGER].
Definition managerOrAccountant := authorizeSellerRole [MANAGER; ACCOUNTANT].
Definition managerOrInventory := authorizeSellerRole [MANAGER; INVENTORY_STAFF].
Definition canManageProducts := requirePermission PermissionUtil.canManageProducts.
Definition canManageOrders := requirePermission PermissionUtil.canManageOrders.
Definition canViewFinancials := requirePermission PermissionUtil.canViewFinancials.

(** [requireOwnership(resourceIdParam, allowAdminAccess)]; [resourceId] is
    [req.params[resourceIdParam]], [None] when the route has no such
    parameter. *)
Definition requireOwnership (allowAdminAccess : bool) (resourceId : option string)
    (user : option Http.UserSummary) : Outcome unit :=
  match user with
  | None =>
      Throw (ErrorUtil.createUnauthorizedError "requireOwnership (auth.ts:216)"
               "Authentication required")
  | Some u =>
      if allowAdminAccess && UserRole_eqb (Http.summary_role u) ADMIN then Return tt
      else
        match resourceId with
        | Some r =>
            if negb (String.eqb r (Http.summary_id u)) then
              Throw (ErrorUtil.createForbiddenError "requireOwnership (auth.ts:228)"
                       "Access denied: You can only access your own resources")
            else Return tt
        | None =>
            Throw (ErrorUtil.createForbiddenError "requireOwnership (auth.ts:228)"
                     "Access denied: You can only access your own resources")
        end
  end.

(** What [requireSellerOwnership] writes to [req.body._requireSellerOwnership]. *)
Record OwnershipNote := { note_sellerId : string; note_field : string }.

(** [requireSellerOwnership(resourceField)]: the value is the note it leaves
    in the request body, none for an administrator. The ownership itself
    is left to the controller. *)
Definition requireSellerOwnership (resourceField : string) (user : option Http.UserSummary)
  : Outcome (option OwnershipNote) :=
  match user with
  | None =>
      Throw (ErrorUtil.createUnauthorizedError "requireSellerOwnership (auth.ts:243)"
               "Authentication required")
  | Some u =>
      if UserRole_eqb (Http.summary_role u) ADMIN then Return None
      else if negb (UserRole_eqb (Http.summary_role u) SELLER) then
        Throw (ErrorUtil.createForbiddenError "requireSellerOwnership (auth.ts:253)"
                 "Seller access required")
      else
        Return (Some {| note_sellerId := Http.summary_id u; note_field := resourceField |})
  end.

End Authorization.

(** ** The [DELETE /:id] route of routes/products.ts

    [router.use(authenticate)], then [canManageProducts],
    [requireSellerOwnership('sellerId')] and the controller. *)

Module ProductRoutes.

Import Schema.

Section Routes.

Context (J : Jwt.Lib) (cfg : JWTUtil.Config).

Definition deleteRoute (now : Z) (authorization accessCookie : option string) (id : string)
  : Express.Handler :=
  fun db =>
  match AuthMiddleware.authenticate J cfg now authorization accessCookie db with
  | Throw e => (db, Throw e)
  | Return user =>
      match Authorization.canManageProducts (Some user) with
      | Throw e => (db, Throw e)
      | Return _ =>
          match Authorization.requireSellerOwnership "sellerId" (Some user) with
          | Throw e => (db, Throw e)
          | Return _ => ProductController.deleteProduct user id db
          end
      end
  end.

End Routes.

End ProductRoutes.

(** ** ValidationUtil.sanitizeString (src/utils/index.ts) *)

Module Sanitize.

(** The code units matched by [\s] and removed by [trim]: tab to carriage
    return, space, no-break space, Ogham space, the spaces U+2000 to
    U+200A, the line and paragraph separators, narrow no-break space,
    medium mathematical space, ideographic space and the byte-order mark. *)
Definition is_whitespace (c : Js.codeunit) : bool :=
  ((9 <=? c) && (c <=? 13))%N
  || Js.in_class [32; 160; 5760; 8232; 8233; 8239; 8287; 12288; 65279]%N c
  || ((8192 <=? c) && (c <=? 8202))%N.

Fixpoint trimStart (s : Js.jsstring) : Js.jsstring :=
  match s with
  | c :: r => if is_whitespace c then trimStart r else s
  | [] => []
  end.

Definition trimEnd (s : Js.jsstring) : Js.jsstring := rev (trimStart (rev s)).

(** [s.trim()]. *)
Definition trim (s : Js.jsstring) : Js.jsstring := trimEnd (trimStart s).

(** [s.replace(/\s+/g, ' ')]: every maximal run of whitespace becomes one
    space. [in_run] tells that the unit before was whitespace. *)
Fixpoint replace_runs (in_run : bool) (s : Js.jsstring) : Js.jsstring :=
  match s with
  | [] => []
  | c :: r =>
      if is_whitespace c then
        if in_run then replace_runs true r else 32%N :: replace_runs true r
      else c :: replace_runs false r
  end.

Definition sanitizeString (str : Js.jsstring) : Js.jsstring :=
  replace_runs false (trim str).

(** The same on a [string], which stands for the JavaScript string with the
    same code units, all below 256. *)
Fixpoint text (s : Js.jsstring) : string :=
  match s with
  | [] => EmptyString
  | c :: r => String (ascii_of_N c) (text r)
  end.

Definition sanitizeText (str : string) : string := text (sanitizeString (Js.units str)).

End Sanitize.

(** ** AuthController.register (controllers/authController.ts) *)

Module Registration.

Import Schema.

(** [req.validatedData] of the register route. *)
Record RegisterData := {
  email : string;
  password : string;
  name : string;
  phone : option string;
  role : option UserRole;
  sellerRole : option SellerRole;
  businessName : option string;
  businessPhone : option string;
  businessAddress : option string
}.

(** [ValidationUtil.sanitizeString(x)] where [x] may be [undefined], on
    which [trim] is not defined. *)
Definition sanitize_field (line : string) (x : option string) : Outcome string :=
  match x with
  | Some s => Return (Sanitize.sanitizeText s)
  | None =>
      Throw (JsError.new_TypeError
               ["ValidationUtil.sanitizeString (utils/index.ts:178)";
                ("AuthController.register (authController.ts:" ++ line ++ ")")%string]
               "Cannot read properties of undefined (reading 'trim')")
  end.

(** [if (x) data.x = x]: an absent or empty value leaves the column null. *)
Definition if_truthy (x : option string) : option string :=
  if Js.truthy_str x then x else None.

(** [user.create({ data })]; [id] is the key the store gives the row and
    [createdAt] its default. *)
Definition user_create (row : User) (rows : list User) : Outcome (list User) :=
  if existsb (fun u => String.eqb (user_email u) (user_email row)) rows then
    Throw (Prisma.uniqueViolation "email")
  else Return (rows ++ [row]).

Section Register.

Context (J : Jwt.Lib) (cfg : JWTUtil.Config) (B : Bcrypt.Lib) (nodeEnv : option string).

(** [userId] and [rowId] are the keys the store gives the two new rows and
    [salt] the salt bcrypt draws. *)
Definition register (now : Z) (userId rowId salt : string) (data : RegisterData)
  : Express.Handler :=
  fun db =>
  let role := match role data with Some r => r | None => BUYER end in
  match Prisma.user_findUnique_email (email data) (users db) with
  | Some _ =>
      (db, Throw (ErrorUtil.createError "AuthController.register (authController.ts:36)"
                    "Email already registered" 409 None))
  | None =>
      let hashedPassword := Bcrypt.hash B (password data) AuthController.saltRounds salt in
      let seller :=
        if UserRole_eqb role SELLER then
          bind (sanitize_field "57" (businessName data)) (fun bn =>
          bind (sanitize_field "59" (businessAddress data)) (fun ba =>
          Return (sellerRole data, Some bn, businessPhone data, Some ba)))
        else Return (None, None, None, None) in
      match seller with
      | Throw e => (db, Throw e)
      | Return (sr, bn, bp, ba) =>
          let user :=
            {| user_id := userId;
               user_email := email data;
               user_password := hashedPassword;
               user_name := Sanitize.sanitizeText (name data);
               user_phone := if_truthy (phone data);
               user_role := role;
               user_sellerRole := sr;
               user_businessName := bn;
               user_businessPhone := bp;
               user_businessAddress := ba;
               user_status := ACTIVE;
               user_createdAt := now |} in
          match user_create user (users db) with
          | Throw e => (db, Throw e)
          | Return us =>
              let db := set_users db us in
              match JWTUtil.generateTokenPair J cfg
                      "AuthController.register (authController.ts:80)" now
                      (AuthController.subject_of (user_id user) (user_email user)
                         (user_role user) (user_sellerRole user)) with
              | Throw e => (db, Throw e)
              | Return tokens =>
                  match Prisma.refreshToken_create
                          {| rt_id := rowId;
                             rt_token := Http.refreshToken tokens;
                             rt_userId := user_id user;
                             rt_expiresAt := now + AuthController.sevenDays |}
                          (refreshTokens db) with
                  | Throw e => (db, Throw e)
                  | Return rows =>
                      (set_refreshTokens db rows,
                       Return {| Http.status := 201;
                                 Http.cookies :=
                                   AuthController.token_cookies nodeEnv tokens;
                                 Http.body :=
                                   Http.success_body "Account created successfully"
                                     (Some (Http.LoginData
                                              (AuthController.profile_of user)
                                              tokens)) |})
                  end
              end
          end
      end
  end.

End Register.

End Registration.

(** ** The phone and password schemas of utils/validation.ts, and
    ValidationUtil.isValidPhone (src/utils/index.ts)

    A Zod string schema runs its checks in order and reports one issue for
    each check that fails; its [transform] is applied only to a value that
    passed every check. *)

Module Validation.

Record Check := { holds : Js.jsstring -> bool; issue : string }.

Definition issues (checks : list Check) (s : Js.jsstring) : list string :=
  map issue (filter (fun c => negb (holds c s)) checks).

(** [schema.parse(s)]: the issues, or the transformed value. *)
Definition parse (checks : list Check) (transform : Js.jsstring -> Js.jsstring)
    (s : Js.jsstring) : list string + Js.jsstring :=
  match issues checks s with
  | [] => inr (transform s)
  | found => inl found
  end.

(** [s] without the prefix [p], if it begins with it. *)
Fixpoint strip_prefix (p s : Js.jsstring) : option Js.jsstring :=
  match p, s with
  | [], _ => Some s
  | a :: p', b :: s' => if (a =? b)%N then strip_prefix p' s' else None
  | _ :: _, [] => None
  end.

(** [/^(\+8801|8801|01)[3-9]\d{8}$/.test(s)]: one of the three prefixes,
    a unit from 3 to 9, and eight digits to the end. *)
Definition phone_pattern (s : Js.jsstring) : bool :=
  existsb
    (fun prefix =>
       match strip_prefix (Js.units prefix) s with
       | Some (d :: rest) =>
           Js.in_range "3" "9" d
           && (List.length rest =? 8)%nat
           && forallb (Js.in_range "0" "9") rest
       | _ => false
       end)
    ["+8801"; "8801"; "01"].

(** [s.replace(/\s/g, '')]. *)
Definition remove_whitespace (s : Js.jsstring) : Js.jsstring :=
  filter (fun c => negb (Sanitize.is_whitespace c)) s.

(** [ValidationUtil.isValidPhone]. *)
Definition isValidPhone (phone : Js.jsstring) : bool :=
  phone_pattern (remove_whitespace phone).

Definition phoneSchema : Js.jsstring -> list string + Js.jsstring :=
  parse [ {| holds := phone_pattern; issue := "Invalid Bangladesh phone number format" |} ]
    remove_whitespace.

Definition passwordChecks : list Check :=
  [ {| holds := fun s => negb (Z.of_nat (List.length s) <? 8);
       issue := "Password must be at least 8 characters" |};
    {| holds := Js.test (Js.in_range "A" "Z");
       issue := "Password must contain at least one uppercase letter" |};
    {| holds := Js.test (Js.in_range "a" "z");
       issue := "Password must contain at least one lowercase letter" |};
    {| holds := Js.test (Js.in_range "0" "9");
       issue := "Password must contain at least one number" |};
    {| holds := Js.test (Js.in_class PasswordUtil.special_class);
       issue := "Password must contain at least one special character" |} ].

Definition passwordSchema : Js.jsstring -> list string + Js.jsstring :=
  parse passwordChecks (fun s => s).

End Validation.

(** ** socketAuth (middleware/socketAuth.ts) and the room events of
    setupSocketHandlers (services/socketService.ts) *)

Module SocketAuth.

Import Schema.

(** [s.replace(pattern, replacement)] for a string pattern: the first
    occurrence only. *)
Fixpoint replace_first (pattern replacement s : string) : string :=
  if String.prefix pattern s then
    (replacement
       ++ String.substring (String.length pattern) (String.length s - String.length pattern) s)
      %string
  else
    match s with
    | EmptyString => EmptyString
    | String a r => String a (replace_first pattern replacement r)
    end.

(** [a.toLowerCase()] for a Latin capital letter; other ASCII characters
    are unchanged. *)
Definition lower (a : ascii) : ascii :=
  let n := nat_of_ascii a in
  if ((65 <=? n) && (n <=? 90))%nat then ascii_of_nat (n + 32) else a.

Fixpoint toLowerCase (s : string) : string :=
  match s with
  | EmptyString => EmptyString
  | String a r => String (lower a) (toLowerCase r)
  end.

(** The value of the enumeration is its name. *)
Definition sellerRole_name (r : SellerRole) : string :=
  match r with
  | MANAGER => "MANAGER"
  | ACCOUNTANT => "ACCOUNTANT"
  | INVENTORY_STAFF => "INVENTORY_STAFF"
  end.

(** [auth.token || headers.authorization?.replace('Bearer ', '')]. *)
Definition handshake_token (authToken authorization : option string) : option string :=
  if Js.truthy_str authToken then authToken
  else option_map (replace_first "Bearer " "") authorization.

(** The rooms the middleware joins after the personal room. *)
Definition role_rooms (role : UserRole) (sellerRole : option SellerRole) : list string :=
  ((if UserRole_eqb role SELLER then
      "sellers" ::
      match sellerRole with
      | Some r => [("seller_" ++ toLowerCase (sellerRole_name r))%string]
      | None => []
      end
    else [])
   ++ (if UserRole_eqb role ADMIN then ["admins"] else [])
   ++ (if UserRole_eqb role BUYER then ["buyers"] else []))%list.

Definition socketUser_of (u : User) : SocketService.SocketUser :=
  {| SocketService.id := user_id u;
     SocketService.email := user_email u;
     SocketService.name := user_name u;
     SocketService.role := user_role u;
     SocketService.sellerRole := user_sellerRole u |}.

Section Middleware.

Context (J : Jwt.Lib) (cfg : JWTUtil.Config).

(** The value is [socket.data.user] and the rooms joined, in order; an
    error is the one handed to [next]. *)
Definition socketAuth (now : Z) (authToken authorization : option string) (db : Db)
  : Outcome (SocketService.SocketUser * list string) :=
  let token := handshake_token authToken authorization in
  if negb (Js.truthy_str token) then
    Throw (JsError.new_Error ["socketAuth (socketAuth.ts:12)"]
             "Authentication error: No token provided")
  else
    match JWTUtil.verifyAccessToken J cfg "socketAuth (socketAuth.ts:16)" now
            (Js.str_or token "") with
    | Throw error =>
        Throw (JsError.new_Error ["socketAuth (socketAuth.ts:65)"]
                 ("Authentication error: " ++ JsError.message error)%string)
    | Return decoded =>
        match Prisma.user_findUnique_id (Jwt.userId decoded) (users db) with
        | None =>
            Throw (JsError.new_Error ["socketAuth (socketAuth.ts:32)"]
                     "Authentication error: User not found")
        | Some user =>
            if negb (UserStatus_eqb (user_status user) ACTIVE) then
              Throw (JsError.new_Error ["socketAuth (socketAuth.ts:36)"]
                       "Authentication error: Account is suspended or banned")
            else
              Return (socketUser_of user,
                      SocketService.user_room (user_id user)
                        :: role_rooms (user_role user) (user_sellerRole user))
        end
    end.

End Middleware.

End SocketAuth.

(** The sockets of the server and their rooms. [io.to(room).emit] reaches
    the sockets that are in [room], [socket.emit] the socket itself; a
    socket is in the room named by its own id from the start. *)

Module SocketRooms.

Record Connection := {
  socketId : string;
  user : SocketService.SocketUser;
  rooms : list string
}.

Definition Server : Type := list Connection.

Definition in_room (room : string) (c : Connection) : bool :=
  existsb (String.eqb room) (rooms c).

(** A socket that passed the middleware, which joined [joined]. *)
Definition connect (id : string) (u : SocketService.SocketUser) (joined : list string)
    (server : Server) : Server :=
  (server ++ [{| socketId := id; user := u; rooms := id :: joined |}])%list.

Definition on_socket (id : string) (f : list string -> list string) (server : Server)
  : Server :=
  map (fun c => if String.eqb (socketId c) id then
                  {| socketId := socketId c; user := user c; rooms := f (rooms c) |}
                else c)
    server.

(** The [join-room] event: [socket.join(room)]. *)
Definition joinRoom (id room : string) : Server -> Server :=
  on_socket id (fun rs => if existsb (String.eqb room) rs then rs else (rs ++ [room])%list).

(** The [leave-room] event: [socket.leave(room)]. *)
Definition leaveRoom (id room : string) : Server -> Server :=
  on_socket id (filter (fun r => negb (String.eqb r room))).

(** The sockets an emission of the socket [sender] reaches. *)
Definition receivers (server : Server) (sender : string) (e : SocketService.Emit)
  : list string :=
  match e with
  | SocketService.ToSocket _ _ => [sender]
  | SocketService.ToRoom room _ _ => map socketId (filter (in_room room) server)
  end.

End SocketRooms.

(* ===================================================================== *)
(** * Properties                                                          *)
(* ===================================================================== *)


(** ** Seller sub-roles *)

Module PermissionProps.

Import PermissionUtil.

Lemma UserRole_eqb_eq (a b : UserRole) : UserRole_eqb a b = true <-> a = b.
Proof. destruct a, b; cbn; split; intro H; try reflexivity; discriminate H. Qed.

Lemma sellerRole_is_eq (sr : option SellerRole) (x : SellerRole) :
  sellerRole_is sr x = true <-> sr = Some x.
Proof.
  destruct sr as [r|]; cbn.
  - destruct r, x; cbn; split; intro H; try reflexivity; discriminate H.
  - split; intro H; discriminate H.
Qed.

(** C4. The permission predicates are exactly the table of the
    specification: products for ADMIN and for a SELLER who is MANAGER or
    INVENTORY_STAFF, orders for ADMIN and for a SELLER who is MANAGER,
    financials for ADMIN and for a SELLER who is MANAGER or ACCOUNTANT,
    users for ADMIN alone. *)
Theorem seller_role_gates (role : UserRole) (sellerRole : option SellerRole) :
  (canManageProducts role sellerRole = true <->
     role = ADMIN \/
     (role = SELLER /\ (sellerRole = Some MANAGER \/ sellerRole = Some INVENTORY_STAFF)))
  /\ (canManageOrders role sellerRole = true <->
        role = ADMIN \/ (role = SELLER /\ sellerRole = Some MANAGER))
  /\ (canViewFinancials role sellerRole = true <->
        role = ADMIN \/
        (role = SELLER /\ (sellerRole = Some MANAGER \/ sellerRole = Some ACCOUNTANT)))
  /\ (canManageUsers role = true <-> role = ADMIN).
Proof.
  unfold canManageProducts, canManageOrders, canViewFinancials, canManageUsers.
  destruct role; cbn [UserRole_eqb];
    rewrite ?Bool.orb_true_iff, ?sellerRole_is_eq;
    repeat split; intros H;
      repeat match goal with
             | H : _ \/ _ |- _ => destruct H
             | H : _ /\ _ |- _ => destruct H
             end;
      try discriminate; try reflexivity; auto.
Qed.

End PermissionProps.

(** ** Password strength *)

Module PasswordProps.

Import PasswordUtil.

(** The five rules as the specification words them. *)
Inductive Rule := MinLength | Uppercase | Lowercase | Digit | Special.

Definition all_rules : list Rule := [MinLength; Uppercase; Lowercase; Digit; Special].

Definition rule_message (r : Rule) : string :=
  match r with
  | MinLength => "Password must be at least 8 characters long"
  | Uppercase => "Password must contain at least one uppercase letter"
  | Lowercase => "Password must contain at least one lowercase letter"
  | Digit => "Password must contain at least one number"
  | Special => "Password must contain at least one special character"
  end.

(** The special characters listed by the specification, by code unit:
    ! @ # $ % ^ & * ( ) _ + - = [ ] { } ; ' : double-quote \ | , . < > ? *)
Definition listed_specials : list N :=
  [33; 64; 35; 36; 37; 94; 38; 42; 40; 41; 95; 43; 45; 61; 91; 93; 123; 125;
   59; 39; 58; 34; 92; 124; 44; 46; 60; 62; 63]%N.

Definition satisfies (r : Rule) (password : Js.jsstring) : Prop :=
  match r with
  | MinLength => (8 <= List.length password)%nat
  | Uppercase => exists c, In c password /\ (65 <= c <= 90)%N
  | Lowercase => exists c, In c password /\ (97 <= c <= 122)%N
  | Digit => exists c, In c password /\ (48 <= c <= 57)%N
  | Special => exists c, In c password /\ In c listed_specials
  end.

(** The test the code makes for each rule. *)
Definition violated (r : Rule) (password : Js.jsstring) : bool :=
  match r with
  | MinLength => Z.of_nat (List.length password) <? 8
  | Uppercase => negb (Js.test (Js.in_range "A" "Z") password)
  | Lowercase => negb (Js.test (Js.in_range "a" "z") password)
  | Digit => negb (Js.test (Js.in_range "0" "9") password)
  | Special => negb (Js.test (Js.in_class special_class) password)
  end.

Lemma errors_filter (password : Js.jsstring) :
  errors (validatePasswordStrength password)
  = map rule_message (filter (fun r => violated r password) all_rules).
Proof.
  unfold validatePasswordStrength, all_rules. cbn [errors filter violated].
  destruct (Z.of_nat (List.length password) <? 8);
    destruct (negb (Js.test (Js.in_range "A" "Z") password));
    destruct (negb (Js.test (Js.in_range "a" "z") password));
    destruct (negb (Js.test (Js.in_range "0" "9") password));
    destruct (negb (Js.test (Js.in_class special_class) password));
    reflexivity.
Qed.

Lemma test_range (lo hi : ascii) (password : Js.jsstring) :
  Js.test (Js.in_range lo hi) password = true
  <-> exists c, In c password /\ (N_of_ascii lo <= c <= N_of_ascii hi)%N.
Proof.
  unfold Js.test, Js.in_range, Js.unit_of_ascii. rewrite existsb_exists.
  split; intros [c [Hin Hc]]; exists c; split; trivial.
  - apply Bool.andb_true_iff in Hc. destruct Hc as [H1 H2].
    apply N.leb_le in H1. apply N.leb_le in H2. split; assumption.
  - apply Bool.andb_true_iff. split; apply N.leb_le; apply Hc.
Qed.

Lemma special_class_listed : special_class = listed_specials.
Proof. reflexivity. Qed.

Lemma test_class (password : Js.jsstring) :
  Js.test (Js.in_class special_class) password = true
  <-> exists c, In c password /\ In c listed_specials.
Proof.
  unfold Js.test, Js.in_class. rewrite special_class_listed, existsb_exists.
  split; intros [c [Hin Hc]]; exists c; split; trivial.
  - apply existsb_exists in Hc. destruct Hc as [x [Hx Heq]].
    apply N.eqb_eq in Heq. subst x. exact Hx.
  - apply existsb_exists. exists c. split; [exact Hc | apply N.eqb_refl].
Qed.

Lemma violated_spec (r : Rule) (password : Js.jsstring) :
  violated r password = true <-> ~ satisfies r password.
Proof.
  destruct r; cbn [violated satisfies].
  - rewrite Z.ltb_lt. lia.
  - rewrite Bool.negb_true_iff, <- Bool.not_true_iff_false.
    apply not_iff_compat. apply (test_range "A" "Z").
  - rewrite Bool.negb_true_iff, <- Bool.not_true_iff_false.
    apply not_iff_compat. apply (test_range "a" "z").
  - rewrite Bool.negb_true_iff, <- Bool.not_true_iff_false.
    apply not_iff_compat. apply (test_range "0" "9").
  - rewrite Bool.negb_true_iff, <- Bool.not_true_iff_false.
    apply not_iff_compat. apply test_class.
Qed.

Lemma satisfies_spec (r : Rule) (password : Js.jsstring) :
  violated r password = false <-> satisfies r password.
Proof.
  rewrite <- Bool.not_true_iff_false, violated_spec.
  split; [| tauto].
  intro H. destruct (violated r password) eqn:E.
  - apply violated_spec in E. tauto.
  - destruct r; cbn [violated satisfies] in *.
    + apply Z.ltb_ge in E. lia.
    + apply Bool.negb_false_iff in E. apply (test_range "A" "Z") in E. exact E.
    + apply Bool.negb_false_iff in E. apply (test_range "a" "z") in E. exact E.
    + apply Bool.negb_false_iff in E. apply (test_range "0" "9") in E. exact E.
    + apply Bool.negb_false_iff in E. apply test_class in E. exact E.
Qed.

Lemma rule_message_inj (r r' : Rule) : rule_message r = rule_message r' -> r = r'.
Proof. destruct r, r'; cbn; intro H; try reflexivity; discriminate H. Qed.

(** C10. [validatePasswordStrength] accepts a password exactly when it has
    at least 8 code units and contains an uppercase letter, a lowercase
    letter, a digit and one of the listed special characters; otherwise
    [isValid] is false and [errors] holds exactly one message for each
    violated rule: the message of a rule is listed iff the rule is
    violated, nothing else is listed, and no message is repeated. *)
Theorem password_strength_rules (password : Js.jsstring) :
  let r := validatePasswordStrength password in
  (isValid r = true <->
     satisfies MinLength password /\ satisfies Uppercase password
     /\ satisfies Lowercase password /\ satisfies Digit password
     /\ satisfies Special password)
  /\ (isValid r = false <-> exists rule, ~ satisfies rule password)
  /\ (forall rule, In (rule_message rule) (errors r) <-> ~ satisfies rule password)
  /\ (forall m, In m (errors r) -> exists rule, m = rule_message rule)
  /\ NoDup (errors r).
Proof.
  cbv zeta.
  assert (Hvalid : isValid (validatePasswordStrength password) = true
                   <-> errors (validatePasswordStrength password) = []).
  { unfold validatePasswordStrength. cbn [isValid errors].
    rewrite Nat.eqb_eq. apply length_zero_iff_nil. }
  assert (Hin : forall rule,
             In (rule_message rule) (errors (validatePasswordStrength password))
             <-> violated rule password = true).
  { intro rule. rewrite errors_filter, in_map_iff. split.
    - intros [r' [Heq Hr']]. apply rule_message_inj in Heq. subst r'.
      apply filter_In in Hr'. apply Hr'.
    - intro Hv. exists rule. split; [reflexivity |].
      apply filter_In. split; [| exact Hv].
      unfold all_rules. destruct rule; cbn; tauto. }
  assert (Hall : errors (validatePasswordStrength password) = []
                 <-> forall rule, violated rule password = false).
  { split.
    - intros Hnil rule. destruct (violated rule password) eqn:E; [| reflexivity].
      apply Hin in E. rewrite Hnil in E. destruct E.
    - intro Hf. rewrite errors_filter. unfold all_rules. cbn [filter].
      rewrite !Hf. reflexivity. }
  split; [split | split; [split | split; [split | split]]].
  - intro H. apply Hvalid in H.
    repeat split; apply satisfies_spec; apply Hall; exact H.
  - intros [H1 [H2 [H3 [H4 H5]]]]. apply Hvalid. apply Hall.
    intros []; apply satisfies_spec; assumption.
  - intro H. apply Bool.not_true_iff_false in H.
    destruct (errors (validatePasswordStrength password)) as [| m rest] eqn:E.
    + exfalso. apply H. apply Hvalid. reflexivity.
    + assert (Hm : In m (m :: rest)) by (left; reflexivity).
      rewrite <- E, errors_filter in Hm. apply in_map_iff in Hm.
      destruct Hm as [rule [_ Hrule]]. apply filter_In in Hrule.
      exists rule. apply violated_spec. apply Hrule.
  - intros [rule Hrule]. apply Bool.not_true_iff_false. intro Hv.
    apply Hvalid in Hv. apply violated_spec in Hrule.
    rewrite (proj1 Hall Hv rule) in Hrule. discriminate Hrule.
  - intro H. apply violated_spec. apply Hin. exact H.
  - intro H. apply Hin. apply violated_spec. exact H.
  - intros m Hm. rewrite errors_filter in Hm. apply in_map_iff in Hm.
    destruct Hm as [rule [Heq _]]. exists rule. symmetry. exact Heq.
  - rewrite errors_filter. unfold all_rules. cbn [filter].
    destruct (violated MinLength password), (violated Uppercase password),
      (violated Lowercase password), (violated Digit password),
      (violated Special password); cbn [map rule_message];
      repeat (constructor; [cbn; intuition discriminate |]); constructor.
Qed.

(** The rules on two concrete passwords. *)
Lemma password_strength_rules_witness :
  isValid (validatePasswordStrength (Js.units "Abcdef1!")) = true
  /\ In (rule_message Digit) (errors (validatePasswordStrength (Js.units "Abcdefg!"))).
Proof.
  split.
  - apply (proj1 (password_strength_rules (Js.units "Abcdef1!"))).
    cbn [satisfies]. repeat split.
    + cbn. lia.
    + exists 65%N. cbn. split; [tauto | lia].
    + exists 98%N. cbn. split; [tauto | lia].
    + exists 49%N. cbn. split; [tauto | lia].
    + exists 33%N. cbn. split; tauto.
  - apply (proj1 (proj2 (proj2 (password_strength_rules (Js.units "Abcdefg!"))))).
    cbn [satisfies]. intros [c [Hin Hc]]. cbn in Hin.
    repeat (destruct Hin as [Hin | Hin]; [subst c; lia |]). exact Hin.
Defined.

End PasswordProps.

(** ** Pagination *)

Module PaginationProps.

Import Schema ResponseUtil.

(** [n] is the ceiling of [total / limit]: the least integer whose
    multiple of [limit] reaches [total]. *)
Definition is_ceiling (n total limit : Z) : Prop :=
  total <= n * limit /\ (n - 1) * limit < total.

(** A safe integer is its own double. *)
Lemma to_double_safe (z : Z) : Z.abs z <= Js.MAX_SAFE_INTEGER -> Js.to_double z = Js.Num z.
Proof.
  intro H. unfold Js.to_double.
  assert (Hl : Z.log2 (Z.abs z) < 53).
  { destruct (Z.eq_dec (Z.abs z) 0) as [E | E]; [rewrite E; reflexivity |].
    apply Z.log2_lt_pow2; [lia |]. unfold Js.MAX_SAFE_INTEGER in H. lia. }
  replace (Z.log2 (Z.abs z) - 52 <=? 0) with true by (symmetry; apply Z.leb_le; lia).
  reflexivity.
Qed.

Lemma nearest_cases (n d : Z) :
  0 < d ->
  (Js.nearest n d = n / d + 1 /\ d <= 2 * (n mod d))
  \/ (Js.nearest n d = n / d /\ 2 * (n mod d) <= d).
Proof.
  intro Hd. unfold Js.nearest.
  destruct (d <? 2 * (n mod d)) eqn:E1; cbn [orb].
  - left. apply Z.ltb_lt in E1. split; [reflexivity | lia].
  - apply Z.ltb_ge in E1. destruct (d =? 2 * (n mod d)) eqn:E2; cbn [andb].
    + apply Z.eqb_eq in E2. destruct (Z.odd (n / d)); [left | right]; split; try reflexivity; lia.
    + right. split; [reflexivity | lia].
Qed.

Lemma nearest_whole (n : Z) : Js.nearest n 1 = n.
Proof.
  unfold Js.nearest. rewrite Z.mod_1_r, Z.div_1_r. reflexivity.
Qed.

(** Rounding a quotient scaled by [P] to the nearest integer and scaling it
    back keeps its ceiling, as long as the divisor is below [2 * P]. *)
Lemma ceiling_of_nearest (a b P : Z) :
  0 < a -> 0 < b -> 0 < P -> b < 2 * P ->
  is_ceiling (- ((- Js.nearest (a * P) b) / P)) a b.
Proof.
  intros Ha Hb HP Hlt.
  pose proof (Z.div_mod (a * P) b ltac:(lia)) as Hdm.
  pose proof (Z.mod_pos_bound (a * P) b Hb) as Hr.
  set (q0 := a * P / b) in *. set (r0 := (a * P) mod b) in *.
  set (m := Js.nearest (a * P) b).
  pose proof (Z.div_mod (- m) P ltac:(lia)) as Hdm2.
  pose proof (Z.mod_pos_bound (- m) P HP) as Hr2.
  set (t := (- m) / P) in *. set (u := (- m) mod P) in *.
  unfold is_ceiling.
  destruct (nearest_cases (a * P) b Hb) as [[Hm Hup] | [Hm Hdown]];
    fold m q0 r0 in Hm, Hup || fold m q0 r0 in Hm, Hdown.
  - split.
    + destruct (Z.le_gt_cases a (- t * b)) as [H | H]; [exact H | exfalso]. nia.
    + destruct (Z.lt_ge_cases ((- t - 1) * b) a) as [H | H]; [exact H | exfalso]. nia.
  - split.
    + destruct (Z.le_gt_cases a (- t * b)) as [H | H]; [exact H | exfalso]. nia.
    + destruct (Z.lt_ge_cases ((- t - 1) * b) a) as [H | H]; [exact H | exfalso]. nia.
Qed.

(** [exponent a b] is the binary exponent of [a / b]. *)
Lemma exponent_spec (a b : Z) :
  0 < a -> 0 < b ->
  let e := Js.exponent a b in
  (0 <= e -> b * 2 ^ e <= a) /\ (e < 0 -> b <= a * 2 ^ (- e))
  /\ (0 <= e + 1 -> a < b * 2 ^ (e + 1)) /\ (e + 1 < 0 -> a * 2 ^ (- (e + 1)) < b).
Proof.
  intros Ha Hb.
  destruct (Z.log2_spec a Ha) as [Hla Hua]. destruct (Z.log2_spec b Hb) as [Hlb Hub].
  pose proof (Z.log2_nonneg a) as Ha0. pose proof (Z.log2_nonneg b) as Hb0.
  set (la := Z.log2 a) in *. set (lb := Z.log2 b) in *.
  assert (Hpow : forall x y, 0 <= x -> 0 <= y -> 2 ^ (x + y) = 2 ^ x * 2 ^ y)
    by (intros; apply Z.pow_add_r; assumption).
  assert (Hpos : forall x, 0 <= x -> 0 < 2 ^ x) by (intros; apply Z.pow_pos_nonneg; lia).
  unfold Js.exponent. fold la lb. cbv zeta.
  destruct (0 <=? la - lb) eqn:E0.
  - apply Z.leb_le in E0. destruct (b * 2 ^ (la - lb) <=? a) eqn:E1.
    + apply Z.leb_le in E1. repeat split; intros; try lia.
      assert (H1 := Hpow (la - lb + 1) lb). do 2 (let T := type of H1 in match T with ?A -> _ => assert (HA : A) by lia; specialize (H1 HA); clear HA end).
      replace (la - lb + 1 + lb) with (Z.succ la) in H1 by lia.
      assert (H2 := Hpos (la - lb + 1)). (let T := type of H2 in match T with ?A -> _ => assert (HA : A) by lia; specialize (H2 HA); clear HA end). nia.
    + apply Z.leb_gt in E1. repeat split; intros; try lia.
      * assert (H1 := Hpow (la - lb - 1) (Z.succ lb)). do 2 (let T := type of H1 in match T with ?A -> _ => assert (HA : A) by lia; specialize (H1 HA); clear HA end).
        replace (la - lb - 1 + Z.succ lb) with la in H1 by lia.
        assert (H2 := Hpos (la - lb - 1)). (let T := type of H2 in match T with ?A -> _ => assert (HA : A) by lia; specialize (H2 HA); clear HA end). nia.
      * assert (E : la = lb) by lia.
        replace (- (la - lb - 1)) with 1 by lia.
        pose proof (Z.pow_succ_r 2 lb Hb0) as H1.
        change (2 ^ 1) with 2. rewrite E in Hla. lia.
      * replace (la - lb - 1 + 1) with (la - lb) by lia. exact E1.
  - apply Z.leb_gt in E0. destruct (b <=? a * 2 ^ (- (la - lb))) eqn:E1.
    + apply Z.leb_le in E1. repeat split; intros; try lia.
      * assert (E : lb = Z.succ la) by lia. rewrite E in Hlb.
        replace (la - lb + 1) with 0 by lia. change (2 ^ 0) with 1. lia.
      * assert (H1 := Hpow (- (la - lb + 1)) (Z.succ la)). do 2 (let T := type of H1 in match T with ?A -> _ => assert (HA : A) by lia; specialize (H1 HA); clear HA end).
        replace (- (la - lb + 1) + Z.succ la) with lb in H1 by lia.
        assert (H2 := Hpos (- (la - lb + 1))). (let T := type of H2 in match T with ?A -> _ => assert (HA : A) by lia; specialize (H2 HA); clear HA end). nia.
    + apply Z.leb_gt in E1. repeat split; intros; try lia.
      * assert (H1 := Hpow (- (la - lb - 1)) la). do 2 (let T := type of H1 in match T with ?A -> _ => assert (HA : A) by lia; specialize (H1 HA); clear HA end).
        replace (- (la - lb - 1) + la) with (Z.succ lb) in H1 by lia.
        assert (H2 := Hpos (- (la - lb - 1))). (let T := type of H2 in match T with ?A -> _ => assert (HA : A) by lia; specialize (H2 HA); clear HA end). nia.
      * replace (- (la - lb - 1 + 1)) with (- (la - lb)) by lia. exact E1.
Qed.

(** [Math.ceil(a / b)] on safe integers is the ceiling of the quotient:
    the double nearest to [a / b] is not whole unless [a / b] is. *)
Lemma ceil_div_exact (a b : Z) :
  0 <= a <= Js.MAX_SAFE_INTEGER -> 0 < b <= Js.MAX_SAFE_INTEGER ->
  exists n, Js.Math_ceil (Js.div (Js.Num a) (Js.Num b)) = Js.Num n /\ is_ceiling n a b.
Proof.
  intros Ha Hb. unfold Js.MAX_SAFE_INTEGER in Ha, Hb. unfold Js.div.
  replace (b =? 0) with false by (symmetry; apply Z.eqb_neq; lia).
  destruct (a =? 0) eqn:E0.
  { apply Z.eqb_eq in E0. subst a. exists 0. split; [reflexivity |]. unfold is_ceiling. lia. }
  apply Z.eqb_neq in E0.
  rewrite (Z.abs_eq a), (Z.abs_eq b) by lia.
  rewrite (Z.sgn_pos a), (Z.sgn_pos b) by lia.
  unfold Js.div_pos.
  destruct (exponent_spec a b ltac:(lia) ltac:(lia)) as (Hlow & Hlow' & Hup & Hup').
  set (e := Js.exponent a b) in *.
  assert (Hpos : forall x, 0 <= x -> 0 < 2 ^ x) by (intros; apply Z.pow_pos_nonneg; lia).
  assert (Hmono : forall x y, x <= y -> 0 <= x -> 2 ^ x <= 2 ^ y)
    by (intros; apply Z.pow_le_mono_r; lia).
  assert (He_hi : e <= 52).
  { destruct (Z.le_gt_cases e 52) as [H | H]; [exact H | exfalso].
    pose proof (Hlow ltac:(lia)) as H1. pose proof (Hmono 53 e ltac:(lia) ltac:(lia)) as H2.
    nia. }
  assert (He_lo : -54 <= e).
  { destruct (Z.le_gt_cases (-54) e) as [H | H]; [exact H | exfalso].
    pose proof (Hup' ltac:(lia)) as H1.
    pose proof (Hmono 53 (- (e + 1)) ltac:(lia) ltac:(lia)) as H2. nia. }
  rewrite Z.max_l by lia.
  destruct (0 <=? e - 52) eqn:Es.
  - apply Z.leb_le in Es. assert (E : e = 52) by lia.
    pose proof (Hlow ltac:(lia)) as H1. rewrite E in H1.
    assert (Hb1 : b = 1) by nia. subst b.
    replace (e - 52) with 0 by lia. change (1 * 2 ^ 0) with 1. rewrite nearest_whole.
    exists a. split; [| unfold is_ceiling; lia].
    unfold Js.Math_ceil. change (0 <=? 0) with true. cbv iota. change (2 ^ 0) with 1.
    f_equal. lia.
  - cbn [Js.Math_ceil]. rewrite Es. apply Z.leb_gt in Es.
    eexists. split; [f_equal |].
    replace (1 * 1 * Js.nearest (a * 2 ^ (- (e - 52))) b)
      with (Js.nearest (a * 2 ^ (- (e - 52))) b) by lia.
    apply ceiling_of_nearest; try lia.
    destruct (Z.le_gt_cases 0 e) as [H | H].
    + pose proof (Hlow H) as H1.
        assert (H2 : 2 ^ e * 2 ^ (- (e - 52)) = 2 ^ 52).
        { rewrite <- Z.pow_add_r by lia. f_equal. lia. }
      pose proof (Hpos e H). pose proof (Hpos (- (e - 52)) ltac:(lia)). nia.
    + pose proof (Hlow' H) as H1.
      assert (H2 : 2 ^ (- e) * 2 ^ 52 = 2 ^ (- (e - 52))).
      { rewrite <- Z.pow_add_r by lia. f_equal. lia. }
      pose proof (Hpos (- e) ltac:(lia)). nia.
Qed.

Lemma totalPages_ceiling (T : Type) (data : list T) (page : Js.number) (limit total : Z) :
  0 <= total <= Js.MAX_SAFE_INTEGER -> 0 < limit <= Js.MAX_SAFE_INTEGER ->
  exists n,
    totalPages (meta (paginate data page (Js.Num limit) (Js.Num total))) = Js.Num n
    /\ is_ceiling n total limit.
Proof.
  intros Ht Hl. cbn [paginate meta totalPages]. apply ceil_div_exact; assumption.
Qed.

Lemma firstn_bound (T : Type) (n : nat) (l : list T) : (List.length (firstn n l) <= n)%nat.
Proof. rewrite length_firstn. apply Nat.le_min_l. Qed.

(** The rows to skip for a page within the safe integers. *)
Lemma skip_safe (page limit : Z) :
  1 <= page -> 1 <= limit -> page * limit <= Js.MAX_SAFE_INTEGER ->
  Js.mul (Js.sub (Js.Num page) (Js.Num 1)) (Js.Num limit) = Js.Num ((page - 1) * limit).
Proof.
  intros Hp Hl Hsafe. cbn [Js.sub]. rewrite to_double_safe by nia.
  cbn [Js.mul]. apply to_double_safe. nia.
Qed.

(** What a list endpoint answers for a page and a limit it reads as
    positive integers whose product is a safe integer. *)
Lemma getProducts_page (where_ : Product -> bool) (orderBy : list Product -> list Product)
    (pageParam limitParam : option Js.jsstring) (db : Db) (page limit : Z) :
  1 <= page -> 1 <= limit -> page * limit <= Js.MAX_SAFE_INTEGER ->
  Js.parseInt (ProductController.param pageParam "1") = Js.Num page ->
  Js.parseInt (ProductController.param limitParam "10") = Js.Num limit ->
  ProductController.getProducts where_ orderBy pageParam limitParam db
  = (db, Return (Http.json []
                   (Http.success_body "Products retrieved successfully"
                      (Some (Http.Listing
                               (paginate
                                  (firstn (Z.to_nat limit)
                                     (skipn (Z.to_nat ((page - 1) * limit))
                                        (orderBy (filter where_ (products db)))))
                                  (Js.Num page) (Js.Num limit)
                                  (Js.to_double (Prisma.count where_ (products db))))))))).
Proof.
  intros Hpage Hlimit Hsafe Hp Hl. unfold ProductController.getProducts. rewrite Hp, Hl.
  assert (Ep : Js.number_or (Js.Num page) (Js.Num 1) = Js.Num page)
    by (destruct page; cbn; try reflexivity; lia).
  assert (El : Js.number_or (Js.Num limit) (Js.Num 10) = Js.Num limit)
    by (destruct limit; cbn; try reflexivity; lia).
  rewrite Ep, El, skip_safe by assumption. unfold Prisma.findMany.
  unfold Js.MAX_SAFE_INTEGER in Hsafe.
  replace ((page - 1) * limit <? 0) with false by (symmetry; apply Z.ltb_ge; nia).
  replace (2 ^ 63 <=? (page - 1) * limit) with false by (symmetry; apply Z.leb_gt; nia).
  replace (2 ^ 63 <=? Z.abs limit) with false by (symmetry; apply Z.leb_gt; nia).
  replace (limit <? 0) with false by (symmetry; apply Z.ltb_ge; lia).
  reflexivity.
Qed.



End PaginationProps.

(** ** Product deletion *)

Module ProductProps.

Import Schema.

(** [q] is [p] in every column but [isActive]. *)
Definition same_but_isActive (p q : Product) : Prop :=
  product_id q = product_id p
  /\ product_title q = product_title p
  /\ product_description q = product_description p
  /\ product_price q = product_price p
  /\ product_discountPrice q = product_discountPrice p
  /\ product_discountEndDate q = product_discountEndDate p
  /\ product_stock q = product_stock p
  /\ product_sku q = product_sku p
  /\ product_categoryId q = product_categoryId p
  /\ product_sellerId q = product_sellerId p
  /\ product_images q = product_images p
  /\ product_video q = product_video p
  /\ product_createdAt q = product_createdAt p.

(** What the soft delete does to one row. *)
Definition deactivated (id : string) (p q : Product) : Prop :=
  if String.eqb (product_id p) id then
    product_isActive q = false /\ same_but_isActive p q
  else q = p.

Definition referenced (id : string) (db : Db) : Prop :=
  exists item, In item (orderItems db) /\ item_productId item = id.

Lemma orderCount_positive (id : string) (items : list OrderItem) :
  (Prisma.orderItem_count id items >? 0) = true
  <-> exists item, In item items /\ item_productId item = id.
Proof.
  unfold Prisma.orderItem_count. rewrite Z.gtb_ltb, Z.ltb_lt. split.
  - intro H.
    destruct (filter (fun i => String.eqb (item_productId i) id) items) as [| x l] eqn:E.
    + cbn in H. lia.
    + assert (Hx : In x (x :: l)) by (left; reflexivity).
      rewrite <- E in Hx. apply filter_In in Hx. destruct Hx as [Hin Hid].
      exists x. split; [exact Hin | apply String.eqb_eq; exact Hid].
  - intros [x [Hin Hid]].
    assert (Hx : In x (filter (fun i => String.eqb (item_productId i) id) items)).
    { apply filter_In. split; [exact Hin | apply String.eqb_eq; exact Hid]. }
    destruct (filter (fun i => String.eqb (item_productId i) id) items);
      [destruct Hx | cbn [List.length]; lia].
Qed.

Lemma findUnique_exists (id : string) (rows : list Product) (p : Product) :
  Prisma.product_findUnique id rows = Some p ->
  existsb (fun q => String.eqb (product_id q) id) rows = true.
Proof.
  intro H. apply find_some in H. apply existsb_exists. exists p. exact H.
Qed.

Lemma deactivate_rows (id : string) (rows : list Product) :
  Forall2 (deactivated id) rows
    (map (fun p => if String.eqb (product_id p) id then Prisma.set_isActive false p else p)
       rows).
Proof.
  induction rows as [| p rows IH]; cbn [map]; constructor; [| exact IH].
  unfold deactivated. destruct (String.eqb (product_id p) id); [| reflexivity].
  split; [reflexivity |]. unfold same_but_isActive. cbn. tauto.
Qed.

(** C3. For a deletion request by a user who may manage products and,
    when a seller, owns the product: if an order item references the
    product, the row stays with [isActive] false and every other column
    as before; if none does, the row is removed; in both cases every other
    product row and every other table is as before. *)
Theorem deleteProduct_soft_or_hard (user : Http.UserSummary) (id : string) (db : Db)
    (existing : Product) :
  PermissionUtil.canManageProducts (Http.summary_role user) (Http.summary_sellerRole user)
  = true ->
  Prisma.product_findUnique id (products db) = Some existing ->
  (Http.summary_role user = SELLER -> product_sellerId existing = Http.summary_id user) ->
  let db' := fst (ProductController.deleteProduct user id db) in
  let answer := snd (ProductController.deleteProduct user id db) in
  (referenced id db ->
     Forall2 (deactivated id) (products db) (products db')
     /\ answer = Return (Http.json []
                           (Http.success_body
                              "Product deactivated successfully (has existing orders)"
                              None)))
  /\ (~ referenced id db ->
        products db' = filter (fun p => negb (String.eqb (product_id p) id)) (products db)
        /\ (forall p, In p (products db') <-> In p (products db) /\ product_id p <> id)
        /\ answer = Return (Http.json []
                              (Http.success_body "Product deleted successfully" None)))
  /\ users db' = users db
  /\ refreshTokens db' = refreshTokens db
  /\ orderItems db' = orderItems db
  /\ orders db' = orders db
  /\ orderStatusHistory db' = orderStatusHistory db.
Proof.
  intros Hperm Hfind Hown db' answer. subst db' answer.
  unfold ProductController.deleteProduct. rewrite Hperm, Hfind. cbn [negb].
  assert (Howner : UserRole_eqb (Http.summary_role user) SELLER
                   && negb (String.eqb (product_sellerId existing) (Http.summary_id user))
                   = false).
  { destruct (UserRole_eqb (Http.summary_role user) SELLER) eqn:E; [| reflexivity].
    apply PermissionProps.UserRole_eqb_eq in E. rewrite (Hown E), String.eqb_refl.
    reflexivity. }
  rewrite Howner.
  unfold Prisma.product_update_isActive, Prisma.product_delete.
  rewrite (findUnique_exists _ _ _ Hfind).
  destruct (Prisma.orderItem_count id (orderItems db) >? 0) eqn:Ecount; cbn [fst snd].
  - apply orderCount_positive in Ecount.
    split; [| split; [| cbn; tauto]].
    + intros _. split; [apply deactivate_rows | reflexivity].
    + intro Hno. exfalso. apply Hno. exact Ecount.
  - assert (Hno : ~ referenced id db).
    { intro Href. apply orderCount_positive in Href. rewrite Href in Ecount.
      discriminate Ecount. }
    split; [| split; [| cbn; tauto]].
    + intro Href. exfalso. apply Hno. exact Href.
    + intros _. cbn [set_products products]. split; [reflexivity | split; [| reflexivity]].
      intro p. rewrite filter_In, Bool.negb_true_iff, String.eqb_neq. tauto.
Qed.

(** Bob deletes the lamp, which was ordered, and the mug, which was not. *)
Lemma deleteProduct_soft_or_hard_witness :
  let bob := AuthController.summary_of Sample.bob in
  Forall2 (deactivated "p-lamp") (products Sample.shop)
    (products (fst (ProductController.deleteProduct bob "p-lamp" Sample.shop)))
  /\ products (fst (ProductController.deleteProduct bob "p-mug" Sample.shop))
     = [Sample.lamp].
Proof.
  cbv zeta. split.
  - apply (deleteProduct_soft_or_hard (AuthController.summary_of Sample.bob) "p-lamp"
             Sample.shop Sample.lamp); try reflexivity.
    exists {| item_id := "i-1"; item_orderId := "o-1"; item_productId := "p-lamp";
              item_quantity := 1; item_price := 1200 # 1 |}.
    split; [left; reflexivity | reflexivity].
  - rewrite (proj1 (proj1 (proj2 (deleteProduct_soft_or_hard
               (AuthController.summary_of Sample.bob) "p-mug" Sample.shop Sample.mug
               eq_refl eq_refl (fun _ => eq_refl))) ltac:(
                 intros [it [Hin Hid]]; cbn in Hin;
                 destruct Hin as [Hin | []]; subst it; discriminate Hid))).
    reflexivity.
Defined.

End ProductProps.

(** ** The reference token package meets the interface *)

Module PlainJwtProps.

Import PlainJwt.

Lemma count_ones_ones (n : nat) (rest : string) : count_ones (ones n rest) = Some (n, rest).
Proof.
  induction n as [| n IH]; cbn [ones count_ones]; [reflexivity |].
  rewrite IH. reflexivity.
Qed.

Lemma split_at_append (s rest : string) :
  split_at (String.length s) (s ++ rest)%string = Some (s, rest).
Proof.
  induction s as [| a s IH]; cbn [String.length split_at String.append].
  - destruct rest; reflexivity.
  - rewrite IH. reflexivity.
Qed.

Lemma unframe_frame (s rest : string) : unframe (frame s rest) = Some (s, rest).
Proof.
  unfold unframe, frame. rewrite count_ones_ones. apply split_at_append.
Qed.

Lemma role_of_role_text (r : UserRole) : role_of_text (role_text r) = Some r.
Proof. destruct r; reflexivity. Qed.

Lemma sellerRole_of_sellerRole_text (r : option SellerRole) :
  sellerRole_of_text (sellerRole_text r) = Some r.
Proof. destruct r as [[] |]; reflexivity. Qed.

Lemma plain_verify_sign (p : Jwt.Payload) (k e : string) (t : Z) (token k' : string)
    (t' : Z) (d : Jwt.Payload) :
  sign p k e t = Some token -> verify token k' t' = Some d -> d = p.
Proof.
  unfold sign. destruct (span e) as [lifetime |]; [| discriminate].
  intro H. injection H as <-.
  unfold verify. rewrite !unframe_frame.
  rewrite role_of_role_text, sellerRole_of_sellerRole_text.
  destruct (fst (leading_number (Js.decimal (t / 1000 + lifetime)) None)) as [exp |];
    [| discriminate].
  destruct (String.eqb k k' && (t' / 1000 <? exp)); [| discriminate].
  intro H. injection H as <-. destruct p; reflexivity.
Qed.

Lemma plain_sign_clock (p : Jwt.Payload) (k e : string) (t t' : Z) :
  t / 1000 = t' / 1000 -> sign p k e t = sign p k e t'.
Proof. intro H. unfold sign. rewrite H. reflexivity. Qed.

Definition lib : Jwt.Lib :=
  {| Jwt.sign := sign;
     Jwt.verify := verify;
     Jwt.verify_sign := plain_verify_sign;
     Jwt.sign_clock := plain_sign_clock |}.

End PlainJwtProps.

(** ** Token types *)

Module TokenProps.

Import JWTUtil.

Section Confinement.

Context (J : Jwt.Lib) (cfg : Config).

Lemma verifyAccessToken_Return (caller : string) (now : Z) (token : string)
    (d : Jwt.Payload) :
  verifyAccessToken J cfg caller now token = Return d
  <-> Jwt.verify J token (accessSecret cfg) now = Some d /\ Jwt.type d = "access".
Proof.
  unfold verifyAccessToken.
  destruct (Jwt.verify J token (accessSecret cfg) now) as [decoded |];
    cbn [catch_rethrow].
  - destruct (String.eqb (Jwt.type decoded) "access") eqn:E; cbn [negb catch_rethrow].
    + apply String.eqb_eq in E. split.
      * intro H. injection H as <-. split; [reflexivity | exact E].
      * intros [H _]. injection H as <-. reflexivity.
    + apply String.eqb_neq in E. split.
      * intro H. discriminate H.
      * intros [H Ht]. injection H as <-. contradiction.
  - split; [intro H; discriminate H | intros [H _]; discriminate H].
Qed.

Lemma verifyRefreshToken_Return (caller : string) (now : Z) (token : string)
    (d : Jwt.Payload) :
  verifyRefreshToken J cfg caller now token = Return d
  <-> Jwt.verify J token (refreshSecret cfg) now = Some d /\ Jwt.type d = "refresh".
Proof.
  unfold verifyRefreshToken.
  destruct (Jwt.verify J token (refreshSecret cfg) now) as [decoded |];
    cbn [catch_rethrow].
  - destruct (String.eqb (Jwt.type decoded) "refresh") eqn:E; cbn [negb catch_rethrow].
    + apply String.eqb_eq in E. split.
      * intro H. injection H as <-. split; [reflexivity | exact E].
      * intros [H _]. injection H as <-. reflexivity.
    + apply String.eqb_neq in E. split.
      * intro H. discriminate H.
      * intros [H Ht]. injection H as <-. contradiction.
  - split; [intro H; discriminate H | intros [H _]; discriminate H].
Qed.

(** A verifier either returns or throws its one error. *)
Lemma verifyAccessToken_cases (caller : string) (now : Z) (token : string) :
  (exists d, verifyAccessToken J cfg caller now token = Return d)
  \/ verifyAccessToken J cfg caller now token
     = Throw (JsError.new_Error
                ["JWTUtil.verifyAccessToken (utils/index.ts:52)"; caller]
                "Invalid or expired access token").
Proof.
  unfold verifyAccessToken.
  destruct (Jwt.verify J token (accessSecret cfg) now) as [decoded |];
    [destruct (negb (String.eqb (Jwt.type decoded) "access")) |];
    cbn [catch_rethrow]; eauto.
Qed.

Lemma verifyRefreshToken_cases (caller : string) (now : Z) (token : string) :
  (exists d, verifyRefreshToken J cfg caller now token = Return d)
  \/ verifyRefreshToken J cfg caller now token
     = Throw (JsError.new_Error
                ["JWTUtil.verifyRefreshToken (utils/index.ts:64)"; caller]
                "Invalid or expired refresh token").
Proof.
  unfold verifyRefreshToken.
  destruct (Jwt.verify J token (refreshSecret cfg) now) as [decoded |];
    [destruct (negb (String.eqb (Jwt.type decoded) "refresh")) |];
    cbn [catch_rethrow]; eauto.
Qed.

Lemma refresh_token_not_access (callers : list string) (caller : string) (now issued : Z)
    (subject : Subject) (token : string) :
  generateRefreshToken J cfg callers issued subject = Return token ->
  verifyAccessToken J cfg caller now token
  = Throw (JsError.new_Error
             ["JWTUtil.verifyAccessToken (utils/index.ts:52)"; caller]
             "Invalid or expired access token").
Proof.
  intro Hsigned.
  destruct (verifyAccessToken_cases caller now token) as [[d Hd] | H]; [| exact H].
  exfalso. apply verifyAccessToken_Return in Hd. destruct Hd as [Hv Ht].
  unfold generateRefreshToken in Hsigned.
  destruct (Jwt.sign J (with_type subject "refresh") (refreshSecret cfg)
              (refreshExpiresIn cfg) issued) as [signed |] eqn:Es; [| discriminate Hsigned].
  injection Hsigned as ->. apply (Jwt.verify_sign J _ _ _ _ _ _ _ _ Es) in Hv. subst d.
  cbn in Ht. discriminate Ht.
Qed.

Lemma access_token_not_refresh (callers : list string) (caller : string) (now issued : Z)
    (subject : Subject) (token : string) :
  generateAccessToken J cfg callers issued subject = Return token ->
  verifyRefreshToken J cfg caller now token
  = Throw (JsError.new_Error
             ["JWTUtil.verifyRefreshToken (utils/index.ts:64)"; caller]
             "Invalid or expired refresh token").
Proof.
  intro Hsigned.
  destruct (verifyRefreshToken_cases caller now token) as [[d Hd] | H]; [| exact H].
  exfalso. apply verifyRefreshToken_Return in Hd. destruct Hd as [Hv Ht].
  unfold generateAccessToken in Hsigned.
  destruct (Jwt.sign J (with_type subject "access") (accessSecret cfg)
              (accessExpiresIn cfg) issued) as [signed |] eqn:Es; [| discriminate Hsigned].
  injection Hsigned as ->. apply (Jwt.verify_sign J _ _ _ _ _ _ _ _ Es) in Hv. subst d.
  cbn in Ht. discriminate Ht.
Qed.

End Confinement.

(** C8. [verifyAccessToken] returns only for a token that verifies under
    the access secret and whose payload has type access, and
    [verifyRefreshToken] only for one that verifies under the refresh
    secret with type refresh; so a token issued by [generateRefreshToken]
    is rejected by [verifyAccessToken], one issued by
    [generateAccessToken] is rejected by [verifyRefreshToken], and a
    request that presents a refresh token to the authentication middleware
    is refused. *)
Theorem token_type_confinement (J : Jwt.Lib) (cfg : Config) :
  (forall caller now token d,
      verifyAccessToken J cfg caller now token = Return d ->
      Jwt.verify J token (accessSecret cfg) now = Some d /\ Jwt.type d = "access")
  /\ (forall caller now token d,
         verifyRefreshToken J cfg caller now token = Return d ->
         Jwt.verify J token (refreshSecret cfg) now = Some d /\ Jwt.type d = "refresh")
  /\ (forall callers caller now issued subject token d,
         generateRefreshToken J cfg callers issued subject = Return token ->
         verifyAccessToken J cfg caller now token <> Return d)
  /\ (forall callers caller now issued subject token d,
         generateAccessToken J cfg callers issued subject = Return token ->
         verifyRefreshToken J cfg caller now token <> Return d)
  /\ (forall callers now issued subject token authorization accessCookie db,
         generateRefreshToken J cfg callers issued subject = Return token ->
         AuthMiddleware.request_token authorization accessCookie = Some token ->
         exists e,
           AuthMiddleware.authenticate J cfg now authorization accessCookie db = Throw e).
Proof.
  split; [| split; [| split; [| split]]].
  - intros caller now token d H. apply verifyAccessToken_Return in H. exact H.
  - intros caller now token d H. apply verifyRefreshToken_Return in H. exact H.
  - intros callers caller now issued subject token d Hsigned H.
    rewrite (refresh_token_not_access J cfg callers caller now issued subject token Hsigned)
      in H.
    discriminate H.
  - intros callers caller now issued subject token d Hsigned H.
    rewrite (access_token_not_refresh J cfg callers caller now issued subject token Hsigned)
      in H.
    discriminate H.
  - intros callers now issued subject token authorization accessCookie db Hsigned Htoken.
    unfold AuthMiddleware.authenticate. rewrite Htoken.
    destruct (negb (Js.truthy_str (Some token))); [eexists; reflexivity |].
    rewrite (refresh_token_not_access J cfg callers _ now issued subject token Hsigned).
    cbn [bind]. eexists; reflexivity.
Qed.

(** Alice's refresh token, sent as a bearer token one second after it was
    issued, is refused, while it is a good refresh token. *)
Lemma token_type_confinement_witness :
  exists token,
    generateRefreshToken PlainJwtProps.lib Sample.config [] 5000
      (AuthController.subject_of "u-alice" "alice@example.com" BUYER None)
    = Return token
    /\ (exists d,
          verifyRefreshToken PlainJwtProps.lib Sample.config "test" 6000 token = Return d)
    /\ exists e,
        AuthMiddleware.authenticate PlainJwtProps.lib Sample.config 6000
          (Some ("Bearer " ++ token)%string) None Sample.shop = Throw e.
Proof.
  eexists. split; [vm_compute; reflexivity | split].
  - eexists. vm_compute. reflexivity.
  - eapply (proj2 (proj2 (proj2 (proj2
              (token_type_confinement PlainJwtProps.lib Sample.config))))
              [] 6000 5000
              (AuthController.subject_of "u-alice" "alice@example.com" BUYER None)).
    + vm_compute. reflexivity.
    + vm_compute. reflexivity.
Defined.

End TokenProps.

(** ** The error middleware *)

Module ErrorHandlerProps.

Import ErrorHandler.

(** The message is the library's own: it is not the text the CORS callback
    of the server throws, and it is without the words of the rate limiter;
    the two rules that look at the message come last. *)
Definition own_message (m : string) : Prop :=
  m <> "Not allowed by CORS" /\ Js.includes "Too many requests" m = false.

(** A request error of the Prisma client with the code [c]: its class is
    [PrismaClientKnownRequestError], and its [meta.target], when it has
    one, is the array of the fields. *)
Definition prisma_request_error (error : Thrown.t) (c : string) : Prop :=
  Thrown.name error = "PrismaClientKnownRequestError"
  /\ Thrown.code error = Thrown.Text c
  /\ (forall n, Thrown.target error <> Thrown.Constraint n)
  /\ own_message (Thrown.message error).

(** A [ZodError]: it carries its issues and has no [code]. *)
Definition zod_error (error : Thrown.t) (issues : list JsError.ZodIssue) : Prop :=
  Thrown.name error = "ZodError"
  /\ Thrown.code error = Thrown.NoCode
  /\ Thrown.issues error = Some issues.

(** A verification error of jsonwebtoken: it has no [code]. *)
Definition jwt_error (error : Thrown.t) : Prop :=
  (Thrown.name error = "JsonWebTokenError" \/ Thrown.name error = "TokenExpiredError")
  /\ Thrown.code error = Thrown.NoCode
  /\ own_message (Thrown.message error).

(** The middleware can read the thrown value: what it calls a method on
    has that method. *)
Definition readable (error : Thrown.t) : Prop :=
  (forall n, Thrown.code error <> Thrown.Numeric n)
  /\ (Thrown.code error = Thrown.Text "P2002" ->
      forall n, Thrown.target error <> Thrown.Constraint n)
  /\ (Thrown.name error = "ZodError" -> Thrown.issues error <> None)
  /\ (Thrown.name error = "ValidationError" -> Thrown.errors error <> None).

Definition is_envelope (r : Http.Response) : Prop :=
  Http.success (Http.body r) = false
  /\ Http.data (Http.body r) = None
  /\ Http.error (Http.body r) <> None.

(** On an error of [JsError.t] the two descriptions of the middleware
    agree. *)
Lemma handle_of_error (nodeEnv : option string) (e : JsError.t) :
  handle nodeEnv (Thrown.of_error e) = Return (errorHandler nodeEnv e).
Proof.
  unfold handle, errorHandler.
  assert (Hcode : forall c, thrown_code_is (Thrown.of_error e) c = code_is e c).
  { intro c. unfold thrown_code_is, code_is. cbn [Thrown.of_error Thrown.code].
    destruct (JsError.code e); reflexivity. }
  assert (Htext : Thrown.code_text (Thrown.of_error e) = JsError.code e).
  { unfold Thrown.code_text. cbn [Thrown.of_error Thrown.code].
    destruct (JsError.code e); reflexivity. }
  assert (Hinit : thrown_initial (Thrown.of_error e) = initial e).
  { unfold thrown_initial, initial. rewrite Htext. reflexivity. }
  assert (Hjwt : forall v, thrown_jwt_rules (Thrown.of_error e) v = jwt_rules e v)
    by reflexivity.
  assert (Hprisma : forall v,
             thrown_prisma_rules (Thrown.of_error e) v = Return (prisma_rules e v)).
  { intro v. unfold thrown_prisma_rules, prisma_rules. rewrite !Hcode.
    destruct (code_is e "P2002").
    - unfold thrown_target, duplicate_message. cbn [Thrown.of_error Thrown.target].
      destruct (JsError.meta_target e); reflexivity.
    - destruct (code_is e "P2025"); [reflexivity |].
      unfold code_startsWith. cbn [Thrown.of_error Thrown.code].
      destruct (JsError.code e); reflexivity. }
  rewrite Hinit, Hjwt, Hprisma. cbn [bind]. cbn [Thrown.of_error Thrown.name Thrown.issues
    Thrown.errors Thrown.message Thrown.stack]. unfold name_is.
  destruct (String.eqb (JsError.name e) "ZodError"); [reflexivity |].
  destruct (String.eqb (JsError.name e) "ValidationError"); [reflexivity |].
  unfold thrown_multer_rules, multer_rules, thrown_network_rule, network_rule. rewrite !Hcode.
  rewrite Htext. reflexivity.
Qed.

Lemma own_message_rules (error : Thrown.t) (v : Verdict) :
  own_message (Thrown.message error) ->
  thrown_rate_limit_rule error (thrown_cors_rule error v) = v.
Proof.
  intros [Hcors Hrate]. unfold thrown_rate_limit_rule, thrown_cors_rule.
  apply String.eqb_neq in Hcors. rewrite Hcors, Hrate, Bool.andb_false_r. reflexivity.
Qed.

Lemma thrown_code_is_text (error : Thrown.t) (c c' : string) :
  Thrown.code error = Thrown.Text c -> thrown_code_is error c' = String.eqb c c'.
Proof. intro H. unfold thrown_code_is. rewrite H. reflexivity. Qed.

Lemma thrown_code_is_none (error : Thrown.t) (c : string) :
  Thrown.code error = Thrown.NoCode -> thrown_code_is error c = false.
Proof. intro H. unfold thrown_code_is. rewrite H. reflexivity. Qed.

(** The Prisma rules on a readable value. *)
Lemma prisma_rules_readable (error : Thrown.t) (v : Verdict) :
  readable error -> exists v', thrown_prisma_rules error v = Return v'.
Proof.
  intros [Hcode [Htarget _]]. unfold thrown_prisma_rules.
  destruct (thrown_code_is error "P2002") eqn:E2.
  - unfold thrown_code_is in E2. destruct (Thrown.code error) as [| c | n] eqn:Ec;
      try discriminate E2.
    apply String.eqb_eq in E2. subst c. specialize (Htarget eq_refl).
    unfold thrown_target. destruct (Thrown.target error) as [| fields | n] eqn:Et;
      cbn [bind]; eauto.
    exfalso. exact (Htarget n eq_refl).
  - destruct (thrown_code_is error "P2025"); [eauto |].
    destruct (Thrown.code error) as [| c | n] eqn:Ec; eauto.
    exfalso. exact (Hcode n eq_refl).
Qed.

(** What a readable value is answered with is an error envelope. *)
Lemma readable_answered (nodeEnv : option string) (error : Thrown.t) :
  readable error -> exists r, handle nodeEnv error = Return r /\ is_envelope r.
Proof.
  intro Hread. unfold handle.
  destruct (prisma_rules_readable error (thrown_jwt_rules error (thrown_initial error)) Hread)
    as [v Hv].
  rewrite Hv. cbn [bind]. destruct Hread as [_ [_ [Hissues Herrors]]].
  destruct (String.eqb (Thrown.name error) "ZodError") eqn:Ez.
  - apply String.eqb_eq in Ez. specialize (Hissues Ez).
    destruct (Thrown.issues error) as [issues |]; [| contradiction].
    eexists. split; [reflexivity |]. repeat split. discriminate.
  - destruct (String.eqb (Thrown.name error) "ValidationError") eqn:Ev.
    + apply String.eqb_eq in Ev. specialize (Herrors Ev).
      destruct (Thrown.errors error) as [errors |]; [| contradiction].
      eexists. split; [reflexivity |]. repeat split. discriminate.
    + eexists. split; [reflexivity |]. repeat split. discriminate.
Qed.

Lemma prisma_rules_Return (error : Thrown.t) (v v' : Verdict) :
  thrown_prisma_rules error v = Return v' ->
  (forall n, Thrown.code error <> Thrown.Numeric n)
  /\ (Thrown.code error = Thrown.Text "P2002" ->
      forall n, Thrown.target error <> Thrown.Constraint n).
Proof.
  unfold thrown_prisma_rules, thrown_target, thrown_code_is.
  destruct (Thrown.code error) as [| c | n].
  - intros _. split; [discriminate | discriminate].
  - destruct (String.eqb c "P2002") eqn:E2.
    + destruct (Thrown.target error) as [| fields | n]; cbn [bind]; intro H;
        try discriminate H; split; discriminate.
    + intros _. split; [discriminate |].
      intro Heq. injection Heq as ->. discriminate E2.
  - cbn [bind]. intro H. discriminate H.
Qed.

(** Only a value the middleware can read is answered by it: on any other
    it throws. *)
Lemma answered_readable (nodeEnv : option string) (error : Thrown.t) (r : Http.Response) :
  handle nodeEnv error = Return r -> readable error.
Proof.
  unfold handle.
  destruct (thrown_prisma_rules error (thrown_jwt_rules error (thrown_initial error)))
    as [v | e] eqn:Ev; cbn [bind]; [| intro H; discriminate H].
  destruct (prisma_rules_Return _ _ _ Ev) as [Hcode Htarget].
  intro H. split; [exact Hcode | split; [exact Htarget |]].
  destruct (String.eqb (Thrown.name error) "ZodError") eqn:Ez.
  - destruct (Thrown.issues error); [| discriminate H].
    split; [discriminate |]. intro Hn. rewrite Hn in Ez. discriminate Ez.
  - split; [intro Hn; rewrite Hn in Ez; discriminate Ez |].
    intro Hn. rewrite Hn in H. cbn [String.eqb Ascii.eqb Bool.eqb] in H.
    destruct (Thrown.errors error); [discriminate | discriminate H].
Qed.

Lemma prisma_request_status (nodeEnv : option string) (error : Thrown.t) (c : string)
    (v : Verdict) :
  prisma_request_error error c ->
  c = "P2002" \/ c = "P2025" ->
  thrown_prisma_rules error (thrown_jwt_rules error (thrown_initial error)) = Return v ->
  exists r, handle nodeEnv error = Return r /\ Http.status r = statusCode v.
Proof.
  intros (Hname & Hcode & _ & Hmsg) Hc Hv. unfold handle. rewrite Hv. cbn [bind].
  rewrite Hname. cbn [String.eqb Ascii.eqb Bool.eqb].
  assert (Hmulter : thrown_multer_rules error v = v).
  { unfold thrown_multer_rules. rewrite !(thrown_code_is_text error c _ Hcode).
    destruct Hc; subst c; reflexivity. }
  assert (Hnet : forall w, thrown_network_rule error w = w).
  { intro w. unfold thrown_network_rule. rewrite !(thrown_code_is_text error c _ Hcode).
    destruct Hc; subst c; reflexivity. }
  rewrite Hmulter, (own_message_rules _ _ Hmsg), Hnet.
  eexists. split; reflexivity.
Qed.



Lemma prisma_rules_Throw (error : Thrown.t) (v : Verdict) (e : JsError.t) :
  thrown_prisma_rules error v = Throw e -> JsError.name e = "TypeError".
Proof.
  unfold thrown_prisma_rules, thrown_target.
  destruct (thrown_code_is error "P2002").
  - destruct (Thrown.target error); cbn [bind]; intro H; try discriminate H.
    injection H as <-. reflexivity.
  - destruct (thrown_code_is error "P2025"); [intro H; discriminate H |].
    destruct (Thrown.code error); intro H; try discriminate H.
    injection H as <-. reflexivity.
Qed.



End ErrorHandlerProps.

(** ** Login failures *)

Module LoginProps.

Import Schema.

Definition invalid_credentials (line : string) : JsError.t :=
  ErrorUtil.createUnauthorizedError
    ("AuthController.login (authController.ts:" ++ line ++ ")")%string
    "Invalid email or password".

Section Login.

Context (J : Jwt.Lib) (cfg : JWTUtil.Config) (B : Bcrypt.Lib) (nodeEnv : option string).

Lemma login_unknown_email (now : Z) (rowId email password : string) (db : Db) :
  Prisma.user_findUnique_email email (users db) = None ->
  AuthController.login J cfg B nodeEnv now rowId email password db
  = (db, Throw (invalid_credentials "150")).
Proof. intro H. unfold AuthController.login. rewrite H. reflexivity. Qed.

Lemma login_wrong_password (now : Z) (rowId email password : string) (db : Db)
    (user : User) :
  Prisma.user_findUnique_email email (users db) = Some user ->
  user_status user = ACTIVE ->
  Bcrypt.compare B password (user_password user) = false ->
  AuthController.login J cfg B nodeEnv now rowId email password db
  = (db, Throw (invalid_credentials "161")).
Proof.
  intros Hfind Hstatus Hcompare. unfold AuthController.login.
  rewrite Hfind, Hstatus, Hcompare. reflexivity.
Qed.

End Login.

(** What the error middleware answers to either error outside development
    mode. *)
Definition invalid_credentials_response : Http.Response :=
  {| Http.status := 401;
     Http.cookies := [];
     Http.body :=
       {| Http.success := false;
          Http.message := "Invalid email or password";
          Http.data := None;
          Http.error := Some (Http.Coded (Some "UNAUTHORIZED") 401 None None);
          Http.statusCode := None |} |}.

Lemma invalid_credentials_answer (nodeEnv : option string) (line : string) :
  let r := ErrorHandler.errorHandler nodeEnv (invalid_credentials line) in
  Http.status r = 401
  /\ Http.message (Http.body r) = "Invalid email or password"
  /\ (ErrorHandler.is_development nodeEnv = false -> r = invalid_credentials_response).
Proof.
  cbv zeta. unfold ErrorHandler.errorHandler. cbn.
  repeat split. intro Hdev. rewrite Hdev. reflexivity.
Qed.

(** C9, amended. A login that fails because the e-mail is not registered
    and a login of an active user that fails because the password does not
    match are both answered with status 401 and the message "Invalid
    email or password" and leave the database as it was; when the server
    does not run in development mode the two answers are equal. (In
    development mode the answer also carries the stack of the error.) *)
Theorem login_failures_indistinguishable
    (J : Jwt.Lib) (cfg : JWTUtil.Config) (B : Bcrypt.Lib) (nodeEnv : option string)
    (now1 : Z) (rowId1 email1 password1 : string) (db1 : Db)
    (now2 : Z) (rowId2 email2 password2 : string) (db2 : Db) (user : User) :
  Prisma.user_findUnique_email email1 (users db1) = None ->
  Prisma.user_findUnique_email email2 (users db2) = Some user ->
  user_status user = ACTIVE ->
  Bcrypt.compare B password2 (user_password user) = false ->
  let r1 := Express.respond nodeEnv
              (AuthController.login J cfg B nodeEnv now1 rowId1 email1 password1 db1) in
  let r2 := Express.respond nodeEnv
              (AuthController.login J cfg B nodeEnv now2 rowId2 email2 password2 db2) in
  fst r1 = db1 /\ fst r2 = db2
  /\ Http.status (snd r1) = 401 /\ Http.status (snd r2) = 401
  /\ Http.message (Http.body (snd r1)) = "Invalid email or password"
  /\ Http.message (Http.body (snd r2)) = "Invalid email or password"
  /\ (ErrorHandler.is_development nodeEnv = false -> snd r1 = snd r2).
Proof.
  intros Hnone Hsome Hactive Hcompare. cbv zeta.
  rewrite (login_unknown_email J cfg B nodeEnv now1 rowId1 email1 password1 db1 Hnone).
  rewrite (login_wrong_password J cfg B nodeEnv now2 rowId2 email2 password2 db2 user
             Hsome Hactive Hcompare).
  cbn [Express.respond fst snd].
  destruct (invalid_credentials_answer nodeEnv "150") as [S1 [M1 E1]].
  destruct (invalid_credentials_answer nodeEnv "161") as [S2 [M2 E2]].
  repeat split; try assumption.
  intro Hdev. rewrite (E1 Hdev), (E2 Hdev). reflexivity.
Qed.

(** In production, an unknown address and Alice's address with a wrong
    password get the same answer. *)
Lemma login_failures_indistinguishable_witness :
  let login := AuthController.login PlainJwtProps.lib Sample.config PlainBcrypt.lib
                 (Some "production") in
  snd (Express.respond (Some "production")
         (login 5000 "rt-1" "nobody@example.com" "Wonder1and!" Sample.shop))
  = snd (Express.respond (Some "production")
           (login 5000 "rt-1" "alice@example.com" "wonderland" Sample.shop)).
Proof.
  cbv zeta.
  apply (login_failures_indistinguishable PlainJwtProps.lib Sample.config PlainBcrypt.lib
           (Some "production")
           5000 "rt-1" "nobody@example.com" "Wonder1and!" Sample.shop
           5000 "rt-1" "alice@example.com" "wonderland" Sample.shop Sample.alice);
    reflexivity.
Defined.

(** The claim as the specification words it: the two failures get the same
    response, whatever the mode of the server. *)
Definition indistinguishable_as_stated : Prop :=
  forall (J : Jwt.Lib) (cfg : JWTUtil.Config) (B : Bcrypt.Lib) (nodeEnv : option string)
         (now1 : Z) (rowId1 email1 password1 : string) (db1 : Db)
         (now2 : Z) (rowId2 email2 password2 : string) (db2 : Db) (user : User),
    Prisma.user_findUnique_email email1 (users db1) = None ->
    Prisma.user_findUnique_email email2 (users db2) = Some user ->
    user_status user = ACTIVE ->
    Bcrypt.compare B password2 (user_password user) = false ->
    snd (Express.respond nodeEnv
           (AuthController.login J cfg B nodeEnv now1 rowId1 email1 password1 db1))
    = snd (Express.respond nodeEnv
             (AuthController.login J cfg B nodeEnv now2 rowId2 email2 password2 db2)).

(** The claim as stated fails in development mode: the two answers differ
    in the stack they carry, which names the line that threw. *)
Lemma login_failures_differ_in_development :
  let login := AuthController.login PlainJwtProps.lib Sample.config PlainBcrypt.lib
                 (Some "development") in
  Prisma.user_findUnique_email "nobody@example.com" (users Sample.shop) = None
  /\ Prisma.user_findUnique_email "alice@example.com" (users Sample.shop) = Some Sample.alice
  /\ Bcrypt.compare PlainBcrypt.lib "wonderland" (user_password Sample.alice) = false
  /\ snd (Express.respond (Some "development")
            (login 5000 "rt-1" "nobody@example.com" "Wonder1and!" Sample.shop))
     <> snd (Express.respond (Some "development")
               (login 5000 "rt-1" "alice@example.com" "wonderland" Sample.shop))
  /\ ~ indistinguishable_as_stated.
Proof.
  cbv zeta.
  assert (Hdiffer :
            snd (Express.respond (Some "development")
                   (AuthController.login PlainJwtProps.lib Sample.config PlainBcrypt.lib
                      (Some "development") 5000 "rt-1" "nobody@example.com" "Wonder1and!"
                      Sample.shop))
            <> snd (Express.respond (Some "development")
                      (AuthController.login PlainJwtProps.lib Sample.config PlainBcrypt.lib
                         (Some "development") 5000 "rt-1" "alice@example.com" "wonderland"
                         Sample.shop))).
  { vm_compute. intro H. discriminate H. }
  split; [reflexivity | split; [reflexivity | split; [reflexivity | split]]].
  - exact Hdiffer.
  - intro Hclaim. apply Hdiffer.
    apply (Hclaim PlainJwtProps.lib Sample.config PlainBcrypt.lib (Some "development")
             5000 "rt-1" "nobody@example.com" "Wonder1and!" Sample.shop
             5000 "rt-1" "alice@example.com" "wonderland" Sample.shop Sample.alice);
      reflexivity.
Qed.

End LoginProps.

(** ** Order status updates over the socket *)

Module SocketProps.

Import Schema SocketService.

(** The sender may update the order: a seller or an administrator, and a
    seller only for an order of their own. *)
Definition may_update (user : SocketUser) (order : Order) : Prop :=
  (role user = SELLER \/ role user = ADMIN)
  /\ (role user = SELLER -> order_sellerId order = id user).

(** What an accepted update emits. *)
Definition relayed (now : Z) (data : StatusUpdate) (order : Order) : list Emit :=
  [ToRoom (user_room (order_buyerId order)) "notification"
     (Notify {| notification_id := ("notif_" ++ Js.decimal now)%string;
                title := "Order Status Updated";
                message := ("Your order #" ++ order_orderNumber order
                              ++ " status has been updated to " ++ status data)%string;
                type := "order_status";
                userId := order_buyerId order;
                data_orderId := order_id order;
                data_orderNumber := order_orderNumber order;
                data_status := status data;
                data_notes := notes data;
                createdAt := now |});
   ToRoom (user_room (order_buyerId order)) "order-updated"
     (OrderUpdated (order_id order) (status data) (notes data));
   ToSocket "order-status-updated" (StatusUpdated true (order_id order) (status data))].

(** C5, amended. The [order-status-update] handler neither overwrites nor
    removes status information: it leaves every table, the orders and the
    status history among them, exactly as it found it. For a sender who may
    update the order it relays the new status to the buyer's room and
    acknowledges the sender; it records nothing. *)
Theorem order_status_update_relays (now : Z) (user : SocketUser) (data : StatusUpdate)
    (db : Db) :
  fst (orderStatusUpdate now user data db) = db
  /\ (forall order,
         Prisma.order_findUnique (orderId data) (orders db) = Some order ->
         may_update user order ->
         snd (orderStatusUpdate now user data db) = relayed now data order).
Proof.
  unfold orderStatusUpdate. split.
  - destruct (negb (UserRole_eqb (role user) SELLER) && negb (UserRole_eqb (role user) ADMIN));
      [reflexivity |].
    destruct (Prisma.order_findUnique (orderId data) (orders db)) as [order |];
      [| reflexivity].
    destruct (UserRole_eqb (role user) SELLER
              && negb (String.eqb (order_sellerId order) (id user)));
      reflexivity.
  - intros order Hfind [Hrole Hown]. rewrite Hfind.
    destruct (role user) eqn:Erole; cbn [UserRole_eqb negb andb].
    + destruct Hrole as [H | H]; discriminate H.
    + rewrite (Hown eq_refl), String.eqb_refl. reflexivity.
    + reflexivity.
Qed.

Definition carol : SocketUser :=
  {| id := "u-carol"; email := "carol@example.com"; name := "Carol";
     role := ADMIN; sellerRole := None |}.

Definition completed : StatusUpdate :=
  {| orderId := "o-1"; status := "COMPLETED"; notes := None |}.

(** Carol, an administrator, marks order o-1 completed. *)
Lemma order_status_update_relays_witness :
  snd (orderStatusUpdate 5000 carol completed Sample.shop)
  = relayed 5000 completed Sample.order1.
Proof.
  apply (proj2 (order_status_update_relays 5000 carol completed Sample.shop) Sample.order1).
  - reflexivity.
  - split; [right; reflexivity | intro H; discriminate H].
Defined.

(** The claim as the specification words it: an update accepted by the
    handler appends a history entry for the new status. *)
Definition history_as_stated : Prop :=
  forall (now : Z) (user : SocketUser) (data : StatusUpdate) (db : Db) (order : Order),
    Prisma.order_findUnique (orderId data) (orders db) = Some order ->
    may_update user order ->
    exists h,
      orderStatusHistory (fst (orderStatusUpdate now user data db))
      = orderStatusHistory db ++ [h]
      /\ history_orderId h = orderId data
      /\ history_status h = status data.

(** The claim as stated fails: the update is acknowledged as done, yet the
    history has no entry for the new status and the order keeps its old
    one. *)
Lemma status_update_not_recorded :
  let r := orderStatusUpdate 5000 carol completed Sample.shop in
  In (ToSocket "order-status-updated" (StatusUpdated true "o-1" "COMPLETED")) (snd r)
  /\ ~ (exists h, In h (orderStatusHistory (fst r))
                  /\ history_orderId h = "o-1" /\ history_status h = "COMPLETED")
  /\ option_map order_status (Prisma.order_findUnique "o-1" (orders (fst r)))
     = Some "PROCESSING"
  /\ ~ history_as_stated.
Proof.
  cbv zeta. split; [| split; [| split]].
  - vm_compute. tauto.
  - intros [h [Hin [_ Hstatus]]]. cbn in Hin.
    destruct Hin as [Hin | [Hin | []]]; subst h; discriminate Hstatus.
  - reflexivity.
  - intro Hclaim.
    destruct (Hclaim 5000 carol completed Sample.shop Sample.order1 eq_refl)
      as [h [Happ _]].
    + split; [right; reflexivity | intro H; discriminate H].
    + apply (f_equal (@List.length _)) in Happ. rewrite length_app in Happ.
      cbn in Happ. lia.
Qed.

End SocketProps.

(** ** Revocation of refresh tokens *)

Module RevocationProps.

Import Schema.

(** The request carries a refresh-token cookie: [req.cookies.refreshToken]
    is a non-empty string. *)
Definition presented (cookie : option string) (token : string) : Prop :=
  cookie = Some token /\ token <> "".

Lemma truthy_presented (cookie : option string) :
  Js.truthy_str cookie = true <-> exists token, presented cookie token.
Proof.
  unfold presented. destruct cookie as [[| a s] |]; cbn; split.
  - intro H; discriminate H.
  - intros [token [H Hne]]. injection H as <-. contradiction.
  - intros _. exists (String a s). split; [reflexivity | discriminate].
  - reflexivity.
  - intro H; discriminate H.
  - intros [token [H _]]. discriminate H.
Qed.

Lemma deleteMany_In (where_ : RefreshToken -> bool) (rows : list RefreshToken)
    (row : RefreshToken) :
  In row (Prisma.refreshToken_deleteMany where_ rows) <-> In row rows /\ where_ row = false.
Proof.
  unfold Prisma.refreshToken_deleteMany. rewrite filter_In, Bool.negb_true_iff. tauto.
Qed.

(** Logout removes the rows of the user that hold the presented token. *)
Lemma logout_rows (cookie : option string) (userId : string) (db : Db)
    (row : RefreshToken) :
  In row (refreshTokens (fst (AuthController.logout cookie userId db)))
  <-> In row (refreshTokens db)
      /\ ~ (presented cookie (rt_token row) /\ rt_userId row = userId).
Proof.
  unfold AuthController.logout. cbn [fst].
  destruct cookie as [token |]; [destruct (Js.truthy_str (Some token)) eqn:Et |].
  - cbn [set_refreshTokens refreshTokens]. rewrite deleteMany_In.
    rewrite Bool.andb_false_iff, !String.eqb_neq.
    apply truthy_presented in Et. destruct Et as [t [Ht Hne]]. injection Ht as <-.
    unfold presented. split.
    + intros [Hin Hor]. split; [exact Hin |].
      intros [[Hc _] Hu]. injection Hc as Hc. destruct Hor as [H | H]; congruence.
    + intros [Hin Hnot]. split; [exact Hin |].
      destruct (String.eqb (rt_token row) token) eqn:E1;
        [| left; apply String.eqb_neq; exact E1].
      destruct (String.eqb (rt_userId row) userId) eqn:E2;
        [| right; apply String.eqb_neq; exact E2].
      apply String.eqb_eq in E1. apply String.eqb_eq in E2.
      exfalso. apply Hnot. split; [split; [congruence | congruence] | exact E2].
  - split; [intro H; split; [exact H |] | tauto].
    intros [[Hc Hne] _]. injection Hc as Hc. subst token.
    assert (Ht : Js.truthy_str (Some (rt_token row)) = true).
    { apply truthy_presented. exists (rt_token row). split; [reflexivity | exact Hne]. }
    rewrite Ht in Et. discriminate Et.
  - split; [intro H; split; [exact H |] | tauto].
    intros [[Hc _] _]. discriminate Hc.
Qed.

Section ChangePassword.

Context (B : Bcrypt.Lib).

(** A password change that goes through removes the rows of the user,
    whatever their token, and no other row. *)
Lemma changePassword_rows (salt userId current new : string) (db : Db) (user : User) :
  Prisma.user_findUnique_id userId (users db) = Some user ->
  Bcrypt.compare B current (user_password user) = true ->
  let r := AuthController.changePassword B salt userId current new db in
  snd r = Return (Http.json AuthController.clear_cookies
                    (Http.success_body
                       "Password changed successfully. Please login again." None))
  /\ forall row, In row (refreshTokens (fst r))
                 <-> In row (refreshTokens db) /\ rt_userId row <> userId.
Proof.
  intros Hfind Hcompare. cbv zeta. unfold AuthController.changePassword.
  rewrite Hfind, Hcompare. cbn [negb]. unfold Prisma.user_update_password.
  assert (Hex : existsb (fun u => String.eqb (user_id u) userId) (users db) = true).
  { apply find_some in Hfind. apply existsb_exists. exists user. exact Hfind. }
  rewrite Hex. cbn [fst snd]. split; [reflexivity |].
  intro row. cbn [set_refreshTokens set_users refreshTokens].
  rewrite deleteMany_In, String.eqb_neq. tauto.
Qed.

(** One that is refused changes nothing. *)
Lemma changePassword_refused (salt userId current new : string) (db : Db)
    (e : JsError.t) :
  snd (AuthController.changePassword B salt userId current new db) = Throw e ->
  fst (AuthController.changePassword B salt userId current new db) = db.
Proof.
  unfold AuthController.changePassword.
  destruct (Prisma.user_findUnique_id userId (users db)) as [user |]; [| reflexivity].
  destruct (negb (Bcrypt.compare B current (user_password user))); [reflexivity |].
  destruct (Prisma.user_update_password userId
              (Bcrypt.hash B new AuthController.saltRounds salt) (users db));
    [intro H; discriminate H | reflexivity].
Qed.

End ChangePassword.

Definition refresh_token_expired : JsError.t :=
  ErrorUtil.createUnauthorizedError "AuthController.refreshToken (authController.ts:248)"
    "Refresh token expired".

Section Refresh.

Context (J : Jwt.Lib) (cfg : JWTUtil.Config) (nodeEnv : option string).

(** A refresh with a token that verifies and whose row has expired
    removes the row and throws. *)
Lemma refresh_expired (now : Z) (token : string) (d : Jwt.Payload) (row : RefreshToken)
    (db : Db) :
  Jwt.verify J token (JWTUtil.refreshSecret cfg) now = Some d ->
  Jwt.type d = "refresh" ->
  Prisma.refreshToken_findUnique_token token (refreshTokens db) = Some row ->
  rt_expiresAt row < now ->
  AuthController.refreshToken J cfg nodeEnv now token db
  = (set_refreshTokens db
       (filter (fun r => negb (String.eqb (rt_id r) (rt_id row))) (refreshTokens db)),
     Throw refresh_token_expired).
Proof.
  intros Hverify Htype Hfind Hexpired. unfold AuthController.refreshToken.
  rewrite (proj2 (TokenProps.verifyRefreshToken_Return J cfg _ now token d)
             (conj Hverify Htype)).
  rewrite Hfind. apply Z.ltb_lt in Hexpired. rewrite Hexpired.
  unfold Prisma.refreshToken_delete.
  assert (Hex : existsb (fun r => String.eqb (rt_id r) (rt_id row)) (refreshTokens db)
                = true).
  { apply find_some in Hfind. apply existsb_exists. exists row.
    split; [apply Hfind | apply String.eqb_refl]. }
  rewrite Hex. reflexivity.
Qed.

End Refresh.

(** *** The other handlers of the token table

    Logging out of all devices removes the rows of the user; a login and a
    refresh that does not find an expired row remove none. *)

Lemma logoutAll_rows (userId : string) (db : Db) (row : RefreshToken) :
  In row (refreshTokens (fst (AuthController.logoutAll userId db)))
  <-> In row (refreshTokens db) /\ rt_userId row <> userId.
Proof.
  unfold AuthController.logoutAll. cbn [fst set_refreshTokens refreshTokens].
  rewrite deleteMany_In, String.eqb_neq. tauto.
Qed.

Lemma login_keeps_rows (J : Jwt.Lib) (cfg : JWTUtil.Config) (B : Bcrypt.Lib)
    (nodeEnv : option string) (now : Z) (rowId email password : string) (db : Db)
    (row : RefreshToken) :
  In row (refreshTokens db) ->
  In row (refreshTokens (fst (AuthController.login J cfg B nodeEnv now rowId email password
                                db))).
Proof.
  intro Hin. unfold AuthController.login.
  destruct (Prisma.user_findUnique_email email (users db)) as [user |]; [| exact Hin].
  destruct (negb (UserStatus_eqb (user_status user) ACTIVE)); [exact Hin |].
  destruct (negb (Bcrypt.compare B password (user_password user))); [exact Hin |].
  destruct (JWTUtil.generateTokenPair J cfg _ now _) as [tokens | e]; [| exact Hin].
  unfold Prisma.refreshToken_create.
  destruct (existsb _ (refreshTokens db)); [exact Hin |].
  cbn [fst set_refreshTokens refreshTokens]. apply in_or_app. left. exact Hin.
Qed.

Lemma refresh_keeps_ids (J : Jwt.Lib) (cfg : JWTUtil.Config) (nodeEnv : option string)
    (now : Z) (token : string) (db : Db) :
  snd (AuthController.refreshToken J cfg nodeEnv now token db) <> Throw refresh_token_expired ->
  map rt_id (refreshTokens (fst (AuthController.refreshToken J cfg nodeEnv now token db)))
  = map rt_id (refreshTokens db).
Proof.
  unfold AuthController.refreshToken.
  destruct (JWTUtil.verifyRefreshToken J cfg _ now token) as [decoded | e];
    [| reflexivity].
  destruct (Prisma.refreshToken_findUnique_token token (refreshTokens db)) as [row |];
    [| reflexivity].
  destruct (rt_expiresAt row <? now).
  - unfold Prisma.refreshToken_delete.
    destruct (existsb _ (refreshTokens db)); [| reflexivity].
    cbn [snd]. intro H. exfalso. apply H. reflexivity.
  - destruct (Prisma.user_findUnique_id (rt_userId row) (users db)) as [user |];
      [| reflexivity].
    destruct (negb (UserStatus_eqb (user_status user) ACTIVE)); [reflexivity |].
    destruct (JWTUtil.generateTokenPair J cfg _ now _) as [tokens | e]; [| reflexivity].
    unfold Prisma.refreshToken_update.
    destruct (negb (existsb _ (refreshTokens db))); [reflexivity |].
    destruct (existsb _ (refreshTokens db)); [reflexivity |].
    intros _. cbn [fst set_refreshTokens refreshTokens].
    rewrite map_map. apply map_ext. intro r.
    destruct (String.eqb (rt_id r) (rt_id row)); reflexivity.
Qed.

(** *** Alice logs in at second 5 and comes back eight days later *)

Definition alice_subject : JWTUtil.Subject :=
  AuthController.subject_of "u-alice" "alice@example.com" BUYER None.

Definition alice_token (cfg : JWTUtil.Config) : string :=
  Sample.token_of (JWTUtil.generateRefreshToken PlainJwtProps.lib cfg [] 5000 alice_subject).

Definition after_login (cfg : JWTUtil.Config) : Db :=
  fst (AuthController.login PlainJwtProps.lib cfg PlainBcrypt.lib None
         5000 "rt-1" "alice@example.com" "Wonder1and!" Sample.shop).

Definition alice_row (cfg : JWTUtil.Config) : RefreshToken :=
  {| rt_id := "rt-1"; rt_token := alice_token cfg; rt_userId := "u-alice";
     rt_expiresAt := 5000 + AuthController.sevenDays |}.

Definition eight_days_later : Z := 5000 + 8 * 24 * 60 * 60 * 1000.

Lemma after_login_rows :
  refreshTokens (after_login Sample.config) = [alice_row Sample.config].
Proof. vm_compute. reflexivity. Qed.

(** C1, at the failing input. Under the default configuration a refresh
    token and its row both live 7 days. Alice logs in at second 5 and
    presents her refresh token eight days later: her row is in the table
    and has expired, yet the refresh is answered 500 with "Invalid or
    expired refresh token", and the table is as it was, the expired row
    still in it. [verifyRefreshToken] comes before the lookup and throws on
    the expired token, so the branch of the handler that deletes an expired
    row and answers 401 with "Refresh token expired" ([refresh_expired]) is
    not reached. *)
Theorem expired_record_not_deleted :
  let db := after_login Sample.config in
  let token := alice_token Sample.config in
  let r := Express.respond None
             (AuthController.refreshToken PlainJwtProps.lib Sample.config None
                eight_days_later token db) in
  Prisma.refreshToken_findUnique_token token (refreshTokens db)
  = Some (alice_row Sample.config)
  /\ rt_expiresAt (alice_row Sample.config) < eight_days_later
  /\ fst r = db
  /\ In (alice_row Sample.config) (refreshTokens (fst r))
  /\ Http.status (snd r) = 500
  /\ Http.message (Http.body (snd r)) = "Invalid or expired refresh token".
Proof.
  cbv zeta. split; [| split; [| split; [| split; [| split]]]].
  - vm_compute. reflexivity.
  - vm_compute. reflexivity.
  - vm_compute. reflexivity.
  - vm_compute. left. reflexivity.
  - vm_compute. reflexivity.
  - vm_compute. reflexivity.
Qed.

(** X27. The revocation events that are not a refresh remove exactly the
    rows they name. A logout removes the rows that hold the presented
    token and belong to the authenticated user, and no other; a logout
    from all devices and a password change that goes through remove the
    rows of the user, and no other; a password change that is refused
    removes none. *)
Theorem revocation_removes_exactly (B : Bcrypt.Lib) (db : Db) :
  (forall cookie userId row,
      In row (refreshTokens (fst (AuthController.logout cookie userId db)))
      <-> In row (refreshTokens db)
          /\ ~ (presented cookie (rt_token row) /\ rt_userId row = userId))
  /\ (forall userId row,
         In row (refreshTokens (fst (AuthController.logoutAll userId db)))
         <-> In row (refreshTokens db) /\ rt_userId row <> userId)
  /\ (forall salt userId current new user,
         Prisma.user_findUnique_id userId (users db) = Some user ->
         Bcrypt.compare B current (user_password user) = true ->
         let r := AuthController.changePassword B salt userId current new db in
         (exists res, snd r = Return res)
         /\ forall row, In row (refreshTokens (fst r))
                        <-> In row (refreshTokens db) /\ rt_userId row <> userId)
  /\ (forall salt userId current new e,
         snd (AuthController.changePassword B salt userId current new db) = Throw e ->
         fst (AuthController.changePassword B salt userId current new db) = db).
Proof.
  split; [| split; [| split]].
  - intros cookie userId row. apply logout_rows.
  - intros userId row. apply logoutAll_rows.
  - intros salt userId current new user Hfind Hcompare r.
    destruct (changePassword_rows B salt userId current new db user Hfind Hcompare)
      as [Hres Hrows].
    split; [eexists; exact Hres | exact Hrows].
  - intros salt userId current new e. apply changePassword_refused.
Qed.

(** Alice changes her password after her login: her row is gone. *)
Lemma revocation_removes_exactly_witness :
  ~ In (alice_row Sample.config)
      (refreshTokens
         (fst (AuthController.changePassword PlainBcrypt.lib "s7" "u-alice" "Wonder1and!"
                 "Look1ng-glass" (after_login Sample.config)))).
Proof.
  intro Hin.
  apply (proj2 (proj1 (proj2 (proj2 (revocation_removes_exactly PlainBcrypt.lib
                                       (after_login Sample.config))))
                  "s7" "u-alice" "Wonder1and!" "Look1ng-glass" Sample.alice
                  ltac:(vm_compute; reflexivity) ltac:(vm_compute; reflexivity))) in Hin.
  destruct Hin as [_ Hother]. apply Hother. reflexivity.
Defined.

End RevocationProps.

(** ** Rotation of refresh tokens *)

Module RotationProps.

Import Schema.

(** In a column without duplicates, equal values sit in the same row. *)
Lemma unique_column (A B : Type) (f : A -> B) (l : list A) (a b : A) :
  NoDup (map f l) -> In a l -> In b l -> f a = f b -> a = b.
Proof.
  induction l as [| x l IH]; cbn [map]; intros Hnd Ha Hb Heq; [destruct Ha |].
  inversion Hnd as [| y ys Hnotin Hrest]; subst.
  destruct Ha as [Ha | Ha], Hb as [Hb | Hb].
  - congruence.
  - subst x. exfalso. apply Hnotin. rewrite Heq. apply in_map. exact Hb.
  - subst x. exfalso. apply Hnotin. rewrite <- Heq. apply in_map. exact Ha.
  - apply IH; assumption.
Qed.

(** What the rotation does to one row. *)
Definition rotated (id token : string) (expiresAt : Z) (old new : RefreshToken) : Prop :=
  if String.eqb (rt_id old) id then
    new = {| rt_id := rt_id old; rt_token := token;
             rt_userId := rt_userId old; rt_expiresAt := expiresAt |}
  else new = old.

Definition rotate (id token : string) (expiresAt : Z) (r : RefreshToken) : RefreshToken :=
  if String.eqb (rt_id r) id then
    {| rt_id := rt_id r; rt_token := token;
       rt_userId := rt_userId r; rt_expiresAt := expiresAt |}
  else r.

Lemma rotate_rows (id token : string) (expiresAt : Z) (rows : list RefreshToken) :
  Forall2 (rotated id token expiresAt) rows (map (rotate id token expiresAt) rows).
Proof.
  induction rows as [| r rows IH]; cbn [map]; constructor; [| exact IH].
  unfold rotated, rotate. destruct (String.eqb (rt_id r) id); reflexivity.
Qed.

Lemma update_accepted (id token : string) (expiresAt : Z) (rows : list RefreshToken)
    (row : RefreshToken) :
  In row rows -> rt_id row = id ->
  (forall r, In r rows -> rt_token r = token -> rt_id r = id) ->
  Prisma.refreshToken_update id token expiresAt rows
  = Return (map (rotate id token expiresAt) rows).
Proof.
  intros Hin Hid Hfree. unfold Prisma.refreshToken_update.
  assert (Hex : existsb (fun r => String.eqb (rt_id r) id) rows = true).
  { apply existsb_exists. exists row. split; [exact Hin | apply String.eqb_eq; exact Hid]. }
  rewrite Hex. cbn [negb].
  assert (Hdup : existsb (fun r => negb (String.eqb (rt_id r) id)
                                   && String.eqb (rt_token r) token) rows = false).
  { apply Bool.not_true_iff_false. intro H. apply existsb_exists in H.
    destruct H as [r [Hr Hc]]. apply Bool.andb_true_iff in Hc. destruct Hc as [Hne Ht].
    apply Bool.negb_true_iff, String.eqb_neq in Hne. apply String.eqb_eq in Ht.
    apply Hne. apply Hfree; assumption. }
  rewrite Hdup. reflexivity.
Qed.

Lemma old_token_gone (token new : string) (expiresAt : Z) (rows : list RefreshToken)
    (row : RefreshToken) :
  NoDup (map rt_token rows) ->
  Prisma.refreshToken_findUnique_token token rows = Some row ->
  new <> token ->
  ~ In token (map rt_token (map (rotate (rt_id row) new expiresAt) rows)).
Proof.
  intros Hnd Hfind Hne Hin. apply find_some in Hfind. destruct Hfind as [Hrow Htok].
  apply String.eqb_eq in Htok.
  apply in_map_iff in Hin. destruct Hin as [r' [Ht Hr']].
  apply in_map_iff in Hr'. destruct Hr' as [r [Hrot Hr]]. subst r'.
  unfold rotate in Ht. destruct (String.eqb (rt_id r) (rt_id row)) eqn:E.
  - cbn in Ht. contradiction.
  - assert (r = row) by (apply (unique_column _ _ rt_token rows); congruence).
    subst r. rewrite String.eqb_refl in E. discriminate E.
Qed.

(** C2, amended. For a refresh token that verifies, is stored, has not
    expired and belongs to an ACTIVE user, a refresh for which the token
    pair is generated and which the store accepts rotates the token: the
    stored row is updated in place, its token becoming the refresh token
    generated at the time of the request and its [expiresAt] that time
    plus 7 days, every other row and table staying as it was; the response
    carries the access and refresh tokens generated at that time; and the
    presented token string is no longer in the store, provided the
    generated refresh token differs from it. (A token generated in the
    same clock second for the same user is the same string.) *)
Theorem refresh_rotates (J : Jwt.Lib) (cfg : JWTUtil.Config) (nodeEnv : option string)
    (now : Z) (token : string) (d : Jwt.Payload) (row : RefreshToken) (user : User)
    (db : Db) (tokens : Http.Tokens) :
  NoDup (map rt_token (refreshTokens db)) ->
  Jwt.verify J token (JWTUtil.refreshSecret cfg) now = Some d ->
  Jwt.type d = "refresh" ->
  Prisma.refreshToken_findUnique_token token (refreshTokens db) = Some row ->
  now <= rt_expiresAt row ->
  Prisma.user_findUnique_id (rt_userId row) (users db) = Some user ->
  user_status user = ACTIVE ->
  JWTUtil.generateTokenPair J cfg "AuthController.refreshToken (authController.ts:257)" now
    (AuthController.subject_of (user_id user) (user_email user) (user_role user)
       (user_sellerRole user))
  = Return tokens ->
  (forall r, In r (refreshTokens db) -> rt_token r = Http.refreshToken tokens ->
             rt_id r = rt_id row) ->
  let r := AuthController.refreshToken J cfg nodeEnv now token db in
  snd r = Return (Http.json (AuthController.token_cookies nodeEnv tokens)
                    (Http.success_body "Token refreshed successfully"
                       (Some (Http.RefreshData (AuthController.summary_of user) tokens))))
  /\ Forall2 (rotated (rt_id row) (Http.refreshToken tokens)
                (now + 7 * 24 * 60 * 60 * 1000))
       (refreshTokens db) (refreshTokens (fst r))
  /\ (Http.refreshToken tokens <> token ->
      ~ In token (map rt_token (refreshTokens (fst r))))
  /\ users (fst r) = users db
  /\ products (fst r) = products db
  /\ orderItems (fst r) = orderItems db
  /\ orders (fst r) = orders db
  /\ orderStatusHistory (fst r) = orderStatusHistory db.
Proof.
  intros Hnd Hverify Htype Hfind Hfresh Huser Hactive Htokens Hfree r. subst r.
  unfold AuthController.refreshToken.
  rewrite (proj2 (TokenProps.verifyRefreshToken_Return J cfg _ now token d)
             (conj Hverify Htype)).
  rewrite Hfind. apply Z.ltb_ge in Hfresh. rewrite Hfresh.
  rewrite Huser, Hactive. cbn [UserStatus_eqb negb]. rewrite Htokens.
  assert (Hrow : In row (refreshTokens db)) by (apply find_some in Hfind; apply Hfind).
  rewrite (update_accepted (rt_id row) (Http.refreshToken tokens)
             (now + AuthController.sevenDays) (refreshTokens db) row Hrow eq_refl Hfree).
  cbn [fst snd set_refreshTokens refreshTokens users products orderItems orders
         orderStatusHistory].
  split; [reflexivity | split; [| split; [| repeat split]]].
  - apply rotate_rows.
  - intro Hne. apply old_token_gone; assumption.
Qed.

(** Whatever the package, two refresh tokens generated for the same user in
    the same clock second are the same string. *)
Lemma same_second_same_token (J : Jwt.Lib) (cfg : JWTUtil.Config)
    (callers : list string) (t t' : Z) (subject : JWTUtil.Subject) :
  t / 1000 = t' / 1000 ->
  JWTUtil.generateRefreshToken J cfg callers t subject
  = JWTUtil.generateRefreshToken J cfg callers t' subject.
Proof.
  intro H. unfold JWTUtil.generateRefreshToken.
  rewrite (Jwt.sign_clock J _ _ _ t t' H). reflexivity.
Qed.

Definition alice_token_at (clock : Z) : string :=
  Sample.token_of
    (JWTUtil.generateRefreshToken PlainJwtProps.lib Sample.config [] clock
       RevocationProps.alice_subject).

(** Alice logs in at second 5 and refreshes at second 9: the row holds the
    token of second 9 and her first token is gone. *)
Lemma refresh_rotates_witness :
  let db := RevocationProps.after_login Sample.config in
  let r := AuthController.refreshToken PlainJwtProps.lib Sample.config None
             9000 (alice_token_at 5000) db in
  refreshTokens (fst r)
  = [{| rt_id := "rt-1"; rt_token := alice_token_at 9000; rt_userId := "u-alice";
        rt_expiresAt := 9000 + 7 * 24 * 60 * 60 * 1000 |}]
  /\ ~ In (alice_token_at 5000) (map rt_token (refreshTokens (fst r))).
Proof.
  cbv zeta.
  destruct (refresh_rotates PlainJwtProps.lib Sample.config None 9000
              (alice_token_at 5000)
              (JWTUtil.with_type RevocationProps.alice_subject "refresh")
              (RevocationProps.alice_row Sample.config) Sample.alice
              (RevocationProps.after_login Sample.config)
              {| Http.accessToken :=
                   Sample.token_of
                     (JWTUtil.generateAccessToken PlainJwtProps.lib Sample.config [] 9000
                        RevocationProps.alice_subject);
                 Http.refreshToken := alice_token_at 9000 |})
    as [_ [_ [Hgone _]]].
  - rewrite RevocationProps.after_login_rows. cbn [map].
    constructor; [intros [] | constructor].
  - vm_compute. reflexivity.
  - reflexivity.
  - vm_compute. reflexivity.
  - vm_compute. discriminate.
  - reflexivity.
  - reflexivity.
  - vm_compute. reflexivity.
  - intros r Hin Htoken. rewrite RevocationProps.after_login_rows in Hin.
    destruct Hin as [Hin | []]. subst r. reflexivity.
  - split.
    + vm_compute. reflexivity.
    + apply Hgone. vm_compute. discriminate.
Defined.

(** The last part of the claim as the specification words it: after a
    successful refresh of a valid, unexpired, stored token of an ACTIVE
    user, the presented string is no longer in the store. *)
Definition rotation_as_stated : Prop :=
  forall (J : Jwt.Lib) (cfg : JWTUtil.Config) (nodeEnv : option string)
         (now : Z) (token : string) (d : Jwt.Payload) (row : RefreshToken) (user : User)
         (db : Db) (res : Http.Response),
    NoDup (map rt_token (refreshTokens db)) ->
    Jwt.verify J token (JWTUtil.refreshSecret cfg) now = Some d ->
    Jwt.type d = "refresh" ->
    Prisma.refreshToken_findUnique_token token (refreshTokens db) = Some row ->
    now <= rt_expiresAt row ->
    Prisma.user_findUnique_id (rt_userId row) (users db) = Some user ->
    user_status user = ACTIVE ->
    snd (AuthController.refreshToken J cfg nodeEnv now token db) = Return res ->
    ~ In token
        (map rt_token
           (refreshTokens (fst (AuthController.refreshToken J cfg nodeEnv now token db)))).

(** The claim as stated fails when the refresh comes within the clock
    second of the login: the token generated for the same user in the same
    second is the same string, so after a successful refresh the presented
    token is still the stored one. *)
Lemma same_second_refresh_keeps_token :
  let db := RevocationProps.after_login Sample.config in
  let token := alice_token_at 5000 in
  let r := AuthController.refreshToken PlainJwtProps.lib Sample.config None 5400 token db in
  (exists res, snd r = Return res /\ Http.success (Http.body res) = true)
  /\ In token (map rt_token (refreshTokens (fst r)))
  /\ refreshTokens (fst r)
     = [{| rt_id := "rt-1"; rt_token := token; rt_userId := "u-alice";
           rt_expiresAt := 5400 + 7 * 24 * 60 * 60 * 1000 |}]
  /\ ~ rotation_as_stated.
Proof.
  cbv zeta.
  assert (Hin : In (alice_token_at 5000)
                  (map rt_token
                     (refreshTokens
                        (fst (AuthController.refreshToken PlainJwtProps.lib Sample.config
                                None 5400 (alice_token_at 5000)
                                (RevocationProps.after_login Sample.config))))))
    by (vm_compute; left; reflexivity).
  split; [| split; [exact Hin | split]].
  - eexists. split; vm_compute; reflexivity.
  - vm_compute. reflexivity.
  - intro Hclaim.
    refine (Hclaim PlainJwtProps.lib Sample.config None 5400 (alice_token_at 5000)
              (JWTUtil.with_type RevocationProps.alice_subject "refresh")
              (RevocationProps.alice_row Sample.config) Sample.alice
              (RevocationProps.after_login Sample.config) _ _ _ _ _ _ _ _ _ Hin).
    + rewrite RevocationProps.after_login_rows. cbn [map].
      constructor; [intros [] | constructor].
    + vm_compute. reflexivity.
    + reflexivity.
    + vm_compute. reflexivity.
    + vm_compute. discriminate.
    + reflexivity.
    + reflexivity.
    + vm_compute. reflexivity.
Qed.

End RotationProps.

(* ===================================================================== *)
(** * Further properties of the handlers                                  *)
(* ===================================================================== *)

(** ** Sessions: login, refresh and logout together *)

Module SessionProps.

Import Schema.

(** The two unique columns of the token table. *)
Definition unique_keys (db : Db) : Prop :=
  NoDup (map rt_id (refreshTokens db)) /\ NoDup (map rt_token (refreshTokens db)).

Lemma existsb_false (A : Type) (p : A -> bool) (l : list A) :
  existsb p l = false <-> forall x, In x l -> p x = false.
Proof.
  split.
  - intros H x Hin. destruct (p x) eqn:E; [| reflexivity].
    assert (Ht : existsb p l = true) by (apply existsb_exists; exists x; auto).
    rewrite H in Ht. discriminate Ht.
  - intro H. apply Bool.not_true_iff_false. intro Ht. apply existsb_exists in Ht.
    destruct Ht as [x [Hin Hp]]. rewrite (H x Hin) in Hp. discriminate Hp.
Qed.

Lemma token_absent (token : string) (rows : list RefreshToken) :
  existsb (fun r => String.eqb (rt_token r) token) rows = false <->
  ~ In token (map rt_token rows).
Proof.
  rewrite existsb_false. split.
  - intros H Hin. apply in_map_iff in Hin. destruct Hin as [r [Ht Hr]].
    specialize (H r Hr). rewrite Ht, String.eqb_refl in H. discriminate H.
  - intros H r Hr. apply String.eqb_neq. intro Ht. apply H. rewrite <- Ht.
    apply in_map. exact Hr.
Qed.

Lemma findUnique_token_None (token : string) (rows : list RefreshToken) :
  Prisma.refreshToken_findUnique_token token rows = None <->
  ~ In token (map rt_token rows).
Proof.
  unfold Prisma.refreshToken_findUnique_token. rewrite <- token_absent, existsb_false.
  split.
  - intros H r Hr. exact (find_none _ _ H r Hr).
  - intro H. destruct (find _ rows) as [r |] eqn:E; [| reflexivity].
    apply find_some in E. destruct E as [Hr Ht]. rewrite (H r Hr) in Ht. discriminate Ht.
Qed.

Lemma update_cases (id token : string) (expiresAt : Z) (rows : list RefreshToken) :
  (exists e, Prisma.refreshToken_update id token expiresAt rows = Throw e)
  \/ (Prisma.refreshToken_update id token expiresAt rows
      = Return (map (RotationProps.rotate id token expiresAt) rows)
      /\ forall r, In r rows -> rt_token r = token -> rt_id r = id).
Proof.
  unfold Prisma.refreshToken_update.
  destruct (negb (existsb (fun r => String.eqb (rt_id r) id) rows)); [left; eauto |].
  destruct (existsb (fun r => negb (String.eqb (rt_id r) id) && String.eqb (rt_token r) token)
              rows) eqn:E; [left; eauto |].
  right. split; [reflexivity |].
  intros r Hr Ht. rewrite existsb_false in E. specialize (E r Hr).
  rewrite Ht, String.eqb_refl, Bool.andb_true_r in E.
  apply Bool.negb_false_iff, String.eqb_eq in E. exact E.
Qed.

Lemma UserStatus_eqb_eq (a b : UserStatus) : UserStatus_eqb a b = true <-> a = b.
Proof. destruct a, b; cbn; split; intro H; try reflexivity; discriminate H. Qed.

(** The token pair a handler generates for [user] at [now]. *)
Definition issued (J : Jwt.Lib) (cfg : JWTUtil.Config) (caller : string) (now : Z)
    (user : User) : Outcome Http.Tokens :=
  JWTUtil.generateTokenPair J cfg caller now
    (AuthController.subject_of (user_id user) (user_email user) (user_role user)
       (user_sellerRole user)).

Definition login_frame : string := "AuthController.login (authController.ts:165)".
Definition refresh_frame : string := "AuthController.refreshToken (authController.ts:257)".
Definition register_frame : string := "AuthController.register (authController.ts:80)".

(** The row a login or a registration stores for a generated pair. *)
Definition issued_row (tokens : Http.Tokens) (now : Z) (rowId : string) (user : User)
    : RefreshToken :=
  {| rt_id := rowId;
     rt_token := Http.refreshToken tokens;
     rt_userId := user_id user;
     rt_expiresAt := now + AuthController.sevenDays |}.

(** Within one clock second the same pair is generated. *)
Lemma same_second_same_pair (J : Jwt.Lib) (cfg : JWTUtil.Config) (caller : string)
    (t t' : Z) (subject : JWTUtil.Subject) :
  t / 1000 = t' / 1000 ->
  JWTUtil.generateTokenPair J cfg caller t subject
  = JWTUtil.generateTokenPair J cfg caller t' subject.
Proof.
  intro H. unfold JWTUtil.generateTokenPair, JWTUtil.generateAccessToken,
    JWTUtil.generateRefreshToken.
  rewrite !(Jwt.sign_clock J _ _ _ t t' H). reflexivity.
Qed.

(** A failure to generate the pair is the signing error of the package. *)
Lemma generateTokenPair_Throw (J : Jwt.Lib) (cfg : JWTUtil.Config) (caller : string)
    (now : Z) (subject : JWTUtil.Subject) (e : JsError.t) :
  JWTUtil.generateTokenPair J cfg caller now subject = Throw e ->
  exists callers, e = JWTUtil.sign_error callers.
Proof.
  unfold JWTUtil.generateTokenPair, JWTUtil.generateAccessToken,
    JWTUtil.generateRefreshToken.
  destruct (Jwt.sign J (JWTUtil.with_type subject "access") _ _ now); cbn [bind].
  - destruct (Jwt.sign J (JWTUtil.with_type subject "refresh") _ _ now); cbn [bind];
      intro H; [discriminate H | injection H as <-; eauto].
  - intro H. injection H as <-. eauto.
Qed.

Section Inversion.

Context (J : Jwt.Lib) (cfg : JWTUtil.Config) (B : Bcrypt.Lib) (nodeEnv : option string).

(** What a successful login did. *)
Lemma login_Return (now : Z) (rowId email password : string) (db db1 : Db)
    (res : Http.Response) :
  AuthController.login J cfg B nodeEnv now rowId email password db = (db1, Return res) ->
  exists user tokens,
    Prisma.user_findUnique_email email (users db) = Some user
    /\ user_status user = ACTIVE
    /\ Bcrypt.compare B password (user_password user) = true
    /\ issued J cfg login_frame now user = Return tokens
    /\ ~ In (Http.refreshToken tokens) (map rt_token (refreshTokens db))
    /\ db1 = set_refreshTokens db (refreshTokens db ++ [issued_row tokens now rowId user])
    /\ res = Http.json (AuthController.token_cookies nodeEnv tokens)
               (Http.success_body "Login successful"
                  (Some (Http.LoginData (AuthController.profile_of user) tokens))).
Proof.
  unfold AuthController.login.
  destruct (Prisma.user_findUnique_email email (users db)) as [user |];
    [| intro H; discriminate H].
  destruct (UserStatus_eqb (user_status user) ACTIVE) eqn:Es; cbn [negb];
    [| intro H; discriminate H].
  destruct (Bcrypt.compare B password (user_password user)) eqn:Ec; cbn [negb];
    [| intro H; discriminate H].
  fold login_frame. fold (issued J cfg login_frame now user).
  destruct (issued J cfg login_frame now user) as [tokens | e] eqn:Et;
    [| intro H; discriminate H].
  unfold Prisma.refreshToken_create. cbn [rt_token].
  destruct (existsb _ (refreshTokens db)) eqn:Ee; [intro H; discriminate H |].
  intro H. injection H as <- <-. exists user, tokens.
  apply UserStatus_eqb_eq in Es. apply token_absent in Ee.
  repeat split; try assumption; reflexivity.
Qed.

(** What a successful refresh did. *)
Lemma refresh_Return (now : Z) (token : string) (db db1 : Db) (res : Http.Response) :
  AuthController.refreshToken J cfg nodeEnv now token db = (db1, Return res) ->
  exists d row user tokens,
    Jwt.verify J token (JWTUtil.refreshSecret cfg) now = Some d
    /\ Jwt.type d = "refresh"
    /\ Prisma.refreshToken_findUnique_token token (refreshTokens db) = Some row
    /\ now <= rt_expiresAt row
    /\ Prisma.user_findUnique_id (rt_userId row) (users db) = Some user
    /\ user_status user = ACTIVE
    /\ issued J cfg refresh_frame now user = Return tokens
    /\ (forall r, In r (refreshTokens db) ->
                  rt_token r = Http.refreshToken tokens ->
                  rt_id r = rt_id row)
    /\ db1 = set_refreshTokens db
               (map (RotationProps.rotate (rt_id row) (Http.refreshToken tokens)
                       (now + AuthController.sevenDays))
                  (refreshTokens db))
    /\ res = Http.json (AuthController.token_cookies nodeEnv tokens)
               (Http.success_body "Token refreshed successfully"
                  (Some (Http.RefreshData (AuthController.summary_of user) tokens))).
Proof.
  unfold AuthController.refreshToken.
  destruct (JWTUtil.verifyRefreshToken J cfg _ now token) as [d | e] eqn:Ev;
    [| intro H; discriminate H].
  apply TokenProps.verifyRefreshToken_Return in Ev. destruct Ev as [Hv Ht].
  destruct (Prisma.refreshToken_findUnique_token token (refreshTokens db)) as [row |] eqn:Ef;
    [| intro H; discriminate H].
  destruct (rt_expiresAt row <? now) eqn:Ex.
  { destruct (Prisma.refreshToken_delete (rt_id row) (refreshTokens db));
      intro H; discriminate H. }
  destruct (Prisma.user_findUnique_id (rt_userId row) (users db)) as [user |] eqn:Eu;
    [| intro H; discriminate H].
  destruct (UserStatus_eqb (user_status user) ACTIVE) eqn:Es; cbn [negb];
    [| intro H; discriminate H].
  fold refresh_frame. fold (issued J cfg refresh_frame now user).
  destruct (issued J cfg refresh_frame now user) as [tokens | e] eqn:Et;
    [| intro H; discriminate H].
  destruct (update_cases (rt_id row) (Http.refreshToken tokens)
              (now + AuthController.sevenDays) (refreshTokens db))
    as [[e He] | [Hu Hfree]]; rewrite ?He, ?Hu; [intro H; discriminate H |].
  intro H. injection H as <- <-. exists d, row, user, tokens.
  apply Z.ltb_ge in Ex. apply UserStatus_eqb_eq in Es.
  repeat split; try assumption; reflexivity.
Qed.

End Inversion.

Lemma after_login_unique : unique_keys (RevocationProps.after_login Sample.config).
Proof.
  unfold unique_keys. rewrite RevocationProps.after_login_rows. cbn [map].
  split; (constructor; [intros [] | constructor]).
Qed.

Lemma set_refreshTokens_same (db : Db) : set_refreshTokens db (refreshTokens db) = db.
Proof. destruct db; reflexivity. Qed.

Lemma set_refreshTokens_twice (db : Db) (a b : list RefreshToken) :
  set_refreshTokens (set_refreshTokens db a) b = set_refreshTokens db b.
Proof. reflexivity. Qed.

Lemma filter_keeps_all (A : Type) (p : A -> bool) (l : list A) :
  (forall x, In x l -> p x = true) -> filter p l = l.
Proof.
  induction l as [| x l IH]; cbn [filter]; intro H; [reflexivity |].
  rewrite (H x (or_introl eq_refl)), IH; [reflexivity |].
  intros y Hy. apply H. right. exact Hy.
Qed.

Lemma truthy_nonempty (s : string) : s <> "" -> Js.truthy_str (Some s) = true.
Proof. destruct s; [contradiction | reflexivity]. Qed.

(** X2. Logging out with the refresh token a login issued undoes the login:
    the database is again what it was before the login. *)
Theorem logout_undoes_login (J : Jwt.Lib) (cfg : JWTUtil.Config) (B : Bcrypt.Lib)
    (nodeEnv : option string) (now : Z) (rowId email password : string) (db db1 : Db)
    (res : Http.Response) :
  AuthController.login J cfg B nodeEnv now rowId email password db = (db1, Return res) ->
  exists user tokens,
    Prisma.user_findUnique_email email (users db) = Some user
    /\ issued J cfg login_frame now user = Return tokens
    /\ In (Http.SetCookie "refreshToken" (Http.refreshToken tokens)
             (AuthController.secure nodeEnv) AuthController.sevenDays)
          (Http.cookies res)
    /\ (Http.refreshToken tokens <> "" ->
        fst (AuthController.logout (Some (Http.refreshToken tokens)) (user_id user) db1)
        = db).
Proof.
  intro Hlogin. apply login_Return in Hlogin.
  destruct Hlogin as [user [tokens [Hfind [_ [_ [Htokens [Hfresh [Hdb1 Hres]]]]]]]].
  exists user, tokens. split; [exact Hfind | split; [exact Htokens | split]].
  - rewrite Hres. cbn. right. left. reflexivity.
  - intro Hne. unfold AuthController.logout. rewrite (truthy_nonempty _ Hne). cbn [fst].
    subst db1. rewrite set_refreshTokens_twice. cbn [set_refreshTokens refreshTokens].
    unfold Prisma.refreshToken_deleteMany. rewrite filter_app. cbn [filter].
    unfold issued_row at 1 2. cbn [rt_token rt_userId].
    rewrite !String.eqb_refl. cbn [andb negb]. rewrite app_nil_r.
    rewrite filter_keeps_all; [apply set_refreshTokens_same |].
    intros r Hr. apply Bool.negb_true_iff, Bool.andb_false_iff. left.
    apply String.eqb_neq. intro Ht. apply Hfresh. rewrite <- Ht. apply in_map. exact Hr.
Qed.

(** Alice logs in and out again. *)
Lemma logout_undoes_login_witness :
  fst (AuthController.logout (Some (RevocationProps.alice_token Sample.config)) "u-alice"
         (RevocationProps.after_login Sample.config)) = Sample.shop.
Proof.
  edestruct (logout_undoes_login PlainJwtProps.lib Sample.config PlainBcrypt.lib None
               5000 "rt-1" "alice@example.com" "Wonder1and!" Sample.shop
               (RevocationProps.after_login Sample.config))
    as [user [tokens [Hfind [Htokens [_ Hundo]]]]].
  - vm_compute. reflexivity.
  - vm_compute in Hfind. injection Hfind as <-.
    vm_compute in Htokens. injection Htokens as <-.
    apply Hundo. vm_compute. discriminate.
Defined.

(** A refresh with a token that is not in the table is refused and writes
    nothing; the answer is 401, or 500 when the token does not verify. *)
Lemma refresh_unknown_token (J : Jwt.Lib) (cfg : JWTUtil.Config) (nodeEnv : option string)
    (now : Z) (token : string) (db : Db) :
  ~ In token (map rt_token (refreshTokens db)) ->
  exists e,
    AuthController.refreshToken J cfg nodeEnv now token db = (db, Throw e)
    /\ (Http.status (ErrorHandler.errorHandler nodeEnv e) = 401
        \/ Http.status (ErrorHandler.errorHandler nodeEnv e) = 500).
Proof.
  intro Habsent. apply findUnique_token_None in Habsent.
  unfold AuthController.refreshToken.
  destruct (TokenProps.verifyRefreshToken_cases J cfg
              "AuthController.refreshToken (authController.ts:219)" now token)
    as [[d Hd] | Hthrow].
  - rewrite Hd, Habsent. eexists. split; [reflexivity | left; reflexivity].
  - rewrite Hthrow. eexists. split; [reflexivity | right; reflexivity].
Qed.

(** X3. A revoked token cannot be refreshed. In a table with unique tokens,
    once the rows of a user are gone (logout from all devices, or a password
    change that went through) or the one row of a token is gone (logout with
    that token), a refresh with a token that row held is refused, at any
    later time, with status 401 or 500, and writes nothing. *)
Theorem revoked_token_cannot_refresh (J : Jwt.Lib) (cfg : JWTUtil.Config) (B : Bcrypt.Lib)
    (nodeEnv : option string) (db : Db) (token userId : string) (row : RefreshToken) :
  NoDup (map rt_token (refreshTokens db)) ->
  Prisma.refreshToken_findUnique_token token (refreshTokens db) = Some row ->
  rt_userId row = userId ->
  let refused db' :=
    forall now, exists e,
      AuthController.refreshToken J cfg nodeEnv now token db' = (db', Throw e)
      /\ (Http.status (ErrorHandler.errorHandler nodeEnv e) = 401
          \/ Http.status (ErrorHandler.errorHandler nodeEnv e) = 500) in
  refused (fst (AuthController.logoutAll userId db))
  /\ (token <> "" -> refused (fst (AuthController.logout (Some token) userId db)))
  /\ (forall salt current new res,
         snd (AuthController.changePassword B salt userId current new db) = Return res ->
         refused (fst (AuthController.changePassword B salt userId current new db))).
Proof.
  intros Hunique Hfind Howner refused.
  assert (Hrow : In row (refreshTokens db) /\ rt_token row = token).
  { apply find_some in Hfind. destruct Hfind as [Hin Ht]. apply String.eqb_eq in Ht. auto. }
  destruct Hrow as [Hrow Htoken].
  assert (Hsame : forall r, In r (refreshTokens db) -> rt_token r = token -> r = row).
  { intros r Hr Ht. apply (RotationProps.unique_column _ _ rt_token (refreshTokens db));
      congruence. }
  split; [| split].
  - intro now. apply refresh_unknown_token.
    intro Hin. apply in_map_iff in Hin. destruct Hin as [r [Ht Hr]].
    apply RevocationProps.logoutAll_rows in Hr. destruct Hr as [Hr Hne].
    apply Hne. rewrite (Hsame r Hr Ht). exact Howner.
  - intros Hne now. apply refresh_unknown_token.
    intro Hin. apply in_map_iff in Hin. destruct Hin as [r [Ht Hr]].
    apply RevocationProps.logout_rows in Hr. destruct Hr as [Hr Hnot].
    apply Hnot. rewrite (Hsame r Hr Ht). split; [| exact Howner].
    split; [rewrite Htoken; reflexivity | rewrite Htoken; exact Hne].
  - intros salt current new res Hres now. apply refresh_unknown_token.
    intro Hin. apply in_map_iff in Hin. destruct Hin as [r [Ht Hr]].
    unfold AuthController.changePassword in Hres, Hr.
    destruct (Prisma.user_findUnique_id userId (users db)) as [user |];
      [| discriminate Hres].
    destruct (negb (Bcrypt.compare B current (user_password user))); [discriminate Hres |].
    destruct (Prisma.user_update_password userId _ (users db)) as [us | e];
      [| discriminate Hres].
    cbn [fst set_refreshTokens set_users refreshTokens] in Hr.
    apply RevocationProps.deleteMany_In in Hr. destruct Hr as [Hr Hne].
    apply String.eqb_neq in Hne. apply Hne. rewrite (Hsame r Hr Ht). exact Howner.
Qed.

(** After Alice logs out of all devices her token is refused one second
    later. *)
Lemma revoked_token_cannot_refresh_witness :
  exists e,
    AuthController.refreshToken PlainJwtProps.lib Sample.config None 6000
      (RevocationProps.alice_token Sample.config)
      (fst (AuthController.logoutAll "u-alice" (RevocationProps.after_login Sample.config)))
    = (fst (AuthController.logoutAll "u-alice" (RevocationProps.after_login Sample.config)),
       Throw e).
Proof.
  destruct (proj1 (revoked_token_cannot_refresh PlainJwtProps.lib Sample.config
                     PlainBcrypt.lib None (RevocationProps.after_login Sample.config)
                     (RevocationProps.alice_token Sample.config) "u-alice"
                     (RevocationProps.alice_row Sample.config)
                     (proj2 after_login_unique) ltac:(vm_compute; reflexivity) eq_refl)
              6000) as [e [He _]].
  exists e. exact He.
Defined.

(** X4. A second login of the same account within the clock second of a
    successful one is answered 409: the refresh token it generates is the
    string already stored, the token column rejects it, and no row is
    added. *)
Theorem second_login_same_second_conflicts (J : Jwt.Lib) (cfg : JWTUtil.Config)
    (B : Bcrypt.Lib) (nodeEnv : option string) (now now' : Z)
    (rowId rowId' email password : string) (db db1 : Db) (res : Http.Response) :
  AuthController.login J cfg B nodeEnv now rowId email password db = (db1, Return res) ->
  now / 1000 = now' / 1000 ->
  AuthController.login J cfg B nodeEnv now' rowId' email password db1
  = (db1, Throw (Prisma.uniqueViolation "token"))
  /\ Http.status (ErrorHandler.errorHandler nodeEnv (Prisma.uniqueViolation "token")) = 409.
Proof.
  intros Hlogin Hsecond. apply login_Return in Hlogin.
  destruct Hlogin as [user [tokens [Hfind [Hactive [Hcompare [Htokens [_ [Hdb1 _]]]]]]]].
  split; [| reflexivity].
  unfold AuthController.login. subst db1. cbn [set_refreshTokens users refreshTokens].
  rewrite Hfind, Hactive, Hcompare. cbn [UserStatus_eqb negb].
  unfold issued, login_frame in Htokens.
  rewrite <- (same_second_same_pair J cfg _ now now' _ Hsecond), Htokens.
  unfold Prisma.refreshToken_create. cbn [rt_token].
  assert (Hex : existsb (fun r => String.eqb (rt_token r) (Http.refreshToken tokens))
                  (refreshTokens db ++ [issued_row tokens now rowId user]) = true).
  { apply existsb_exists. exists (issued_row tokens now rowId user).
    split; [apply in_or_app; right; left; reflexivity |].
    apply String.eqb_eq. reflexivity. }
  rewrite Hex. reflexivity.
Qed.

(** Alice logs in twice within second 5. *)
Lemma second_login_same_second_conflicts_witness :
  snd (AuthController.login PlainJwtProps.lib Sample.config PlainBcrypt.lib None
         5900 "rt-2" "alice@example.com" "Wonder1and!"
         (RevocationProps.after_login Sample.config))
  = Throw (Prisma.uniqueViolation "token").
Proof.
  edestruct (second_login_same_second_conflicts PlainJwtProps.lib Sample.config
               PlainBcrypt.lib None 5000 5900 "rt-1" "rt-2" "alice@example.com"
               "Wonder1and!" Sample.shop (RevocationProps.after_login Sample.config))
    as [H _].
  - vm_compute. reflexivity.
  - reflexivity.
  - rewrite H. reflexivity.
Defined.

(** The refresh token a response carries in its body. *)
Definition response_refreshToken (res : Http.Response) : option string :=
  match Http.data (Http.body res) with
  | Some (Http.LoginData _ tokens) | Some (Http.RefreshData _ tokens) =>
      Some (Http.refreshToken tokens)
  | _ => None
  end.

(** X5. A rotated token cannot be replayed. In a table with unique tokens,
    after a refresh that answered with a refresh token different from the
    one presented, every later refresh with the presented token is refused,
    with status 401 or 500, and writes nothing. *)
Theorem rotated_token_cannot_be_replayed (J : Jwt.Lib) (cfg : JWTUtil.Config)
    (nodeEnv : option string) (now : Z) (token : string) (db db1 : Db)
    (res : Http.Response) :
  NoDup (map rt_token (refreshTokens db)) ->
  AuthController.refreshToken J cfg nodeEnv now token db = (db1, Return res) ->
  response_refreshToken res <> Some token ->
  forall now', exists e,
    AuthController.refreshToken J cfg nodeEnv now' token db1 = (db1, Throw e)
    /\ (Http.status (ErrorHandler.errorHandler nodeEnv e) = 401
        \/ Http.status (ErrorHandler.errorHandler nodeEnv e) = 500).
Proof.
  intros Hunique Hrefresh Hnew now'. apply refresh_Return in Hrefresh.
  destruct Hrefresh as [d [row [user [tokens [_ [_ [Hfind [_ [_ [_ [_ [_ [Hdb1 Hres]]]]]]]]]]]]].
  apply refresh_unknown_token. subst db1 res. cbn [set_refreshTokens refreshTokens].
  apply RotationProps.old_token_gone; [exact Hunique | exact Hfind |].
  intro Heq. apply Hnew.
  change (Some (Http.refreshToken tokens) = Some token).
  rewrite Heq. reflexivity.
Qed.

(** Alice refreshes at second 9 and then presents her first token again. *)
Lemma rotated_token_cannot_be_replayed_witness :
  exists e,
    snd (AuthController.refreshToken PlainJwtProps.lib Sample.config None 12000
           (RotationProps.alice_token_at 5000)
           (fst (AuthController.refreshToken PlainJwtProps.lib Sample.config None 9000
                   (RotationProps.alice_token_at 5000)
                   (RevocationProps.after_login Sample.config))))
    = Throw e.
Proof.
  edestruct (rotated_token_cannot_be_replayed PlainJwtProps.lib Sample.config None 9000
               (RotationProps.alice_token_at 5000)
               (RevocationProps.after_login Sample.config)
               (fst (AuthController.refreshToken PlainJwtProps.lib Sample.config None 9000
                       (RotationProps.alice_token_at 5000)
                       (RevocationProps.after_login Sample.config))))
    as [e [He _]].
  - exact (proj2 after_login_unique).
  - vm_compute. reflexivity.
  - vm_compute. discriminate.
  - exists e. rewrite He. reflexivity.
Defined.

(** X6. A request that ends in an error has written nothing, with two
    exceptions: a refresh that found its row expired has removed that row,
    and a registration that fails after creating the account, because the
    token pair could not be signed or because its token row was rejected,
    leaves the account created. A login or a refresh whose token pair
    cannot be signed fails before it writes. *)
Theorem failed_request_writes_nothing (J : Jwt.Lib) (cfg : JWTUtil.Config) (B : Bcrypt.Lib)
    (nodeEnv : option string) (db : Db) (e : JsError.t) :
  (forall now rowId email password,
      snd (AuthController.login J cfg B nodeEnv now rowId email password db) = Throw e ->
      fst (AuthController.login J cfg B nodeEnv now rowId email password db) = db)
  /\ (forall now token,
         snd (AuthController.refreshToken J cfg nodeEnv now token db) = Throw e ->
         fst (AuthController.refreshToken J cfg nodeEnv now token db) = db
         \/ e = RevocationProps.refresh_token_expired)
  /\ (forall salt userId current new,
         snd (AuthController.changePassword B salt userId current new db) = Throw e ->
         fst (AuthController.changePassword B salt userId current new db) = db)
  /\ (forall now userId rowId salt data,
         snd (Registration.register J cfg B nodeEnv now userId rowId salt data db) = Throw e ->
         fst (Registration.register J cfg B nodeEnv now userId rowId salt data db) = db
         \/ e = Prisma.uniqueViolation "token"
         \/ exists callers, e = JWTUtil.sign_error callers)
  /\ (forall user id,
         snd (ProductController.deleteProduct user id db) = Throw e ->
         fst (ProductController.deleteProduct user id db) = db)
  /\ (forall now authorization accessCookie id,
         snd (ProductRoutes.deleteRoute J cfg now authorization accessCookie id db) = Throw e ->
         fst (ProductRoutes.deleteRoute J cfg now authorization accessCookie id db) = db).
Proof.
  assert (Hdelete : forall user id,
             snd (ProductController.deleteProduct user id db) = Throw e ->
             fst (ProductController.deleteProduct user id db) = db).
  { intros user id. unfold ProductController.deleteProduct.
    destruct (negb (PermissionUtil.canManageProducts _ _)); [reflexivity |].
    destruct (Prisma.product_findUnique id (products db)) as [p |]; [| reflexivity].
    destruct (UserRole_eqb _ SELLER && _); [reflexivity |].
    destruct (Prisma.orderItem_count id (orderItems db) >? 0).
    - destruct (Prisma.product_update_isActive id false (products db));
        [intro H; discriminate H | reflexivity].
    - destruct (Prisma.product_delete id (products db));
        [intro H; discriminate H | reflexivity]. }
  split; [| split; [| split; [| split; [| split]]]].
  - intros now rowId email password. unfold AuthController.login.
    destruct (Prisma.user_findUnique_email email (users db)) as [user |]; [| reflexivity].
    destruct (negb (UserStatus_eqb (user_status user) ACTIVE)); [reflexivity |].
    destruct (negb (Bcrypt.compare B password (user_password user))); [reflexivity |].
    destruct (JWTUtil.generateTokenPair J cfg _ now _) as [tokens | e']; [| reflexivity].
    destruct (Prisma.refreshToken_create _ (refreshTokens db));
      [intro H; discriminate H | reflexivity].
  - intros now token. unfold AuthController.refreshToken.
    destruct (JWTUtil.verifyRefreshToken J cfg _ now token); [| left; reflexivity].
    destruct (Prisma.refreshToken_findUnique_token token (refreshTokens db)) as [row |];
      [| left; reflexivity].
    destruct (rt_expiresAt row <? now).
    + destruct (Prisma.refreshToken_delete (rt_id row) (refreshTokens db));
        [| left; reflexivity].
      cbn [snd]. intro H. injection H as <-. right. reflexivity.
    + destruct (Prisma.user_findUnique_id (rt_userId row) (users db)) as [user |];
        [| left; reflexivity].
      destruct (negb (UserStatus_eqb (user_status user) ACTIVE)); [left; reflexivity |].
      destruct (JWTUtil.generateTokenPair J cfg _ now _) as [tokens | e'];
        [| left; reflexivity].
      destruct (Prisma.refreshToken_update _ _ _ (refreshTokens db));
        [intro H; discriminate H | left; reflexivity].
  - intros salt userId current new. apply RevocationProps.changePassword_refused.
  - intros now userId rowId salt data. unfold Registration.register.
    destruct (Prisma.user_findUnique_email (Registration.email data) (users db));
      [left; reflexivity |].
    match goal with |- context [match ?s with Return _ => _ | Throw _ => _ end] =>
      destruct s as [[[[sr bn] bp] ba] | e'] end; [| left; reflexivity].
    destruct (Registration.user_create _ (users db)) as [us | e']; [| left; reflexivity].
    destruct (JWTUtil.generateTokenPair J cfg _ now _) as [tokens | e'] eqn:Et.
    + unfold Prisma.refreshToken_create.
      destruct (existsb _ _); [| intro H; discriminate H].
      cbn [snd]. intro H. injection H as <-. right. left. reflexivity.
    + cbn [snd]. intro H. injection H as <-. right. right.
      exact (generateTokenPair_Throw J cfg _ now _ e' Et).
  - exact Hdelete.
  - intros now authorization accessCookie id. unfold ProductRoutes.deleteRoute.
    destruct (AuthMiddleware.authenticate J cfg now authorization accessCookie db)
      as [user | e1]; [| reflexivity].
    destruct (Authorization.canManageProducts (Some user)); [| reflexivity].
    destruct (Authorization.requireSellerOwnership "sellerId" (Some user)); [| reflexivity].
    apply Hdelete.
Qed.

(** A wrong password on Alice's account leaves the shop as it was. *)
Lemma failed_request_writes_nothing_witness :
  fst (AuthController.login PlainJwtProps.lib Sample.config PlainBcrypt.lib None
         5000 "rt-1" "alice@example.com" "wonderland" Sample.shop) = Sample.shop.
Proof.
  apply (proj1 (failed_request_writes_nothing PlainJwtProps.lib Sample.config
                  PlainBcrypt.lib None Sample.shop
                  (LoginProps.invalid_credentials "161"))).
  reflexivity.
Defined.

End SessionProps.

(** ** Registration *)

Module RegistrationProps.

Import Schema.

Definition role_of (data : Registration.RegisterData) : UserRole :=
  match Registration.role data with
  | Some r => r
  | None => BUYER
  end.

(** The account row a registration stores. *)
Definition new_account (B : Bcrypt.Lib) (now : Z) (userId salt : string)
    (data : Registration.RegisterData) : User :=
  let seller := UserRole_eqb (role_of data) SELLER in
  {| user_id := userId;
     user_email := Registration.email data;
     user_password := Bcrypt.hash B (Registration.password data) 12 salt;
     user_name := Sanitize.sanitizeText (Registration.name data);
     user_phone := Registration.if_truthy (Registration.phone data);
     user_role := role_of data;
     user_sellerRole := if seller then Registration.sellerRole data else None;
     user_businessName :=
       if seller then option_map Sanitize.sanitizeText (Registration.businessName data)
       else None;
     user_businessPhone := if seller then Registration.businessPhone data else None;
     user_businessAddress :=
       if seller then option_map Sanitize.sanitizeText (Registration.businessAddress data)
       else None;
     user_status := ACTIVE;
     user_createdAt := now |}.

(** A seller registration carries the two texts the handler sanitizes. *)
Definition seller_complete (data : Registration.RegisterData) : Prop :=
  role_of data = SELLER ->
  Registration.businessName data <> None /\ Registration.businessAddress data <> None.

Lemma find_email_snoc (email : string) (rows : list User) (user : User) :
  Prisma.user_findUnique_email email rows = None ->
  user_email user = email ->
  Prisma.user_findUnique_email email (rows ++ [user]) = Some user.
Proof.
  unfold Prisma.user_findUnique_email. intros Hnone Hemail.
  induction rows as [| u rows IH]; cbn [app find] in *.
  - rewrite Hemail, String.eqb_refl. reflexivity.
  - destruct (String.eqb (user_email u) email); [discriminate Hnone | apply IH; exact Hnone].
Qed.

Section Register.

Context (J : Jwt.Lib) (cfg : JWTUtil.Config) (B : Bcrypt.Lib) (nodeEnv : option string).

(** What a registration with a new address does when its token pair is
    generated. *)
Lemma register_new (now : Z) (userId rowId salt : string)
    (data : Registration.RegisterData) (db : Db) (tokens : Http.Tokens) :
  Prisma.user_findUnique_email (Registration.email data) (users db) = None ->
  seller_complete data ->
  let user := new_account B now userId salt data in
  SessionProps.issued J cfg SessionProps.register_frame now user = Return tokens ->
  ~ In (Http.refreshToken tokens) (map rt_token (refreshTokens db)) ->
  Registration.register J cfg B nodeEnv now userId rowId salt data db
  = (set_refreshTokens (set_users db (users db ++ [user]))
       (refreshTokens db ++ [SessionProps.issued_row tokens now rowId user]),
     Return {| Http.status := 201;
               Http.cookies := AuthController.token_cookies nodeEnv tokens;
               Http.body :=
                 Http.success_body "Account created successfully"
                   (Some (Http.LoginData (AuthController.profile_of user) tokens)) |}).
Proof.
  intros Hnew Hseller user Htokens Hfresh. unfold Registration.register.
  fold (role_of data). rewrite Hnew.
  assert (Hcreate : forall u, user_email u = Registration.email data ->
             Registration.user_create u (users db) = Return (users db ++ [u])).
  { intros u Hu. unfold Registration.user_create.
    replace (existsb _ (users db)) with false; [reflexivity |].
    symmetry. apply SessionProps.existsb_false. intros x Hx. rewrite Hu.
    exact (find_none _ _ Hnew x Hx). }
  apply SessionProps.token_absent in Hfresh.
  unfold SessionProps.issued, SessionProps.register_frame in Htokens.
  subst user. unfold new_account in *.
  cbn [user_id user_email user_role user_sellerRole] in Htokens.
  destruct (UserRole_eqb (role_of data) SELLER) eqn:Erole.
  - apply PermissionProps.UserRole_eqb_eq in Erole. destruct (Hseller Erole) as [Hbn Hba].
    destruct (Registration.businessName data) as [bn |]; [| contradiction].
    destruct (Registration.businessAddress data) as [ba |]; [| contradiction].
    cbn [Registration.sanitize_field bind option_map] in *.
    rewrite Hcreate by reflexivity.
    cbn [user_id user_email user_role user_sellerRole]. rewrite Htokens.
    unfold Prisma.refreshToken_create.
    cbn [set_users refreshTokens rt_token] in *.
    rewrite Hfresh. reflexivity.
  - cbn [option_map] in *. rewrite Hcreate by reflexivity.
    cbn [user_id user_email user_role user_sellerRole]. rewrite Htokens.
    unfold Prisma.refreshToken_create.
    cbn [set_users refreshTokens rt_token] in *.
    rewrite Hfresh. reflexivity.
Qed.

End Register.

(** X7. A registered account can log in. If bcrypt accepts a password
    against its own hash, then a registration with a new address whose
    token pair is generated is answered 201 and the table holds the new
    account, ACTIVE; and a login with the same address and password
    succeeds for that account at any time at which its token pair is
    generated and the refresh token is not already stored. *)
Theorem registered_account_can_login (J : Jwt.Lib) (cfg : JWTUtil.Config) (B : Bcrypt.Lib)
    (nodeEnv : option string) (now : Z) (userId rowId salt : string)
    (data : Registration.RegisterData) (db : Db) (tokens : Http.Tokens) :
  (forall password rounds s, Bcrypt.compare B password (Bcrypt.hash B password rounds s) = true) ->
  Prisma.user_findUnique_email (Registration.email data) (users db) = None ->
  seller_complete data ->
  let user := new_account B now userId salt data in
  SessionProps.issued J cfg SessionProps.register_frame now user = Return tokens ->
  ~ In (Http.refreshToken tokens) (map rt_token (refreshTokens db)) ->
  let r := Registration.register J cfg B nodeEnv now userId rowId salt data db in
  (exists res, snd r = Return res /\ Http.status res = 201)
  /\ users (fst r) = users db ++ [user]
  /\ user_status user = ACTIVE
  /\ forall now' rowId' tokens',
       SessionProps.issued J cfg SessionProps.login_frame now' user = Return tokens' ->
       ~ In (Http.refreshToken tokens') (map rt_token (refreshTokens (fst r))) ->
       snd (AuthController.login J cfg B nodeEnv now' rowId' (Registration.email data)
              (Registration.password data) (fst r))
       = Return (Http.json (AuthController.token_cookies nodeEnv tokens')
                   (Http.success_body "Login successful"
                      (Some (Http.LoginData (AuthController.profile_of user) tokens')))).
Proof.
  intros Hbcrypt Hnew Hseller user Htokens Hfresh r. subst r.
  rewrite (register_new J cfg B nodeEnv now userId rowId salt data db tokens Hnew Hseller
             Htokens Hfresh).
  fold user. cbn [fst snd set_refreshTokens set_users users refreshTokens].
  split; [eexists; split; reflexivity | split; [reflexivity | split; [reflexivity |]]].
  intros now' rowId' tokens' Htokens' Hfresh'. unfold AuthController.login.
  cbn [set_refreshTokens set_users users refreshTokens].
  rewrite (find_email_snoc _ _ user Hnew eq_refl).
  cbn [user_status UserStatus_eqb negb user].
  replace (Bcrypt.compare B (Registration.password data) (user_password user)) with true
    by (symmetry; apply Hbcrypt).
  cbn [negb]. unfold SessionProps.issued, SessionProps.login_frame in Htokens'.
  rewrite Htokens'. unfold Prisma.refreshToken_create. cbn [rt_token].
  apply SessionProps.token_absent in Hfresh'. rewrite Hfresh'. reflexivity.
Qed.

Definition dave : Registration.RegisterData :=
  {| Registration.email := "dave@example.com";
     Registration.password := "Gard3ner!";
     Registration.name := "  Dave   Green ";
     Registration.phone := None;
     Registration.role := None;
     Registration.sellerRole := None;
     Registration.businessName := None;
     Registration.businessPhone := None;
     Registration.businessAddress := None |}.

Lemma plain_bcrypt_accepts (password : string) (rounds : Z) (salt : string) :
  Bcrypt.compare PlainBcrypt.lib password (Bcrypt.hash PlainBcrypt.lib password rounds salt)
  = true.
Proof.
  cbn [Bcrypt.compare Bcrypt.hash PlainBcrypt.lib]. unfold PlainBcrypt.compare, PlainBcrypt.hash.
  rewrite PlainJwtProps.unframe_frame. apply String.eqb_refl.
Qed.

(** Dave registers at second 5 and logs in at second 9; his name is stored
    sanitized. *)
Lemma registered_account_can_login_witness :
  let db1 := fst (Registration.register PlainJwtProps.lib Sample.config PlainBcrypt.lib None
                    5000 "u-dave" "rt-1" "s4" dave Sample.shop) in
  (exists res,
      snd (AuthController.login PlainJwtProps.lib Sample.config PlainBcrypt.lib None
             9000 "rt-2" "dave@example.com" "Gard3ner!" db1) = Return res)
  /\ option_map user_name (Prisma.user_findUnique_email "dave@example.com" (users db1))
     = Some "Dave Green".
Proof.
  cbv zeta. split.
  - eexists.
    eapply (proj2 (proj2 (proj2
              (registered_account_can_login PlainJwtProps.lib Sample.config PlainBcrypt.lib
                 None 5000 "u-dave" "rt-1" "s4" dave Sample.shop _
                 plain_bcrypt_accepts eq_refl
                 ltac:(intro H; discriminate H)
                 ltac:(vm_compute; reflexivity)
                 ltac:(intros []))))).
    + vm_compute. reflexivity.
    + vm_compute. intros [H | []]. discriminate H.
  - vm_compute. reflexivity.
Defined.

(** X8. A registration that cannot go through creates nothing: an address
    already registered is answered 409 "Email already registered", and a
    seller registration that reaches the handler without a business name or
    address fails inside [sanitizeString] and is answered 500. *)
Theorem register_refusals (J : Jwt.Lib) (cfg : JWTUtil.Config) (B : Bcrypt.Lib)
    (nodeEnv : option string) (now : Z) (userId rowId salt : string)
    (data : Registration.RegisterData) (db : Db) :
  let r := Express.respond nodeEnv
             (Registration.register J cfg B nodeEnv now userId rowId salt data db) in
  (Prisma.user_findUnique_email (Registration.email data) (users db) <> None ->
   fst r = db /\ Http.status (snd r) = 409
   /\ Http.message (Http.body (snd r)) = "Email already registered")
  /\ (Prisma.user_findUnique_email (Registration.email data) (users db) = None ->
      role_of data = SELLER ->
      Registration.businessName data = None \/ Registration.businessAddress data = None ->
      fst r = db /\ Http.status (snd r) = 500).
Proof.
  cbv zeta. unfold Registration.register. fold (role_of data). split.
  - intro Hsome.
    destruct (Prisma.user_findUnique_email (Registration.email data) (users db));
      [| contradiction].
    cbn [Express.respond fst snd]. repeat split.
  - intros Hnone Hrole Hmissing. rewrite Hnone, Hrole. cbn [UserRole_eqb].
    destruct (Registration.businessName data) as [bn |];
      [| cbn [Registration.sanitize_field bind Express.respond fst snd]; split; reflexivity].
    destruct Hmissing as [H | H]; [discriminate H |]. rewrite H.
    cbn [Registration.sanitize_field bind Express.respond fst snd]. split; reflexivity.
Qed.

(** Alice's address is taken. *)
Lemma register_refusals_witness :
  Http.status
    (snd (Express.respond None
            (Registration.register PlainJwtProps.lib Sample.config PlainBcrypt.lib None
               5000 "u-x" "rt-1" "s4"
               {| Registration.email := "alice@example.com";
                  Registration.password := "Gard3ner!";
                  Registration.name := "Alice";
                  Registration.phone := None;
                  Registration.role := None;
                  Registration.sellerRole := None;
                  Registration.businessName := None;
                  Registration.businessPhone := None;
                  Registration.businessAddress := None |}
               Sample.shop))) = 409.
Proof.
  apply (proj1 (register_refusals PlainJwtProps.lib Sample.config PlainBcrypt.lib None
                  5000 "u-x" "rt-1" "s4" _ Sample.shop)).
  cbn. discriminate.
Defined.

(** X28. A registration whose tokens cannot be signed leaves the account
    behind. With a new address, the account is created before the token
    pair is generated; when the package refuses to sign, the request is
    answered 500 and the new account stays in the table, without a token
    row, so that a second registration with the address is answered 409. *)
Theorem unsigned_registration_keeps_account (J : Jwt.Lib) (cfg : JWTUtil.Config)
    (B : Bcrypt.Lib) (nodeEnv : option string) (now : Z) (userId rowId salt : string)
    (data : Registration.RegisterData) (db : Db) (e : JsError.t) :
  Prisma.user_findUnique_email (Registration.email data) (users db) = None ->
  seller_complete data ->
  let user := new_account B now userId salt data in
  SessionProps.issued J cfg SessionProps.register_frame now user = Throw e ->
  let r := Express.respond nodeEnv
             (Registration.register J cfg B nodeEnv now userId rowId salt data db) in
  fst r = set_users db (users db ++ [user])
  /\ Http.status (snd r) = 500
  /\ forall now' userId' rowId' salt',
       let r' := Express.respond nodeEnv
                   (Registration.register J cfg B nodeEnv now' userId' rowId' salt' data
                      (fst r)) in
       fst r' = fst r /\ Http.status (snd r') = 409.
Proof.
  intros Hnew Hseller user Hthrow r.
  assert (Hr : Registration.register J cfg B nodeEnv now userId rowId salt data db
               = (set_users db (users db ++ [user]), Throw e)).
  { unfold Registration.register. fold (role_of data). rewrite Hnew.
    assert (Hcreate : forall u, user_email u = Registration.email data ->
               Registration.user_create u (users db) = Return (users db ++ [u])).
    { intros u Hu. unfold Registration.user_create.
      replace (existsb _ (users db)) with false; [reflexivity |].
      symmetry. apply SessionProps.existsb_false. intros x Hx. rewrite Hu.
      exact (find_none _ _ Hnew x Hx). }
    unfold SessionProps.issued, SessionProps.register_frame in Hthrow.
    subst user. unfold new_account in *.
    cbn [user_id user_email user_role user_sellerRole] in Hthrow.
    destruct (UserRole_eqb (role_of data) SELLER) eqn:Erole.
    - apply PermissionProps.UserRole_eqb_eq in Erole. destruct (Hseller Erole) as [Hbn Hba].
      destruct (Registration.businessName data) as [bn |]; [| contradiction].
      destruct (Registration.businessAddress data) as [ba |]; [| contradiction].
      cbn [Registration.sanitize_field bind option_map] in *.
      rewrite Hcreate by reflexivity.
      cbn [user_id user_email user_role user_sellerRole]. rewrite Hthrow. reflexivity.
    - cbn [option_map] in *. rewrite Hcreate by reflexivity.
      cbn [user_id user_email user_role user_sellerRole]. rewrite Hthrow. reflexivity. }
  subst r. rewrite Hr. cbn [Express.respond fst snd].
  split; [reflexivity | split].
  - destruct (SessionProps.generateTokenPair_Throw J cfg _ now _ e Hthrow) as [callers ->].
    reflexivity.
  - intros now' userId' rowId' salt'. unfold Registration.register.
    cbn [set_users users].
    rewrite (find_email_snoc _ _ user Hnew eq_refl).
    cbn [Express.respond fst snd]. split; reflexivity.
Qed.

(** The configuration whose refresh lifetime is not a timespan. *)
Definition unsignable : JWTUtil.Config :=
  JWTUtil.config_of_env
    (fun variable =>
       if String.eqb variable "JWT_REFRESH_EXPIRES_IN" then Some "soon" else None).

(** Under that configuration Dave's registration is answered 500 and his
    account is in the table. *)
Lemma unsigned_registration_keeps_account_witness :
  let r := Express.respond None
             (Registration.register PlainJwtProps.lib unsignable PlainBcrypt.lib None
                5000 "u-dave" "rt-1" "s4" dave Sample.shop) in
  Http.status (snd r) = 500
  /\ option_map user_id (Prisma.user_findUnique_email "dave@example.com" (users (fst r)))
     = Some "u-dave"
  /\ refreshTokens (fst r) = [].
Proof.
  cbv zeta.
  edestruct (unsigned_registration_keeps_account PlainJwtProps.lib unsignable PlainBcrypt.lib
               None 5000 "u-dave" "rt-1" "s4" dave Sample.shop)
    as [Hdb [Hstatus _]].
  - reflexivity.
  - intro H. discriminate H.
  - vm_compute. reflexivity.
  - split; [exact Hstatus |]. rewrite Hdb. split; vm_compute; reflexivity.
Defined.

End RegistrationProps.

(** ** Authentication and authorization middleware *)

Module AccessProps.

Import Schema.

Lemma truthy_str_Some (s : string) : Js.truthy_str (Some s) = true <-> s <> "".
Proof.
  destruct s; cbn; split; intro H; try reflexivity; try discriminate H.
  - contradiction H. reflexivity.
  - discriminate.
Qed.

Section Access.

Context (J : Jwt.Lib) (cfg : JWTUtil.Config).

(** What a request must present for [authenticate] to let it through as
    [u]. *)
Definition admitted (now : Z) (authorization accessCookie : option string) (db : Db)
    (u : Http.UserSummary) : Prop :=
  exists token decoded user,
    AuthMiddleware.request_token authorization accessCookie = Some token
    /\ token <> ""
    /\ Jwt.verify J token (JWTUtil.accessSecret cfg) now = Some decoded
    /\ Jwt.type decoded = "access"
    /\ Prisma.user_findUnique_id (Jwt.userId decoded) (users db) = Some user
    /\ user_status user = ACTIVE
    /\ u = AuthController.summary_of user.

Lemma authenticate_Return (now : Z) (authorization accessCookie : option string) (db : Db)
    (u : Http.UserSummary) :
  AuthMiddleware.authenticate J cfg now authorization accessCookie db = Return u
  <-> admitted now authorization accessCookie db u.
Proof.
  unfold AuthMiddleware.authenticate, admitted.
  destruct (AuthMiddleware.request_token authorization accessCookie) as [token |].
  2: { split; [intro H; discriminate H | intros (t & d & x & H & _); discriminate H]. }
  destruct (Js.truthy_str (Some token)) eqn:Etruthy; cbn [negb].
  2: { split; [intro H; discriminate H |].
       intros (t & d & x & H & Hne & _). injection H as <-.
       apply truthy_str_Some in Hne. rewrite Hne in Etruthy. discriminate Etruthy. }
  apply truthy_str_Some in Etruthy.
  destruct (TokenProps.verifyAccessToken_cases J cfg "authenticate (auth.ts:33)" now token)
    as [[d Hd] | Hthrow].
  - rewrite Hd. cbn [bind].
    apply TokenProps.verifyAccessToken_Return in Hd. destruct Hd as [Hv Ht].
    destruct (Prisma.user_findUnique_id (Jwt.userId d) (users db)) as [user |] eqn:Efind.
    + destruct (UserStatus_eqb (user_status user) ACTIVE) eqn:Est; cbn [negb].
      * apply SessionProps.UserStatus_eqb_eq in Est. split.
        -- intro H. injection H as <-. exists token, d, user. repeat split; assumption.
        -- intros (t & d' & x & H & _ & Hv' & _ & Hf & _ & ->).
           injection H as <-. rewrite Hv in Hv'. injection Hv' as <-.
           rewrite Efind in Hf. injection Hf as <-. reflexivity.
      * split; [intro H; discriminate H |].
        intros (t & d' & x & H & _ & Hv' & _ & Hf & Hact & _).
        injection H as <-. rewrite Hv in Hv'. injection Hv' as <-.
        rewrite Efind in Hf. injection Hf as <-.
        apply SessionProps.UserStatus_eqb_eq in Hact. rewrite Hact in Est. discriminate Est.
    + split; [intro H; discriminate H |].
      intros (t & d' & x & H & _ & Hv' & _ & Hf & _).
      injection H as <-. rewrite Hv in Hv'. injection Hv' as <-.
      rewrite Efind in Hf. discriminate Hf.
  - rewrite Hthrow. cbn [bind]. split; [intro H; discriminate H |].
    intros (t & d & x & H & _ & Hv & Ht & _). injection H as <-.
    assert (Hr : JWTUtil.verifyAccessToken J cfg "authenticate (auth.ts:33)" now token
                 = Return d)
      by (apply TokenProps.verifyAccessToken_Return; split; assumption).
    rewrite Hr in Hthrow. discriminate Hthrow.
Qed.

Lemma optionalAuth_Some (now : Z) (authorization accessCookie : option string) (db : Db)
    (u : Http.UserSummary) :
  Authorization.optionalAuth J cfg now authorization accessCookie db = Some u
  <-> admitted now authorization accessCookie db u.
Proof.
  unfold Authorization.optionalAuth, admitted.
  destruct (AuthMiddleware.request_token authorization accessCookie) as [token |].
  2: { split; [intro H; discriminate H | intros (t & d & x & H & _); discriminate H]. }
  destruct (Js.truthy_str (Some token)) eqn:Etruthy.
  2: { split; [intro H; discriminate H |].
       intros (t & d & x & H & Hne & _). injection H as <-.
       apply truthy_str_Some in Hne. rewrite Hne in Etruthy. discriminate Etruthy. }
  apply truthy_str_Some in Etruthy.
  destruct (TokenProps.verifyAccessToken_cases J cfg "optionalAuth (auth.ts:87)" now token)
    as [[d Hd] | Hthrow].
  - rewrite Hd.
    apply TokenProps.verifyAccessToken_Return in Hd. destruct Hd as [Hv Ht].
    destruct (Prisma.user_findUnique_id (Jwt.userId d) (users db)) as [user |] eqn:Efind.
    + destruct (UserStatus_eqb (user_status user) ACTIVE) eqn:Est.
      * apply SessionProps.UserStatus_eqb_eq in Est. split.
        -- intro H. injection H as <-. exists token, d, user. repeat split; assumption.
        -- intros (t & d' & x & H & _ & Hv' & _ & Hf & _ & ->).
           injection H as <-. rewrite Hv in Hv'. injection Hv' as <-.
           rewrite Efind in Hf. injection Hf as <-. reflexivity.
      * split; [intro H; discriminate H |].
        intros (t & d' & x & H & _ & Hv' & _ & Hf & Hact & _).
        injection H as <-. rewrite Hv in Hv'. injection Hv' as <-.
        rewrite Efind in Hf. injection Hf as <-.
        apply SessionProps.UserStatus_eqb_eq in Hact. rewrite Hact in Est. discriminate Est.
    + split; [intro H; discriminate H |].
      intros (t & d' & x & H & _ & Hv' & _ & Hf & _).
      injection H as <-. rewrite Hv in Hv'. injection Hv' as <-.
      rewrite Efind in Hf. discriminate Hf.
  - rewrite Hthrow. split; [intro H; discriminate H |].
    intros (t & d & x & H & _ & Hv & Ht & _). injection H as <-.
    assert (Hr : JWTUtil.verifyAccessToken J cfg "optionalAuth (auth.ts:87)" now token
                 = Return d)
      by (apply TokenProps.verifyAccessToken_Return; split; assumption).
    rewrite Hr in Hthrow. discriminate Hthrow.
Qed.

End Access.

(** The request carries a token that is not empty and does not pass
    [verifyAccessToken]. *)
Definition bad_token (J : Jwt.Lib) (cfg : JWTUtil.Config) (now : Z)
    (authorization accessCookie : option string) : Prop :=
  exists token,
    AuthMiddleware.request_token authorization accessCookie = Some token
    /\ token <> ""
    /\ forall decoded, Jwt.verify J token (JWTUtil.accessSecret cfg) now = Some decoded ->
                       Jwt.type decoded <> "access".

(** X9. [authenticate] lets a request through exactly when it carries a
    non-empty token (header first, then cookie) that verifies under the
    access secret with type access and names a stored account that is
    ACTIVE, and then attaches that account. Every other request is answered
    401, except one whose token fails verification, which is answered 500. *)
Theorem authenticate_outcomes (J : Jwt.Lib) (cfg : JWTUtil.Config) (nodeEnv : option string)
    (now : Z) (authorization accessCookie : option string) (db : Db) :
  let r := AuthMiddleware.authenticate J cfg now authorization accessCookie db in
  (forall u, r = Return u <-> admitted J cfg now authorization accessCookie db u)
  /\ (forall e, r = Throw e ->
        let res := ErrorHandler.errorHandler nodeEnv e in
        (Http.status res = 500 /\ bad_token J cfg now authorization accessCookie)
        \/ (Http.status res = 401 /\ ~ bad_token J cfg now authorization accessCookie)).
Proof.
  cbv zeta. split; [intro u; apply authenticate_Return |].
  intro e. unfold AuthMiddleware.authenticate, bad_token.
  destruct (AuthMiddleware.request_token authorization accessCookie) as [token |].
  2: { intro H. injection H as <-. right. split; [reflexivity |].
       intros (t & H & _). discriminate H. }
  destruct (Js.truthy_str (Some token)) eqn:Etruthy; cbn [negb].
  2: { intro H. injection H as <-. right. split; [reflexivity |].
       intros (t & H & Hne & _). injection H as <-.
       apply truthy_str_Some in Hne. rewrite Hne in Etruthy. discriminate Etruthy. }
  apply truthy_str_Some in Etruthy.
  destruct (TokenProps.verifyAccessToken_cases J cfg "authenticate (auth.ts:33)" now token)
    as [[d Hd] | Hthrow].
  - rewrite Hd. cbn [bind].
    apply TokenProps.verifyAccessToken_Return in Hd. destruct Hd as [Hv Ht].
    assert (Hgood : ~ (exists t, Some token = Some t /\ t <> ""
                       /\ forall decoded,
                            Jwt.verify J t (JWTUtil.accessSecret cfg) now = Some decoded ->
                            Jwt.type decoded <> "access")).
    { intros (t & H & _ & Hall). injection H as <-. exact (Hall d Hv Ht). }
    destruct (Prisma.user_findUnique_id (Jwt.userId d) (users db)) as [user |].
    + destruct (UserStatus_eqb (user_status user) ACTIVE); cbn [negb]; intro H;
        [discriminate H |].
      injection H as <-. right. split; [reflexivity | exact Hgood].
    + intro H. injection H as <-. right. split; [reflexivity | exact Hgood].
  - rewrite Hthrow. cbn [bind]. intro H. injection H as <-. left.
    split; [reflexivity |]. exists token. split; [reflexivity | split; [exact Etruthy |]].
    intros d Hv Ht.
    assert (Hr : JWTUtil.verifyAccessToken J cfg "authenticate (auth.ts:33)" now token
                 = Return d)
      by (apply TokenProps.verifyAccessToken_Return; split; assumption).
    rewrite Hr in Hthrow. discriminate Hthrow.
Qed.

(** X10. [optionalAuth] attaches an account exactly when [authenticate]
    would let the same request through, and the same account; it attaches
    nothing exactly when [authenticate] would refuse. *)
Theorem optionalAuth_agrees_with_authenticate (J : Jwt.Lib) (cfg : JWTUtil.Config)
    (now : Z) (authorization accessCookie : option string) (db : Db) :
  (forall u,
      Authorization.optionalAuth J cfg now authorization accessCookie db = Some u
      <-> AuthMiddleware.authenticate J cfg now authorization accessCookie db = Return u)
  /\ (Authorization.optionalAuth J cfg now authorization accessCookie db = None
      <-> exists e,
          AuthMiddleware.authenticate J cfg now authorization accessCookie db = Throw e).
Proof.
  assert (Hsame : forall u,
             Authorization.optionalAuth J cfg now authorization accessCookie db = Some u
             <-> AuthMiddleware.authenticate J cfg now authorization accessCookie db
                 = Return u).
  { intro u. rewrite optionalAuth_Some, authenticate_Return. reflexivity. }
  split; [exact Hsame |].
  destruct (AuthMiddleware.authenticate J cfg now authorization accessCookie db)
    as [u | e] eqn:Eauth.
  - pose proof (proj2 (Hsame u) eq_refl) as Hopt. rewrite Hopt. split.
    + intro H. discriminate H.
    + intros [e H]. discriminate H.
  - split; [intros _; exists e; reflexivity |]. intros _.
    destruct (Authorization.optionalAuth J cfg now authorization accessCookie db)
      as [u |]; [| reflexivity].
    destruct (Hsame u) as [H _]. discriminate (H eq_refl).
Qed.

(** X11. The guards built from seller roles and the guards built from the
    permission predicates admit the same accounts: [managerOrInventory] and
    [canManageProducts], [managerOnly] and [canManageOrders],
    [managerOrAccountant] and [canViewFinancials]; each admits exactly the
    accounts its predicate of [PermissionUtil] accepts, and [adminOnly]
    exactly those [canManageUsers] accepts. *)
Theorem role_guards_agree (u : Http.UserSummary) :
  let role := Http.summary_role u in
  let sellerRole := Http.summary_sellerRole u in
  (Authorization.managerOrInventory (Some u) = Return tt
   <-> Authorization.canManageProducts (Some u) = Return tt)
  /\ (Authorization.canManageProducts (Some u) = Return tt
      <-> PermissionUtil.canManageProducts role sellerRole = true)
  /\ (Authorization.managerOnly (Some u) = Return tt
      <-> Authorization.canManageOrders (Some u) = Return tt)
  /\ (Authorization.canManageOrders (Some u) = Return tt
      <-> PermissionUtil.canManageOrders role sellerRole = true)
  /\ (Authorization.managerOrAccountant (Some u) = Return tt
      <-> Authorization.canViewFinancials (Some u) = Return tt)
  /\ (Authorization.canViewFinancials (Some u) = Return tt
      <-> PermissionUtil.canViewFinancials role sellerRole = true)
  /\ (Authorization.adminOnly (Some u) = Return tt
      <-> PermissionUtil.canManageUsers role = true).
Proof.
  cbv zeta.
  unfold Authorization.managerOrInventory, Authorization.managerOnly,
    Authorization.managerOrAccountant, Authorization.canManageProducts,
    Authorization.canManageOrders, Authorization.canViewFinancials,
    Authorization.adminOnly, Authorization.authorizeSellerRole,
    Authorization.requirePermission, Authorization.authorize,
    PermissionUtil.canManageProducts, PermissionUtil.canManageOrders,
    PermissionUtil.canViewFinancials, PermissionUtil.canManageUsers.
  destruct (Http.summary_role u); destruct (Http.summary_sellerRole u) as [[| |] |];
    cbn; repeat split; intro H; try reflexivity; try discriminate H.
Qed.

(** The guards of middleware/auth.ts that only look at [req.user]. *)
Definition guards (allowAdminAccess : bool) (resourceId : option string)
    (resourceField : string) : list (option Http.UserSummary -> Outcome unit) :=
  [ Authorization.adminOnly; Authorization.sellerOnly; Authorization.buyerOnly;
    Authorization.managerOnly; Authorization.managerOrAccountant;
    Authorization.managerOrInventory; Authorization.canManageProducts;
    Authorization.canManageOrders; Authorization.canViewFinancials;
    Authorization.requireOwnership allowAdminAccess resourceId;
    fun user => bind (Authorization.requireSellerOwnership resourceField user)
                  (fun _ => Return tt) ].

(** X12. Every guard answers a request without an attached account with
    401 "Authentication required", and refuses an attached account only
    with 403 and the code FORBIDDEN. *)
Theorem guards_refuse_with_401_or_403 (nodeEnv : option string) (allowAdminAccess : bool)
    (resourceId : option string) (resourceField : string) :
  Forall
    (fun guard =>
       (exists e, guard None = Throw e
                  /\ Http.status (ErrorHandler.errorHandler nodeEnv e) = 401
                  /\ Http.message (Http.body (ErrorHandler.errorHandler nodeEnv e))
                     = "Authentication required")
       /\ forall u e, guard (Some u) = Throw e ->
                      Http.status (ErrorHandler.errorHandler nodeEnv e) = 403
                      /\ JsError.code e = Some "FORBIDDEN")
    (guards allowAdminAccess resourceId resourceField).
Proof.
  unfold guards.
  repeat (apply Forall_cons; [split; [eexists; split; [reflexivity | split; reflexivity] |] |]);
    [.. | apply Forall_nil]; intros u e;
    unfold Authorization.adminOnly, Authorization.sellerOnly, Authorization.buyerOnly,
      Authorization.managerOnly, Authorization.managerOrAccountant,
      Authorization.managerOrInventory, Authorization.canManageProducts,
      Authorization.canManageOrders, Authorization.canViewFinancials,
      Authorization.authorize, Authorization.authorizeSellerRole,
      Authorization.requirePermission, Authorization.requireOwnership,
      Authorization.requireSellerOwnership;
    repeat match goal with
           | |- context [if ?b then _ else _] => destruct b
           | |- context [match ?x with Some _ => _ | None => _ end] => destruct x
           end;
    cbn [bind]; intro H; try discriminate H; injection H as <-; split; reflexivity.
Qed.

(** The messages of the errors [authenticate] raises. *)
Lemma authenticate_Throw (J : Jwt.Lib) (cfg : JWTUtil.Config) (now : Z)
    (authorization accessCookie : option string) (db : Db) (e : JsError.t) :
  AuthMiddleware.authenticate J cfg now authorization accessCookie db = Throw e ->
  In (JsError.message e)
    ["Access token required"; "Invalid or expired access token"; "User not found";
     "Account is suspended or banned"].
Proof.
  unfold AuthMiddleware.authenticate.
  destruct (AuthMiddleware.request_token authorization accessCookie) as [token |];
    [| intro H; injection H as <-; cbn; tauto].
  destruct (Js.truthy_str (Some token)); cbn [negb];
    [| intro H; injection H as <-; cbn; tauto].
  destruct (TokenProps.verifyAccessToken_cases J cfg "authenticate (auth.ts:33)" now token)
    as [[d Hd] | Hthrow].
  - rewrite Hd. cbn [bind].
    destruct (Prisma.user_findUnique_id (Jwt.userId d) (users db)) as [user |];
      [destruct (UserStatus_eqb (user_status user) ACTIVE); cbn [negb] |];
      intro H; try discriminate H; injection H as <-; cbn; tauto.
  - rewrite Hthrow. cbn [bind]. intro H. injection H as <-. cbn. tauto.
Qed.

(** X13. The [DELETE /:id] route of the products router changes nothing
    but the product table, and changes that only for a request that
    [authenticate] admits, whose account may manage products and, when a
    seller, owns the product. Its errors carry one of seven messages; the
    permission check of the controller and the role check of
    [requireSellerOwnership] never fire behind [canManageProducts], and
    the row found is always there to update or delete. *)
Theorem delete_route_guarded (J : Jwt.Lib) (cfg : JWTUtil.Config) (now : Z)
    (authorization accessCookie : option string) (id : string) (db : Db) :
  let r := ProductRoutes.deleteRoute J cfg now authorization accessCookie id db in
  (products (fst r) <> products db ->
   exists user product,
     admitted J cfg now authorization accessCookie db (AuthController.summary_of user)
     /\ PermissionUtil.canManageProducts (user_role user) (user_sellerRole user) = true
     /\ Prisma.product_findUnique id (products db) = Some product
     /\ (user_role user = SELLER -> product_sellerId product = user_id user))
  /\ (forall e, snd r = Throw e ->
        In (JsError.message e)
          ["Access token required"; "Invalid or expired access token"; "User not found";
           "Account is suspended or banned"; "Permission denied"; "Product not found";
           "You can only delete your own products"])
  /\ users (fst r) = users db
  /\ refreshTokens (fst r) = refreshTokens db
  /\ orderItems (fst r) = orderItems db
  /\ orders (fst r) = orders db
  /\ orderStatusHistory (fst r) = orderStatusHistory db.
Proof.
  cbv zeta. unfold ProductRoutes.deleteRoute.
  destruct (AuthMiddleware.authenticate J cfg now authorization accessCookie db)
    as [u | e0] eqn:Eauth; cbn [fst snd].
  2: { split; [intro H; contradiction H; reflexivity |].
       split; [| repeat split].
       intros e H. injection H as <-. apply authenticate_Throw in Eauth.
       cbn in Eauth |- *. tauto. }
  apply authenticate_Return in Eauth.
  pose proof Eauth as (token & d & user & _ & _ & _ & _ & _ & _ & Hu).
  unfold Authorization.canManageProducts, Authorization.requirePermission.
  destruct (PermissionUtil.canManageProducts (Http.summary_role u) (Http.summary_sellerRole u))
    eqn:Eperm; cbn [negb fst snd].
  2: { split; [intro H; contradiction H; reflexivity |].
       split; [| repeat split]. intros e H. injection H as <-. cbn. tauto. }
  assert (Hnote : exists note,
             Authorization.requireSellerOwnership "sellerId" (Some u) = Return note).
  { unfold Authorization.requireSellerOwnership.
    unfold PermissionUtil.canManageProducts in Eperm.
    destruct (Http.summary_role u); cbn in Eperm |- *; eauto. discriminate Eperm. }
  destruct Hnote as [note ->].
  unfold ProductController.deleteProduct. rewrite Eperm. cbn [negb].
  destruct (Prisma.product_findUnique id (products db)) as [product |] eqn:Efind;
    cbn [fst snd].
  2: { split; [intro H; contradiction H; reflexivity |].
       split; [| repeat split]. intros e H. injection H as <-. cbn. tauto. }
  destruct (UserRole_eqb (Http.summary_role u) SELLER
            && negb (String.eqb (product_sellerId product) (Http.summary_id u)))
    eqn:Eown; cbn [fst snd].
  { split; [intro H; contradiction H; reflexivity |].
    split; [| repeat split]. intros e H. injection H as <-. cbn. tauto. }
  unfold Prisma.product_update_isActive, Prisma.product_delete.
  rewrite (ProductProps.findUnique_exists _ _ _ Efind).
  assert (Hwho : exists user0 product0,
             admitted J cfg now authorization accessCookie db
               (AuthController.summary_of user0)
             /\ PermissionUtil.canManageProducts (user_role user0) (user_sellerRole user0)
                = true
             /\ Some product = Some product0
             /\ (user_role user0 = SELLER -> product_sellerId product0 = user_id user0)).
  { exists user, product. subst u. split; [exact Eauth | split; [exact Eperm |]].
    split; [reflexivity |]. intro Hrole. cbn in Eown. rewrite Hrole in Eown.
    cbn in Eown. apply Bool.negb_false_iff, String.eqb_eq in Eown. exact Eown. }
  destruct (Prisma.orderItem_count id (orderItems db) >? 0); cbn [fst snd];
    (split; [intros _; exact Hwho |]);
    (split; [intros e H; discriminate H | destruct db; cbn; repeat split]).
Qed.

End AccessProps.

(** ** The answers of the error middleware *)

Module ErrorAnswerProps.

Import ErrorHandler.

(** The rules of [errorHandler] that assign a verdict, the one applied
    last first. *)
Definition precedence (error : JsError.t) : Verdict :=
  if code_is error "ECONNREFUSED" || code_is error "ENOTFOUND" then
    verdict 503 "Service unavailable" "SERVICE_UNAVAILABLE"
  else if Js.includes "Too many requests" (JsError.message error) then
    verdict 429 "Too many requests, please try again later" "RATE_LIMIT_EXCEEDED"
  else if String.eqb (JsError.message error) "Not allowed by CORS" then
    verdict 403 "CORS policy violation" "CORS_ERROR"
  else if code_is error "LIMIT_FILE_SIZE" then
    verdict 413 "File size too large" "FILE_SIZE_ERROR"
  else if code_is error "LIMIT_UNEXPECTED_FILE" then
    verdict 400 "Unexpected file field" "INVALID_FILE_FIELD"
  else if code_is error "P2002" then
    verdict 409 (duplicate_message error) "DUPLICATE_ENTRY"
  else if code_is error "P2025" then verdict 404 "Record not found" "NOT_FOUND"
  else if code_startsWith error "P" then
    verdict 400 "Database operation failed" "DATABASE_ERROR"
  else if name_is error "JsonWebTokenError" then verdict 401 "Invalid token" "INVALID_TOKEN"
  else if name_is error "TokenExpiredError" then verdict 401 "Token expired" "TOKEN_EXPIRED"
  else initial error.

Definition is_validation (error : JsError.t) : bool :=
  name_is error "ZodError" || name_is error "ValidationError".

(** The code in the [error] object of a body. *)
Definition body_code (r : Http.Response) : option string :=
  match Http.error (Http.body r) with
  | Some (Http.Coded code _ _ _) => code
  | _ => None
  end.

Lemma rate_limit_test (m : string) :
  Js.truthy_str (Some m) && Js.includes "Too many requests" m
  = Js.includes "Too many requests" m.
Proof. destruct m; reflexivity. Qed.

Lemma verdict_by_precedence (error : JsError.t) :
  network_rule error
    (rate_limit_rule error
       (cors_rule error
          (multer_rules error (prisma_rules error (jwt_rules error (initial error))))))
  = precedence error.
Proof.
  unfold network_rule, rate_limit_rule, cors_rule, multer_rules, prisma_rules, jwt_rules,
    precedence.
  rewrite rate_limit_test.
  destruct (code_is error "ECONNREFUSED" || code_is error "ENOTFOUND"); [reflexivity |].
  destruct (Js.includes "Too many requests" (JsError.message error)); [reflexivity |].
  destruct (String.eqb (JsError.message error) "Not allowed by CORS"); [reflexivity |].
  destruct (code_is error "LIMIT_FILE_SIZE"); [reflexivity |].
  destruct (code_is error "LIMIT_UNEXPECTED_FILE"); reflexivity.
Qed.

Lemma answer_by_precedence (nodeEnv : option string) (error : JsError.t) :
  is_validation error = false ->
  let r := errorHandler nodeEnv error in
  Http.status r = statusCode (precedence error)
  /\ Http.message (Http.body r) = message (precedence error)
  /\ Http.error (Http.body r)
     = Some (Http.Coded (code (precedence error)) (statusCode (precedence error))
               (if is_development nodeEnv then Some (JsError.stack error) else None)
               (if is_development nodeEnv then
                  Some {| Http.details_name := JsError.name error;
                          Http.originalMessage := JsError.message error;
                          Http.details_code := JsError.code error |}
                else None)).
Proof.
  unfold is_validation. intro H. apply Bool.orb_false_iff in H. destruct H as [Hz Hv].
  cbv zeta. unfold errorHandler. rewrite Hz, Hv, verdict_by_precedence.
  cbn [Http.status Http.body Http.message Http.error]. repeat split.
Qed.

(** X14. The rules of the error middleware take effect in the reverse of
    the order in which they are written: the network rule wins over the
    rate-limit rule, that over the CORS rule, then the upload rules, the
    database rules, the token rules, and last the error's own status (500
    without one) and message; a validation error is answered 400
    "Validation failed" whatever else it carries. *)
Theorem later_rule_wins (nodeEnv : option string) (error : JsError.t) :
  let r := errorHandler nodeEnv error in
  Http.status r = (if is_validation error then 400 else statusCode (precedence error))
  /\ Http.message (Http.body r)
     = (if is_validation error then "Validation failed" else message (precedence error))
  /\ body_code r = (if is_validation error then None else code (precedence error)).
Proof.
  cbv zeta. destruct (is_validation error) eqn:E.
  - unfold is_validation in E. unfold errorHandler, body_code.
    destruct (name_is error "ZodError"); [repeat split |].
    cbn [orb] in E. rewrite E. repeat split.
  - destruct (answer_by_precedence nodeEnv error E) as (Hs & Hm & He).
    unfold body_code. rewrite He. repeat split; assumption.
Qed.

(** X15. The status in a body is the status of the response: a coded
    answer repeats it inside [error], a validation answer beside it. The
    stack trace and the details of the original error are in the body
    exactly in development mode, and never in a validation answer. *)
Theorem error_body_consistent (nodeEnv : option string) (error : JsError.t) :
  let r := errorHandler nodeEnv error in
  match Http.error (Http.body r) with
  | Some (Http.Coded _ statusCode stack details) =>
      statusCode = Http.status r
      /\ Http.statusCode (Http.body r) = None
      /\ (is_development nodeEnv = true ->
          stack = Some (JsError.stack error) /\ details <> None)
      /\ (is_development nodeEnv = false -> stack = None /\ details = None)
  | Some (Http.Validation _) =>
      Http.status r = 400 /\ Http.statusCode (Http.body r) = Some 400
  | None => False
  end.
Proof.
  cbv zeta. unfold errorHandler, validation_response.
  destruct (name_is error "ZodError"); [cbn; split; reflexivity |].
  destruct (name_is error "ValidationError"); [cbn; split; reflexivity |].
  cbn [Http.error Http.body Http.status Http.statusCode].
  destruct (is_development nodeEnv); repeat split; try discriminate.
Qed.

(** A message that triggers no rule and is kept as it is. *)
Definition quiet_message (m : string) : Prop :=
  m <> "" /\ m <> "Not allowed by CORS" /\ Js.includes "Too many requests" m = false.

(** A code that triggers no rule. *)
Definition quiet_code (c : option string) : Prop :=
  forall c', c = Some c' ->
             Js.startsWith "P" c' = false
             /\ ~ In c' ["LIMIT_FILE_SIZE"; "LIMIT_UNEXPECTED_FILE"; "ECONNREFUSED"; "ENOTFOUND"].

Definition answered (nodeEnv : option string) (e : JsError.t) (status : Z) (m : string)
    (c : option string) : Prop :=
  let r := errorHandler nodeEnv e in
  Http.status r = status /\ Http.message (Http.body r) = m /\ body_code r = c.

Lemma code_is_quiet (e : JsError.t) (c : string) :
  quiet_code (JsError.code e) ->
  In c ["LIMIT_FILE_SIZE"; "LIMIT_UNEXPECTED_FILE"; "ECONNREFUSED"; "ENOTFOUND"; "P2002"; "P2025"] ->
  code_is e c = false.
Proof.
  unfold quiet_code, code_is. intros Hq Hc.
  destruct (JsError.code e) as [c' |]; [| reflexivity].
  destruct (Hq c' eq_refl) as [HP Hnot].
  destruct (String.eqb c' c) eqn:E; [| reflexivity].
  apply String.eqb_eq in E. subst c'. exfalso.
  cbn in Hc, Hnot.
  destruct Hc as [<- | [<- | [<- | [<- | [<- | [<- | []]]]]]];
    try (apply Hnot; tauto); discriminate HP.
Qed.

Lemma made_error_answered (nodeEnv : option string) (frames : list string) (m : string)
    (status : Z) (c : option string) :
  quiet_message m -> status <> 0 -> quiet_code c ->
  answered nodeEnv (JsError.with_status (JsError.new_Error frames m) status c) status m c.
Proof.
  intros (Hne & Hcors & Hrate) Hstatus Hcode.
  set (e := JsError.with_status (JsError.new_Error frames m) status c).
  assert (Hp : precedence e = {| statusCode := status; message := m; code := c |}).
  { unfold precedence.
    rewrite !(code_is_quiet e) by (try exact Hcode; cbn; tauto).
    cbn [orb JsError.message e JsError.with_status JsError.new_Error].
    rewrite Hrate. apply String.eqb_neq in Hcors. rewrite Hcors.
    assert (HP : code_startsWith e "P" = false).
    { unfold code_startsWith. cbn [JsError.code e JsError.with_status].
      destruct c as [c' |]; [| reflexivity]. apply (Hcode c' eq_refl). }
    rewrite HP. unfold name_is. cbn [JsError.name e JsError.with_status JsError.new_Error].
    cbn [String.eqb Ascii.eqb Bool.eqb]. unfold initial.
    cbn [JsError.statusCode JsError.message JsError.code e JsError.with_status
           JsError.new_Error].
    f_equal.
    - destruct status; [contradiction Hstatus; reflexivity | reflexivity | reflexivity].
    - destruct m; [contradiction Hne; reflexivity | reflexivity]. }
  destruct (answer_by_precedence nodeEnv e eq_refl) as (Hs & Hm & He).
  unfold answered, body_code. cbv zeta. rewrite Hs, Hm, He, Hp. repeat split.
Qed.

(** X16. An error made by [ErrorUtil] is answered as it was made: with its
    status, its message and its code, provided the message is not empty and
    triggers neither the CORS nor the rate-limit rule, and, for
    [createError], the status is not 0 and the code triggers no rule. *)
Theorem made_errors_answered_as_made (nodeEnv : option string) (caller m : string) :
  quiet_message m ->
  (forall status c, status <> 0 -> quiet_code c ->
                    answered nodeEnv (ErrorUtil.createError caller m status c) status m c)
  /\ answered nodeEnv (ErrorUtil.createUnauthorizedError caller m) 401 m (Some "UNAUTHORIZED")
  /\ answered nodeEnv (ErrorUtil.createForbiddenError caller m) 403 m (Some "FORBIDDEN")
  /\ (forall resource, m = (resource ++ " not found")%string ->
        answered nodeEnv (ErrorUtil.createNotFoundError caller resource) 404 m
          (Some "NOT_FOUND")).
Proof.
  intro Hm.
  assert (Hfixed : forall c', ~ In c' ["LIMIT_FILE_SIZE"; "LIMIT_UNEXPECTED_FILE";
                                        "ECONNREFUSED"; "ENOTFOUND"] ->
                              Js.startsWith "P" c' = false -> quiet_code (Some c')).
  { intros c' Hnot HP c'' H. injection H as <-. split; assumption. }
  split; [| split; [| split]].
  - intros status c Hs Hc. apply made_error_answered; assumption.
  - apply made_error_answered; [exact Hm | discriminate |].
    apply Hfixed; [cbn; intuition discriminate | reflexivity].
  - apply made_error_answered; [exact Hm | discriminate |].
    apply Hfixed; [cbn; intuition discriminate | reflexivity].
  - intros resource ->. apply made_error_answered; [exact Hm | discriminate |].
    apply Hfixed; [cbn; intuition discriminate | reflexivity].
Qed.

(** The error of a missing product. *)
Lemma made_errors_answered_as_made_witness :
  answered (Some "production")
    (ErrorUtil.createNotFoundError "ProductController.deleteProduct (productController.ts:363)"
       "Product")
    404 "Product not found" (Some "NOT_FOUND").
Proof.
  apply (proj2 (proj2 (proj2
           (made_errors_answered_as_made (Some "production")
              "ProductController.deleteProduct (productController.ts:363)"
              "Product not found"
              ltac:(split; [discriminate | split; [discriminate | reflexivity]]))))).
  reflexivity.
Defined.

End ErrorAnswerProps.

(** ** The pages of a list endpoint *)

Module ListingProps.

Import Schema ResponseUtil.

(** The rows in the answer of a list endpoint. *)
Definition rows_of (r : Db * Outcome Http.Response) : list Product :=
  match snd r with
  | Return res =>
      match Http.data (Http.body res) with
      | Some (Http.Listing p) => data p
      | _ => []
      end
  | Throw _ => []
  end.

Lemma firstn_plus (T : Type) (a b : nat) (l : list T) :
  firstn (a + b) l = firstn a l ++ firstn b (skipn a l).
Proof.
  revert l. induction a as [| a IH]; intro l; [reflexivity |].
  destruct l as [| x l]; cbn [Nat.add firstn skipn app].
  - rewrite firstn_nil. reflexivity.
  - rewrite IH. reflexivity.
Qed.

Lemma chunks_concat (T : Type) (L : nat) (m : list T) (n : nat) :
  List.concat (map (fun k => firstn L (skipn (k * L) m)) (seq 0 n)) = firstn (n * L) m.
Proof.
  induction n as [| n IH]; [reflexivity |].
  rewrite seq_S, map_app, concat_app, IH. cbn [map List.concat Nat.add].
  rewrite app_nil_r. replace (S n * L)%nat with (n * L + L)%nat by lia.
  symmetry. apply firstn_plus.
Qed.

Lemma map_transfer (A B C D : Type) (f : A -> C) (g : B -> C) (h : A -> D) (h' : B -> D)
    (l : list A) (l' : list B) :
  (forall x y, In y l' -> f x = g y -> h x = h' y) ->
  map f l = map g l' -> map h l = map h' l'.
Proof.
  revert l'. induction l as [| x l IH]; intros [| y l'] Hfg H; cbn in H |- *;
    try reflexivity; try discriminate H.
  injection H as Hxy Hrest. rewrite (Hfg x y (or_introl eq_refl) Hxy).
  rewrite (IH l'); [reflexivity | | exact Hrest].
  intros x' y' Hin. apply Hfg. right. exact Hin.
Qed.

(** A double is not below the integer it rounds, up to [2 ^ 53]. *)
Lemma to_double_lower (z : Z) :
  0 <= z ->
  match Js.to_double z with
  | Js.Num z' => z <= z' \/ 2 ^ 53 <= z'
  | Js.Infinity negative => negative = false
  | Js.NaN => False
  end.
Proof.
  intro Hz. unfold Js.to_double. rewrite (Z.abs_eq z) by exact Hz.
  destruct (Z.log2 z - 52 <=? 0) eqn:Ee; [left; lia |].
  apply Z.leb_gt in Ee. set (e := Z.log2 z - 52) in *.
  destruct (2 ^ 1024 <=? Js.nearest z (2 ^ e) * 2 ^ e).
  - apply Z.ltb_ge. exact Hz.
  - right. assert (Hz0 : 0 < z) by (destruct (Z.eq_dec z 0) as [-> | ]; [cbn in Ee |]; lia).
    rewrite (Z.sgn_pos z Hz0).
    destruct (Z.log2_spec z Hz0) as [Hlow _].
    replace (Z.log2 z) with (52 + e) in Hlow by (unfold e; lia).
    rewrite Z.pow_add_r in Hlow by lia.
    assert (Hpe : 0 < 2 ^ e) by (apply Z.pow_pos_nonneg; lia).
    assert (Hq : 2 ^ 52 <= z / 2 ^ e) by (apply Z.div_le_lower_bound; lia).
    assert (He2 : 2 ^ 1 <= 2 ^ e) by (apply Z.pow_le_mono_r; lia).
    change (2 ^ 1) with 2 in He2. change (2 ^ 53) with (2 ^ 52 * 2).
    destruct (PaginationProps.nearest_cases z (2 ^ e) Hpe) as [[-> _] | [-> _]]; nia.
Qed.

Section Pages.

Context (where_ : Product -> bool) (orderBy : list Product -> list Product)
  (limitParam : option Js.jsstring) (limit : Z) (db : Db).

Hypothesis limit_positive : 1 <= limit.
Hypothesis limit_read :
  Js.parseInt (ProductController.param limitParam "10") = Js.Num limit.

Let matching := orderBy (filter where_ (products db)).

Lemma getProducts_rows (pageParam : option Js.jsstring) (page : Z) :
  Js.parseInt (ProductController.param pageParam "1") = Js.Num page -> 1 <= page ->
  page * limit <= Js.MAX_SAFE_INTEGER ->
  rows_of (ProductController.getProducts where_ orderBy pageParam limitParam db)
  = firstn (Z.to_nat limit) (skipn ((Z.to_nat page - 1) * Z.to_nat limit) matching).
Proof.
  intros Hp Hpage Hsafe.
  rewrite (PaginationProps.getProducts_page where_ orderBy pageParam limitParam db page limit
             Hpage limit_positive Hsafe Hp limit_read).
  cbn [orb rows_of snd Http.json Http.body Http.success_body Http.data paginate data].
  replace (Z.to_nat ((page - 1) * limit)) with ((Z.to_nat page - 1) * Z.to_nat limit)%nat
    by nia.
  reflexivity.
Qed.

(** A page whose first row would lie beyond the matching records is empty,
    however large its number. *)
Lemma getProducts_beyond (pageParam : option Js.jsstring) (page : Z) :
  Js.parseInt (ProductController.param pageParam "1") = Js.Num page -> 1 <= page ->
  Z.of_nat (List.length matching) <= (page - 1) * limit ->
  Z.of_nat (List.length matching) < 2 ^ 53 ->
  rows_of (ProductController.getProducts where_ orderBy pageParam limitParam db) = [].
Proof.
  intros Hp Hpage Hbeyond Hsize. unfold ProductController.getProducts.
  rewrite Hp, limit_read.
  assert (Ep : Js.number_or (Js.Num page) (Js.Num 1) = Js.Num page)
    by (destruct page; cbn; try reflexivity; lia).
  assert (El : Js.number_or (Js.Num limit) (Js.Num 10) = Js.Num limit)
    by (destruct limit; cbn; try reflexivity; lia).
  rewrite Ep, El. cbn [Js.sub].
  pose proof (to_double_lower (page - 1) ltac:(lia)) as H1.
  destruct (Js.to_double (page - 1)) as [| p' | negative]; [contradiction | |].
  - cbn [Js.mul].
    assert (Hp' : 0 <= p' * limit) by nia.
    pose proof (to_double_lower (p' * limit) Hp') as H2.
    destruct (Js.to_double (p' * limit)) as [| skip | negative]; [contradiction | |].
    + unfold Prisma.findMany.
      destruct ((skip <? 0) || (2 ^ 63 <=? skip) || (2 ^ 63 <=? Z.abs limit));
        [reflexivity |].
      replace (limit <? 0) with false by (symmetry; apply Z.ltb_ge; lia).
      cbn [rows_of snd Http.json Http.body Http.success_body Http.data paginate data].
      fold matching. rewrite skipn_all2 by nia. apply firstn_nil.
    + reflexivity.
  - cbn [Js.mul]. replace (limit =? 0) with false by (symmetry; apply Z.eqb_neq; lia).
    reflexivity.
Qed.

End Pages.




End ListingProps.

(** ** ValidationUtil.sanitizeString *)

Module SanitizeProps.

Import Sanitize.

Definition is_text (c : Js.codeunit) : bool := negb (is_whitespace c).

(** The string does not begin with whitespace. *)
Definition starts_clean (s : Js.jsstring) : bool :=
  match s with
  | c :: _ => is_text c
  | [] => true
  end.

(** Every whitespace unit is a space that follows a unit of text;
    [after_space] tells that the unit before was whitespace (or that there
    was none). *)
Fixpoint single_spaced (after_space : bool) (s : Js.jsstring) : bool :=
  match s with
  | [] => true
  | c :: r =>
      if is_whitespace c then negb after_space && (c =? 32)%N && single_spaced true r
      else single_spaced false r
  end.

(** Text separated by single spaces, with no whitespace at either end. *)
Definition normal (s : Js.jsstring) : Prop :=
  single_spaced true s = true /\ starts_clean (rev s) = true.

Lemma trimStart_clean (s : Js.jsstring) : starts_clean (trimStart s) = true.
Proof.
  induction s as [| c r IH]; [reflexivity |]. cbn [trimStart].
  destruct (is_whitespace c) eqn:E; [exact IH |]. cbn. unfold is_text. rewrite E. reflexivity.
Qed.

Lemma trimStart_id (s : Js.jsstring) : starts_clean s = true -> trimStart s = s.
Proof.
  destruct s as [| c r]; [reflexivity |]. cbn. unfold is_text.
  destruct (is_whitespace c); [intro H; discriminate H | reflexivity].
Qed.

Lemma trimStart_snoc (l : Js.jsstring) (c : Js.codeunit) :
  is_whitespace c = false -> trimStart (l ++ [c]) = trimStart l ++ [c].
Proof.
  intro Hc. induction l as [| x l IH]; cbn [app trimStart].
  - rewrite Hc. reflexivity.
  - destruct (is_whitespace x); [exact IH | reflexivity].
Qed.

Lemma trimEnd_id (s : Js.jsstring) : starts_clean (rev s) = true -> trimEnd s = s.
Proof. intro H. unfold trimEnd. rewrite (trimStart_id _ H). apply rev_involutive. Qed.

Lemma trimEnd_starts_clean (s : Js.jsstring) :
  starts_clean s = true -> starts_clean (trimEnd s) = true.
Proof.
  destruct s as [| c r]; [reflexivity |]. cbn [starts_clean]. unfold is_text. intro Hc.
  apply Bool.negb_true_iff in Hc. unfold trimEnd. cbn [rev].
  rewrite (trimStart_snoc _ _ Hc), rev_app_distr. cbn. unfold is_text. rewrite Hc.
  reflexivity.
Qed.

Lemma trim_clean (s : Js.jsstring) :
  starts_clean (trim s) = true /\ starts_clean (rev (trim s)) = true.
Proof.
  unfold trim. split.
  - apply trimEnd_starts_clean, trimStart_clean.
  - unfold trimEnd. rewrite rev_involutive. apply trimStart_clean.
Qed.

Lemma replace_runs_snoc (b : bool) (l : Js.jsstring) (c : Js.codeunit) :
  is_whitespace c = false -> replace_runs b (l ++ [c]) = replace_runs b l ++ [c].
Proof.
  intro Hc. revert b. induction l as [| x l IH]; intro b; cbn [app replace_runs].
  - rewrite Hc. reflexivity.
  - destruct (is_whitespace x); [destruct b |]; rewrite IH; reflexivity.
Qed.

Lemma replace_runs_spaced (b : bool) (s : Js.jsstring) :
  single_spaced b (replace_runs b s) = true.
Proof.
  revert b. induction s as [| c r IH]; intro b; [reflexivity |]. cbn [replace_runs].
  destruct (is_whitespace c) eqn:E.
  - destruct b; [apply IH |]. cbn [single_spaced].
    change (is_whitespace 32%N) with true. cbn. apply IH.
  - cbn [single_spaced]. rewrite E. apply IH.
Qed.

Lemma single_spaced_weaken (s : Js.jsstring) :
  single_spaced true s = true -> single_spaced false s = true.
Proof.
  destruct s as [| c r]; [reflexivity |]. cbn [single_spaced].
  destruct (is_whitespace c); [intro H; discriminate H | intro H; exact H].
Qed.

Lemma single_spaced_strengthen (s : Js.jsstring) :
  starts_clean s = true -> single_spaced false s = true -> single_spaced true s = true.
Proof.
  destruct s as [| c r]; [reflexivity |]. cbn [single_spaced starts_clean]. unfold is_text.
  destruct (is_whitespace c); [intro H; discriminate H | intros _ H; exact H].
Qed.

Lemma replace_runs_id (b : bool) (s : Js.jsstring) :
  single_spaced b s = true -> replace_runs b s = s.
Proof.
  revert b. induction s as [| c r IH]; intro b; [reflexivity |].
  cbn [single_spaced replace_runs]. destruct (is_whitespace c).
  - intro H. apply Bool.andb_true_iff in H. destruct H as [H Hr].
    apply Bool.andb_true_iff in H. destruct H as [Hb Hc].
    apply Bool.negb_true_iff in Hb. apply N.eqb_eq in Hc. subst b c.
    rewrite (IH true Hr). reflexivity.
  - intro H. rewrite (IH false H). reflexivity.
Qed.

Lemma single_spaced_id (b : bool) (s : Js.jsstring) :
  replace_runs b s = s -> single_spaced b s = true.
Proof. intro H. rewrite <- H. apply replace_runs_spaced. Qed.

Lemma replace_runs_clean (s : Js.jsstring) :
  starts_clean s = true -> starts_clean (rev s) = true ->
  starts_clean (replace_runs false s) = true
  /\ starts_clean (rev (replace_runs false s)) = true.
Proof.
  intros Hs He. split.
  - destruct s as [| c r]; [reflexivity |]. cbn in Hs |- *. unfold is_text in Hs.
    apply Bool.negb_true_iff in Hs. rewrite Hs. cbn. unfold is_text. rewrite Hs. reflexivity.
  - destruct (rev s) as [| c w] eqn:E.
    + apply (f_equal (@rev _)) in E. rewrite rev_involutive in E. subst s. reflexivity.
    + apply (f_equal (@rev _)) in E. rewrite rev_involutive in E. subst s.
      cbn [rev starts_clean] in He |- *. unfold is_text in He.
      apply Bool.negb_true_iff in He.
      rewrite (replace_runs_snoc _ _ _ He), rev_app_distr. cbn. unfold is_text.
      rewrite He. reflexivity.
Qed.

Lemma sanitize_normal (s : Js.jsstring) : normal (sanitizeString s).
Proof.
  unfold sanitizeString. destruct (trim_clean s) as [Hs He].
  destruct (replace_runs_clean _ Hs He) as [Hs' He'].
  split; [| exact He'].
  apply single_spaced_strengthen; [exact Hs' | apply replace_runs_spaced].
Qed.

Lemma normal_fixed (s : Js.jsstring) : normal s -> sanitizeString s = s.
Proof.
  intros [Hsp He]. unfold sanitizeString, trim.
  assert (Hs : starts_clean s = true).
  { destruct s as [| c r]; [reflexivity |]. cbn in Hsp |- *. unfold is_text.
    destruct (is_whitespace c); [discriminate Hsp | reflexivity]. }
  rewrite (trimStart_id _ Hs), (trimEnd_id _ He).
  apply replace_runs_id, single_spaced_weaken, Hsp.
Qed.

Lemma filter_trimStart (s : Js.jsstring) : filter is_text (trimStart s) = filter is_text s.
Proof.
  induction s as [| c r IH]; [reflexivity |]. cbn [trimStart].
  assert (Hc : is_text c = negb (is_whitespace c)) by reflexivity.
  destruct (is_whitespace c); [| reflexivity].
  rewrite IH. cbn [filter]. rewrite Hc. reflexivity.
Qed.

Lemma filter_replace_runs (b : bool) (s : Js.jsstring) :
  filter is_text (replace_runs b s) = filter is_text s.
Proof.
  revert b. induction s as [| c r IH]; intro b; [reflexivity |].
  cbn [replace_runs].
  assert (Hc : is_text c = negb (is_whitespace c)) by reflexivity.
  destruct (is_whitespace c).
  - destruct b; cbn [filter]; rewrite Hc; [apply IH |].
    change (is_text 32%N) with false. cbn [negb]. apply IH.
  - cbn [filter]. rewrite Hc, IH. reflexivity.
Qed.

Lemma filter_text_rev (s : Js.jsstring) : filter is_text (rev s) = rev (filter is_text s).
Proof.
  induction s as [| c r IH]; [reflexivity |]. cbn [rev filter].
  rewrite filter_app, IH. cbn [filter]. destruct (is_text c); cbn [rev];
    [reflexivity | apply app_nil_r].
Qed.

Lemma filter_sanitize (s : Js.jsstring) :
  filter is_text (sanitizeString s) = filter is_text s.
Proof.
  unfold sanitizeString, trim, trimEnd.
  rewrite filter_replace_runs, filter_text_rev, filter_trimStart, filter_text_rev,
    rev_involutive.
  apply filter_trimStart.
Qed.

(** X18. [sanitizeString] brings a string to a normal form: the result
    neither begins nor ends with whitespace and its only whitespace are
    single spaces between text; the strings it leaves unchanged are exactly
    those in normal form, so that sanitizing twice is sanitizing once; and
    the units that are not whitespace are kept, in order. *)
Theorem sanitizeString_normal_form (str : Js.jsstring) :
  normal (sanitizeString str)
  /\ (forall s, sanitizeString s = s <-> normal s)
  /\ sanitizeString (sanitizeString str) = sanitizeString str
  /\ filter is_text (sanitizeString str) = filter is_text str.
Proof.
  split; [apply sanitize_normal | split; [| split]].
  - intro s. split; [| apply normal_fixed]. intro H. rewrite <- H. apply sanitize_normal.
  - apply normal_fixed, sanitize_normal.
  - apply filter_sanitize.
Qed.

End SanitizeProps.

(** ** The phone and password schemas *)

Module ValidationProps.

Import Validation.

Lemma strip_prefix_app (p s r : Js.jsstring) :
  strip_prefix p s = Some r -> s = (p ++ r)%list.
Proof.
  revert s. induction p as [| a p IH]; intros s H; cbn in H.
  - injection H as <-. reflexivity.
  - destruct s as [| b s]; [discriminate H |].
    destruct (N.eqb_spec a b) as [-> |]; [| discriminate H].
    rewrite (IH s H). reflexivity.
Qed.

Lemma digit_is_text (c : Js.codeunit) :
  Js.in_range "0" "9" c = true -> Sanitize.is_whitespace c = false.
Proof.
  unfold Js.in_range, Js.unit_of_ascii. cbn [N_of_ascii].
  intro H. apply Bool.andb_true_iff in H. destruct H as [Hlo Hhi].
  apply N.leb_le in Hlo. apply N.leb_le in Hhi. cbn in Hlo, Hhi.
  unfold Sanitize.is_whitespace, Js.in_class. cbn [existsb].
  repeat match goal with
         | |- context [(?a <=? ?b)%N] => destruct (N.leb_spec a b)
         | |- context [(?a =? ?b)%N] => destruct (N.eqb_spec a b)
         end; try lia; reflexivity.
Qed.

(** A string the pattern accepts holds no whitespace. *)
Lemma phone_pattern_text (s : Js.jsstring) :
  phone_pattern s = true -> remove_whitespace s = s.
Proof.
  unfold phone_pattern. intro H. apply existsb_exists in H.
  destruct H as (prefix & Hin & H).
  destruct (strip_prefix (Js.units prefix) s) as [[| d rest] |] eqn:E; try discriminate H.
  apply strip_prefix_app in E. subst s.
  apply Bool.andb_true_iff in H. destruct H as [H Hrest].
  apply Bool.andb_true_iff in H. destruct H as [Hd _].
  assert (Hd' : Js.in_range "0" "9" d = true).
  { unfold Js.in_range in Hd |- *. apply Bool.andb_true_iff in Hd. destruct Hd as [Hlo Hhi].
    apply N.leb_le in Hlo. apply Bool.andb_true_iff.
    split; [apply N.leb_le | exact Hhi].
    unfold Js.unit_of_ascii in *. cbn in Hlo |- *. lia. }
  unfold remove_whitespace. rewrite filter_app. cbn [filter].
  rewrite (digit_is_text _ Hd'). cbn [negb]. f_equal.
  - destruct Hin as [<- | [<- | [<- | []]]]; reflexivity.
  - f_equal. apply forallb_filter_id.
    rewrite forallb_forall in Hrest |- *. intros c Hc.
    rewrite (digit_is_text _ (Hrest c Hc)). reflexivity.
Qed.

Definition accepted (r : list string + Js.jsstring) : bool :=
  match r with
  | inr _ => true
  | inl _ => false
  end.

Lemma phoneSchema_accepted (s : Js.jsstring) : accepted (phoneSchema s) = phone_pattern s.
Proof.
  unfold phoneSchema, parse, issues. cbn [filter holds].
  destruct (phone_pattern s); reflexivity.
Qed.

(** X19. The phone schema tests the pattern before it removes whitespace:
    every value it accepts is free of whitespace and is returned as it
    came, and [isValidPhone] accepts it as well; [isValidPhone], which
    removes whitespace first, accepts a string exactly when the schema
    accepts it with its whitespace removed. *)
Theorem phoneSchema_returns_its_input (phone : Js.jsstring) :
  (forall parsed, phoneSchema phone = inr parsed ->
                  parsed = phone
                  /\ forallb (fun c => negb (Sanitize.is_whitespace c)) phone = true
                  /\ isValidPhone phone = true)
  /\ isValidPhone phone = accepted (phoneSchema (remove_whitespace phone)).
Proof.
  split.
  - intros parsed H.
    assert (Hp : phone_pattern phone = true).
    { rewrite <- phoneSchema_accepted, H. reflexivity. }
    pose proof (phone_pattern_text _ Hp) as Htext.
    unfold phoneSchema, parse, issues in H. cbn [filter holds] in H. rewrite Hp in H.
    cbn in H. injection H as <-.
    split; [exact Htext | split].
    + unfold remove_whitespace in Htext. rewrite <- Htext. apply forallb_forall.
      intros c Hc. apply filter_In in Hc. apply Hc.
    + unfold isValidPhone. rewrite Htext. exact Hp.
  - rewrite phoneSchema_accepted. reflexivity.
Qed.

(** The message of [validatePasswordStrength] for an issue of the schema. *)
Definition long_message (issue : string) : string :=
  if String.eqb issue "Password must be at least 8 characters" then
    "Password must be at least 8 characters long"
  else issue.

(** X20. The password schema and [validatePasswordStrength] apply the same
    five rules: the schema accepts a password exactly when the utility
    calls it valid, and it reports the same messages in the same order,
    but for the first, which the utility ends with the word long. *)
Theorem passwordSchema_agrees_with_PasswordUtil (password : Js.jsstring) :
  accepted (passwordSchema password)
  = PasswordUtil.isValid (PasswordUtil.validatePasswordStrength password)
  /\ map long_message (issues passwordChecks password)
     = PasswordUtil.errors (PasswordUtil.validatePasswordStrength password)
  /\ (forall parsed, passwordSchema password = inr parsed -> parsed = password).
Proof.
  unfold passwordSchema, parse, issues, passwordChecks,
    PasswordUtil.validatePasswordStrength, PasswordUtil.push.
  cbn [filter holds issue].
  destruct (Z.of_nat (List.length password) <? 8);
    destruct (Js.test (Js.in_range "A" "Z") password);
    destruct (Js.test (Js.in_range "a" "z") password);
    destruct (Js.test (Js.in_range "0" "9") password);
    destruct (Js.test (Js.in_class PasswordUtil.special_class) password);
    cbn; (split; [reflexivity | split; [reflexivity |]]);
    intros parsed H; try discriminate H; injection H as <-; reflexivity.
Qed.

End ValidationProps.

(** ** Socket connections and rooms *)

Module SocketAccessProps.

Import Schema SocketAuth SocketRooms.

Lemma substring_all (s : string) : String.substring 0 (String.length s) s = s.
Proof. induction s as [| a s IH]; [reflexivity |]. cbn. rewrite IH. reflexivity. Qed.

Lemma replace_bearer (t : string) : replace_first "Bearer " "" ("Bearer " ++ t) = t.
Proof.
  destruct t as [| a t]; [reflexivity |].
  cbn [append replace_first String.prefix Ascii.eqb Bool.eqb String.length Nat.sub
         String.substring].
  cbn. rewrite substring_all. reflexivity.
Qed.

Lemma bearer_token (t : string) : AuthMiddleware.bearer (Some ("Bearer " ++ t)%string) = Some t.
Proof.
  unfold AuthMiddleware.bearer, Js.startsWith.
  assert (Hp : String.prefix "Bearer " ("Bearer " ++ t) = true) by (destruct t; reflexivity).
  rewrite Hp. cbn. rewrite Nat.sub_0_r, substring_all. reflexivity.
Qed.

Section Agreement.

Context (J : Jwt.Lib) (cfg : JWTUtil.Config).

(** Both middlewares run the same three tests on a token. *)
Lemma socketAuth_Return (now : Z) (t : string) (authorization : option string) (db : Db)
    (su : SocketService.SocketUser) (joined : list string) :
  t <> "" ->
  socketAuth J cfg now (Some t) authorization db = Return (su, joined)
  <-> exists decoded user,
      Jwt.verify J t (JWTUtil.accessSecret cfg) now = Some decoded
      /\ Jwt.type decoded = "access"
      /\ Prisma.user_findUnique_id (Jwt.userId decoded) (users db) = Some user
      /\ user_status user = ACTIVE
      /\ su = socketUser_of user
      /\ joined = SocketService.user_room (user_id user)
                    :: role_rooms (user_role user) (user_sellerRole user).
Proof.
  intro Hne. unfold socketAuth, handshake_token.
  apply AccessProps.truthy_str_Some in Hne. rewrite Hne. cbv beta iota zeta.
  rewrite Hne. cbn [negb].
  assert (Ht : Js.str_or (Some t) "" = t) by (destruct t; reflexivity). rewrite Ht.
  destruct (TokenProps.verifyAccessToken_cases J cfg "socketAuth (socketAuth.ts:16)" now t)
    as [[d Hd] | Hthrow].
  - rewrite Hd. apply TokenProps.verifyAccessToken_Return in Hd. destruct Hd as [Hv Htype].
    destruct (Prisma.user_findUnique_id (Jwt.userId d) (users db)) as [user |] eqn:Efind.
    + destruct (UserStatus_eqb (user_status user) ACTIVE) eqn:Est; cbn [negb].
      * apply SessionProps.UserStatus_eqb_eq in Est. split.
        -- intro H. injection H as <- <-. exists d, user. repeat split; assumption.
        -- intros (d' & x & Hv' & _ & Hf & _ & -> & ->).
           rewrite Hv in Hv'. injection Hv' as <-. rewrite Efind in Hf. injection Hf as <-.
           reflexivity.
      * split; [intro H; discriminate H |].
        intros (d' & x & Hv' & _ & Hf & Hact & _).
        rewrite Hv in Hv'. injection Hv' as <-. rewrite Efind in Hf. injection Hf as <-.
        apply SessionProps.UserStatus_eqb_eq in Hact. rewrite Hact in Est. discriminate Est.
    + split; [intro H; discriminate H |].
      intros (d' & x & Hv' & _ & Hf & _).
      rewrite Hv in Hv'. injection Hv' as <-. rewrite Efind in Hf. discriminate Hf.
  - rewrite Hthrow. split; [intro H; discriminate H |].
    intros (d & x & Hv & Htype & _).
    assert (Hr : JWTUtil.verifyAccessToken J cfg "socketAuth (socketAuth.ts:16)" now t
                 = Return d)
      by (apply TokenProps.verifyAccessToken_Return; split; assumption).
    rewrite Hr in Hthrow. discriminate Hthrow.
Qed.

Lemma socketAuth_header (now : Z) (t : string) (db : Db) :
  socketAuth J cfg now None (Some ("Bearer " ++ t)%string) db
  = socketAuth J cfg now (Some t) None db.
Proof.
  unfold socketAuth, handshake_token. cbn [Js.truthy_str option_map].
  rewrite replace_bearer. destruct t; reflexivity.
Qed.

End Agreement.

(** X21. The socket middleware and the HTTP middleware admit the same
    tokens. A token that is not empty, sent to the socket server in
    [auth.token] or as a Bearer header, is admitted exactly when
    [authenticate] admits it as a Bearer header, for the same account; the
    socket then joins the personal room of the account and the rooms of
    its role. *)
Theorem socketAuth_agrees_with_authenticate (J : Jwt.Lib) (cfg : JWTUtil.Config) (now : Z)
    (t : string) (db : Db) :
  t <> "" ->
  let header := Some ("Bearer " ++ t)%string in
  (forall authorization,
      socketAuth J cfg now (Some t) authorization db = socketAuth J cfg now None header db)
  /\ (forall user,
         AuthMiddleware.authenticate J cfg now header None db
         = Return (AuthController.summary_of user)
         -> socketAuth J cfg now None header db
            = Return (socketUser_of user,
                      SocketService.user_room (user_id user)
                        :: role_rooms (user_role user) (user_sellerRole user)))
  /\ (forall su joined,
         socketAuth J cfg now None header db = Return (su, joined) ->
         exists user,
           AuthMiddleware.authenticate J cfg now header None db
           = Return (AuthController.summary_of user)
           /\ su = socketUser_of user
           /\ joined = SocketService.user_room (user_id user)
                         :: role_rooms (user_role user) (user_sellerRole user)).
Proof.
  intros Hne header. subst header.
  assert (Hreq : AuthMiddleware.request_token (Some ("Bearer " ++ t)%string) None = Some t).
  { unfold AuthMiddleware.request_token. rewrite bearer_token.
    cbn [Js.truthy_str andb]. rewrite Bool.andb_false_r. reflexivity. }
  split; [| split].
  - intro authorization. rewrite socketAuth_header.
    unfold socketAuth, handshake_token.
    destruct t as [| a t]; [contradiction Hne; reflexivity | reflexivity].
  - intros user Hauth. rewrite socketAuth_header.
    apply AccessProps.authenticate_Return in Hauth.
    destruct Hauth as (token & d & x & Htok & _ & Hv & Htype & Hf & Hact & Hsum).
    rewrite Hreq in Htok. injection Htok as <-.
    apply (socketAuth_Return J cfg now t None db _ _ Hne).
    exists d, x. repeat split; try assumption.
    + unfold AuthController.summary_of in Hsum. injection Hsum as H1 H2 H3 H4 H5 H6.
      unfold socketUser_of. rewrite H1, H2, H3, H4, H5. reflexivity.
    + unfold AuthController.summary_of in Hsum. injection Hsum as H1 H2 H3 H4 H5 H6.
      rewrite H1, H4, H5. reflexivity.
  - intros su joined Hsock. rewrite socketAuth_header in Hsock.
    apply (socketAuth_Return J cfg now t None db _ _ Hne) in Hsock.
    destruct Hsock as (d & user & Hv & Htype & Hf & Hact & -> & ->).
    exists user. split; [| split; reflexivity].
    apply AccessProps.authenticate_Return. exists t, d, user.
    repeat split; assumption.
Qed.

Lemma socketAuth_agrees_with_authenticate_witness :
  exists joined,
    socketAuth PlainJwtProps.lib Sample.config 1000 None
      (Some ("Bearer "
               ++ Sample.token_of
                    (JWTUtil.generateAccessToken PlainJwtProps.lib Sample.config [] 0
                       (AuthController.subject_of "u-bob" "bob@example.com" SELLER
                          (Some MANAGER))))%string)
      Sample.shop
    = Return (socketUser_of Sample.bob, joined)
    /\ In "seller_manager" joined.
Proof.
  eexists. split.
  - apply (proj1 (proj2
             (socketAuth_agrees_with_authenticate PlainJwtProps.lib Sample.config 1000
                (Sample.token_of
                   (JWTUtil.generateAccessToken PlainJwtProps.lib Sample.config [] 0
                      (AuthController.subject_of "u-bob" "bob@example.com" SELLER
                         (Some MANAGER))))
                Sample.shop ltac:(vm_compute; discriminate)))).
    vm_compute. reflexivity.
  - vm_compute. tauto.
Defined.

(** The rooms of a socket are its own and those the middleware joined. *)
Definition as_admitted (c : Connection) : Prop :=
  rooms c
  = socketId c
      :: SocketService.user_room (SocketService.id (user c))
      :: role_rooms (SocketService.role (user c)) (SocketService.sellerRole (user c)).

Definition owned_by (userId : string) (c : Connection) : bool :=
  String.eqb (SocketService.id (user c)) userId.

Lemma user_room_eqb (a b : string) :
  String.eqb (SocketService.user_room a) (SocketService.user_room b) = String.eqb a b.
Proof. reflexivity. Qed.

Lemma role_room_not_personal (role : UserRole) (sellerRole : option SellerRole)
    (userId : string) :
  existsb (String.eqb (SocketService.user_room userId)) (role_rooms role sellerRole) = false.
Proof. destruct role; destruct sellerRole as [[| |] |]; reflexivity. Qed.

Lemma own_room_not_personal (id userId : string) :
  String.prefix "user_" id = false -> String.eqb (SocketService.user_room userId) id = false.
Proof.
  intro H. destruct (String.eqb (SocketService.user_room userId) id) eqn:E; [| reflexivity].
  apply String.eqb_eq in E. subst id. destruct userId; discriminate H.
Qed.

Lemma personal_room_members (server : Server) (userId : string) :
  Forall as_admitted server ->
  Forall (fun c => String.prefix "user_" (socketId c) = false) server ->
  filter (in_room (SocketService.user_room userId)) server = filter (owned_by userId) server.
Proof.
  intros Hadm Hids. apply filter_ext_in. intros c Hc.
  rewrite Forall_forall in Hadm, Hids.
  unfold in_room, owned_by. rewrite (Hadm c Hc). cbn [existsb].
  rewrite (own_room_not_personal _ _ (Hids c Hc)), user_room_eqb, role_room_not_personal.
  rewrite Bool.orb_false_r. cbn [orb]. apply String.eqb_sym.
Qed.

(** X22. As long as sockets are only in the rooms the middleware joined,
    whatever the [order-status-update] handler emits reaches the sender or
    sockets of the buyer of the order, and no other socket. *)
Theorem status_update_reaches_buyer_and_sender (server : Server) (now : Z)
    (sender : Connection) (data : SocketService.StatusUpdate) (db : Db) :
  Forall as_admitted server ->
  Forall (fun c => String.prefix "user_" (socketId c) = false) server ->
  forall e s,
    In e (snd (SocketService.orderStatusUpdate now (user sender) data db)) ->
    In s (receivers server (socketId sender) e) ->
    s = socketId sender
    \/ exists order c,
        Prisma.order_findUnique (SocketService.orderId data) (orders db) = Some order
        /\ In c server /\ socketId c = s
        /\ SocketService.id (user c) = order_buyerId order.
Proof.
  intros Hadm Hids e s He Hs. unfold SocketService.orderStatusUpdate in He.
  destruct (negb (UserRole_eqb (SocketService.role (user sender)) SELLER)
            && negb (UserRole_eqb (SocketService.role (user sender)) ADMIN)).
  { left. destruct He as [<- | []]. destruct Hs as [<- | []]. reflexivity. }
  destruct (Prisma.order_findUnique (SocketService.orderId data) (orders db))
    as [order |].
  2: { left. destruct He as [<- | []]. destruct Hs as [<- | []]. reflexivity. }
  destruct (UserRole_eqb (SocketService.role (user sender)) SELLER
            && negb (String.eqb (order_sellerId order) (SocketService.id (user sender)))).
  { left. destruct He as [<- | []]. destruct Hs as [<- | []]. reflexivity. }
  cbn [snd] in He. destruct He as [<- | [<- | [<- | []]]].
  - right. cbn [receivers] in Hs. rewrite (personal_room_members _ _ Hadm Hids) in Hs.
    apply in_map_iff in Hs. destruct Hs as (c & Hid & Hc). apply filter_In in Hc.
    destruct Hc as [Hc Hown]. apply String.eqb_eq in Hown.
    exists order, c. repeat split; assumption.
  - right. cbn [receivers] in Hs. rewrite (personal_room_members _ _ Hadm Hids) in Hs.
    apply in_map_iff in Hs. destruct Hs as (c & Hid & Hc). apply filter_In in Hc.
    destruct Hc as [Hc Hown]. apply String.eqb_eq in Hown.
    exists order, c. repeat split; assumption.
  - left. cbn in Hs. destruct Hs as [<- | []]. reflexivity.
Qed.

Lemma joinRoom_member (server : Server) (id room : string) :
  In id (map socketId server) ->
  In id (map socketId (filter (in_room room) (joinRoom id room server))).
Proof.
  intro Hin. apply in_map_iff in Hin. destruct Hin as (c & Hid & Hc).
  apply in_map_iff.
  exists {| socketId := socketId c; user := user c;
            rooms := if existsb (String.eqb room) (rooms c) then rooms c
                     else (rooms c ++ [room])%list |}.
  split; [exact Hid |]. apply filter_In. split.
  - unfold joinRoom, on_socket. apply in_map_iff. exists c. split; [| exact Hc].
    rewrite Hid, String.eqb_refl. reflexivity.
  - unfold in_room. cbn [rooms].
    destruct (existsb (String.eqb room) (rooms c)) eqn:E; [exact E |].
    rewrite existsb_app. cbn. rewrite String.eqb_refl. apply Bool.orb_true_r.
Qed.

(** X23. The [join-room] event lets a socket into any room, the personal
    room of another user included: once a connected socket has asked to
    join the room of the buyer of an order, the notification that
    [order-status-update] addresses to that buyer reaches it too. *)
Theorem join_room_opens_personal_rooms (server : Server) (listener senderSocket : string)
    (now : Z) (sender : SocketService.SocketUser) (data : SocketService.StatusUpdate)
    (db : Db) (order : Order) :
  In listener (map socketId server) ->
  Prisma.order_findUnique (SocketService.orderId data) (orders db) = Some order ->
  SocketService.role sender = ADMIN
  \/ (SocketService.role sender = SELLER
      /\ order_sellerId order = SocketService.id sender) ->
  exists notification,
    let e := SocketService.ToRoom (SocketService.user_room (order_buyerId order))
               "notification" (SocketService.Notify notification) in
    In e (snd (SocketService.orderStatusUpdate now sender data db))
    /\ SocketService.userId notification = order_buyerId order
    /\ In listener
         (receivers
            (joinRoom listener (SocketService.user_room (order_buyerId order)) server)
            senderSocket e).
Proof.
  intros Hin Hfind Hmay. unfold SocketService.orderStatusUpdate. rewrite Hfind.
  assert (Hrole : negb (UserRole_eqb (SocketService.role sender) SELLER)
                  && negb (UserRole_eqb (SocketService.role sender) ADMIN) = false).
  { destruct Hmay as [-> | [-> _]]; reflexivity. }
  assert (Hown : UserRole_eqb (SocketService.role sender) SELLER
                 && negb (String.eqb (order_sellerId order) (SocketService.id sender))
                 = false).
  { destruct Hmay as [-> | [-> ->]]; [reflexivity |]. rewrite String.eqb_refl. reflexivity. }
  rewrite Hrole, Hown. eexists. cbv zeta. split; [left; reflexivity |].
  split; [reflexivity |]. cbn [receivers]. apply joinRoom_member. exact Hin.
Qed.

Definition alice_socket : Connection :=
  {| socketId := "s-alice"; user := socketUser_of Sample.alice;
     rooms := ["s-alice"; "user_u-alice"; "buyers"] |}.

Definition bob_socket : Connection :=
  {| socketId := "s-bob"; user := socketUser_of Sample.bob;
     rooms := ["s-bob"; "user_u-bob"; "sellers"; "seller_manager"] |}.

Definition carol_socket : Connection :=
  {| socketId := "s-carol"; user := socketUser_of Sample.carol;
     rooms := ["s-carol"; "user_u-carol"; "admins"] |}.

Definition processing : SocketService.StatusUpdate :=
  {| SocketService.orderId := "o-1"; SocketService.status := "SHIPPED";
     SocketService.notes := None |}.

(** Bob ships Alice's order: Carol's socket is not reached. *)
Lemma status_update_reaches_buyer_and_sender_witness :
  Forall
    (fun e => ~ In "s-carol" (receivers [alice_socket; bob_socket; carol_socket] "s-bob" e))
    (snd (SocketService.orderStatusUpdate 5000 (socketUser_of Sample.bob) processing
            Sample.shop)).
Proof.
  apply Forall_forall. intros e He Hs.
  destruct (status_update_reaches_buyer_and_sender
              [alice_socket; bob_socket; carol_socket] 5000 bob_socket processing
              Sample.shop
              ltac:(repeat constructor) ltac:(repeat constructor) e "s-carol" He Hs)
    as [H | (order & c & Hfind & Hc & Hid & Hbuyer)].
  - discriminate H.
  - injection Hfind as <-.
    destruct Hc as [<- | [<- | [<- | []]]]; discriminate.
Defined.

(** Carol's socket asks to join Alice's room and is reached. *)
Lemma join_room_opens_personal_rooms_witness :
  exists e,
    In e (snd (SocketService.orderStatusUpdate 5000 (socketUser_of Sample.bob) processing
                 Sample.shop))
    /\ In "s-carol"
         (receivers
            (joinRoom "s-carol" "user_u-alice" [alice_socket; bob_socket; carol_socket])
            "s-bob" e).
Proof.
  destruct (join_room_opens_personal_rooms
              [alice_socket; bob_socket; carol_socket] "s-carol" "s-bob" 5000
              (socketUser_of Sample.bob) processing Sample.shop Sample.order1
              ltac:(cbn; tauto) eq_refl ltac:(right; split; reflexivity))
    as (notification & He & _ & Hs).
  eexists. split; [exact He | exact Hs].
Defined.

End SocketAccessProps.

(** ** From login to an authenticated request *)

Module SignInProps.

Import Schema.

Lemma find_by_id (rows : list User) (user : User) :
  NoDup (map user_id rows) -> In user rows ->
  Prisma.user_findUnique_id (user_id user) rows = Some user.
Proof.
  unfold Prisma.user_findUnique_id.
  induction rows as [| x rows IH]; intros Hnd Hin; [destruct Hin |].
  cbn [map] in Hnd. inversion Hnd as [| ? ? Hx Hrest]; subst. cbn [find].
  destruct Hin as [-> | Hin]; [rewrite String.eqb_refl; reflexivity |].
  destruct (String.eqb (user_id x) (user_id user)) eqn:E; [| apply IH; assumption].
  apply String.eqb_eq in E. exfalso. apply Hx. rewrite E. apply in_map. exact Hin.
Qed.

Lemma request_token_cookie (token : string) :
  token <> "" -> AuthMiddleware.request_token None (Some token) = Some token.
Proof.
  intro H. destruct token; [contradiction H; reflexivity | reflexivity].
Qed.

Lemma request_token_header (token : string) :
  token <> "" ->
  AuthMiddleware.request_token (Some ("Bearer " ++ token)%string) None = Some token.
Proof.
  intros _. unfold AuthMiddleware.request_token. rewrite SocketAccessProps.bearer_token.
  cbn [Js.truthy_str]. rewrite Bool.andb_false_r. reflexivity.
Qed.

(** X24. The access token of a login opens the protected routes. With
    distinct account ids, the token a successful login hands out, sent back
    as a Bearer header or as the [accessToken] cookie while the package
    still verifies it, is admitted by [authenticate] as the account that
    logged in, and by the socket middleware as well. *)
Theorem login_then_authenticate (J : Jwt.Lib) (cfg : JWTUtil.Config) (B : Bcrypt.Lib)
    (nodeEnv : option string) (now : Z) (rowId email password : string) (db db1 : Db)
    (res : Http.Response) :
  NoDup (map user_id (users db)) ->
  AuthController.login J cfg B nodeEnv now rowId email password db = (db1, Return res) ->
  exists user tokens,
    Prisma.user_findUnique_email email (users db) = Some user
    /\ Http.data (Http.body res)
       = Some (Http.LoginData (AuthController.profile_of user) tokens)
    /\ In (Http.SetCookie "accessToken" (Http.accessToken tokens)
             (AuthController.secure nodeEnv) AuthController.fifteenMinutes)
          (Http.cookies res)
    /\ forall now',
        Http.accessToken tokens <> "" ->
        Jwt.verify J (Http.accessToken tokens) (JWTUtil.accessSecret cfg) now' <> None ->
        AuthMiddleware.authenticate J cfg now'
          (Some ("Bearer " ++ Http.accessToken tokens)%string) None db1
        = Return (AuthController.summary_of user)
        /\ AuthMiddleware.authenticate J cfg now' None (Some (Http.accessToken tokens)) db1
           = Return (AuthController.summary_of user)
        /\ exists joined,
            SocketAuth.socketAuth J cfg now' (Some (Http.accessToken tokens)) None db1
            = Return (SocketAuth.socketUser_of user, joined).
Proof.
  intros Hids Hlogin.
  apply (SessionProps.login_Return J cfg B nodeEnv) in Hlogin.
  destruct Hlogin as (user & tokens & Hfind & Hact & _ & Htokens & _ & -> & ->).
  exists user, tokens.
  split; [exact Hfind | split; [reflexivity | split; [left; reflexivity |]]].
  intros now' Hne Hverify.
  destruct (Jwt.verify J (Http.accessToken tokens) (JWTUtil.accessSecret cfg) now')
    as [d |] eqn:Ev; [clear Hverify | contradiction Hverify; reflexivity].
  assert (Hd : d = JWTUtil.with_type
                     (AuthController.subject_of (user_id user) (user_email user)
                        (user_role user) (user_sellerRole user)) "access").
  { unfold SessionProps.issued, JWTUtil.generateTokenPair, JWTUtil.generateAccessToken
      in Htokens.
    destruct (Jwt.sign J (JWTUtil.with_type _ "access") _ _ now) as [access |] eqn:Es;
      cbn [bind] in Htokens; [| discriminate Htokens].
    destruct (JWTUtil.generateRefreshToken J cfg _ now _) as [refresh | e];
      cbn [bind] in Htokens; [| discriminate Htokens].
    injection Htokens as <-. cbn [Http.accessToken] in Ev.
    exact (Jwt.verify_sign J _ _ _ _ _ _ _ _ Es Ev). }
  assert (Hrow : Prisma.user_findUnique_id (Jwt.userId d) (users db) = Some user).
  { subst d. cbn. apply find_by_id; [exact Hids |].
    apply find_some in Hfind. apply Hfind. }
  assert (Htype : Jwt.type d = "access") by (subst d; reflexivity).
  split; [| split].
  - apply AccessProps.authenticate_Return.
    exists (Http.accessToken tokens), d, user.
    split; [apply request_token_header; exact Hne |].
    repeat split; assumption.
  - apply AccessProps.authenticate_Return.
    exists (Http.accessToken tokens), d, user.
    split; [apply request_token_cookie; exact Hne |].
    repeat split; assumption.
  - eexists. apply (SocketAccessProps.socketAuth_Return J cfg now' _ None _ _ _ Hne).
    exists d, user. repeat split; assumption.
Qed.

(** Bob logs in at second 1 and uses the token at second 60. *)
Lemma login_then_authenticate_witness :
  exists token,
    AuthMiddleware.authenticate PlainJwtProps.lib Sample.config 60000
      (Some ("Bearer " ++ token)%string) None
      (fst (AuthController.login PlainJwtProps.lib Sample.config PlainBcrypt.lib None 1000
              "rt-1" "bob@example.com" "Bu1lder!!" Sample.shop))
    = Return (AuthController.summary_of Sample.bob).
Proof.
  destruct (login_then_authenticate PlainJwtProps.lib Sample.config PlainBcrypt.lib None
              1000 "rt-1" "bob@example.com" "Bu1lder!!" Sample.shop _ _
              ltac:(repeat constructor; cbn; intuition discriminate)
              ltac:(vm_compute; reflexivity))
    as (user & tokens & Hfind & Hdata & _ & Huse).
  injection Hfind as <-. injection Hdata as <-.
  eexists.
  apply (Huse 60000); vm_compute; discriminate.
Defined.

End SignInProps.

(** ** Changing the password, then logging in *)

Module PasswordChangeProps.

Import Schema.

Lemma find_email_map (f : User -> User) (email : string) (rows : list User) :
  (forall u, user_email (f u) = user_email u) ->
  Prisma.user_findUnique_email email (map f rows)
  = option_map f (Prisma.user_findUnique_email email rows).
Proof.
  intro Hf. unfold Prisma.user_findUnique_email.
  induction rows as [| x rows IH]; [reflexivity |]. cbn [map find]. rewrite Hf.
  destruct (String.eqb (user_email x) email); [reflexivity | exact IH].
Qed.

(** X25. After a password change that went through, the account logs in
    with the new password whenever the token pair of the login is
    generated and its refresh token is not already stored, provided bcrypt
    accepts a password against its own hash, the account is ACTIVE and its
    address is its own; the old password is refused as soon as bcrypt
    tells it from the new one. *)
Theorem changed_password_logs_in (J : Jwt.Lib) (cfg : JWTUtil.Config) (B : Bcrypt.Lib)
    (nodeEnv : option string) (salt userId current new : string) (db : Db) (user : User) :
  (forall password rounds s, Bcrypt.compare B password (Bcrypt.hash B password rounds s) = true) ->
  Prisma.user_findUnique_id userId (users db) = Some user ->
  Prisma.user_findUnique_email (user_email user) (users db) = Some user ->
  user_status user = ACTIVE ->
  Bcrypt.compare B current (user_password user) = true ->
  let db1 := fst (AuthController.changePassword B salt userId current new db) in
  let user1 :=
    Prisma.set_password (Bcrypt.hash B new AuthController.saltRounds salt) user in
  Prisma.user_findUnique_email (user_email user) (users db1) = Some user1
  /\ (forall now rowId tokens,
         SessionProps.issued J cfg SessionProps.login_frame now user1 = Return tokens ->
         ~ In (Http.refreshToken tokens) (map rt_token (refreshTokens db1)) ->
         snd (AuthController.login J cfg B nodeEnv now rowId (user_email user) new db1)
         = Return (Http.json (AuthController.token_cookies nodeEnv tokens)
                     (Http.success_body "Login successful"
                        (Some (Http.LoginData (AuthController.profile_of user1) tokens)))))
  /\ (Bcrypt.compare B current (Bcrypt.hash B new AuthController.saltRounds salt) = false ->
      forall now rowId,
        exists e,
          AuthController.login J cfg B nodeEnv now rowId (user_email user) current db1
          = (db1, Throw e)
          /\ Http.status (ErrorHandler.errorHandler nodeEnv e) = 401).
Proof.
  intros Hbcrypt Hid Hemail Hact Hcur db1 user1.
  assert (Huid : user_id user = userId).
  { apply find_some in Hid. apply String.eqb_eq. apply Hid. }
  assert (Hdb1 : users db1
                 = map (fun u => if String.eqb (user_id u) userId then
                                   Prisma.set_password
                                     (Bcrypt.hash B new AuthController.saltRounds salt) u
                                 else u) (users db)
                 /\ orders db1 = orders db).
  { subst db1. unfold AuthController.changePassword. rewrite Hid, Hcur. cbn [negb].
    unfold Prisma.user_update_password.
    assert (Hex : existsb (fun u => String.eqb (user_id u) userId) (users db) = true).
    { apply find_some in Hid. apply existsb_exists. exists user. exact Hid. }
    rewrite Hex. cbn. split; reflexivity. }
  destruct Hdb1 as [Husers _].
  assert (Hfind1 : Prisma.user_findUnique_email (user_email user) (users db1) = Some user1).
  { rewrite Husers, find_email_map.
    - rewrite Hemail. cbn [option_map]. rewrite Huid, String.eqb_refl. reflexivity.
    - intro u. destruct (String.eqb (user_id u) userId); reflexivity. }
  split; [exact Hfind1 | split].
  - intros now rowId tokens Htokens Hfresh. unfold AuthController.login. rewrite Hfind1.
    assert (Hst : user_status user1 = ACTIVE) by exact Hact.
    rewrite Hst. cbn [UserStatus_eqb negb].
    replace (Bcrypt.compare B new (user_password user1)) with true
      by (symmetry; apply Hbcrypt).
    cbn [negb]. unfold SessionProps.issued, SessionProps.login_frame in Htokens.
    rewrite Htokens. unfold Prisma.refreshToken_create. cbn [rt_token].
    apply SessionProps.token_absent in Hfresh. rewrite Hfresh. reflexivity.
  - intros Hold now rowId. unfold AuthController.login. rewrite Hfind1.
    assert (Hst : user_status user1 = ACTIVE) by exact Hact.
    rewrite Hst. cbn [UserStatus_eqb negb].
    change (user_password user1) with (Bcrypt.hash B new AuthController.saltRounds salt).
    rewrite Hold. cbn [negb]. eexists. split; reflexivity.
Qed.

(** Bob changes his password and logs in with the new one. *)
Lemma changed_password_logs_in_witness :
  exists res,
    snd (AuthController.login PlainJwtProps.lib Sample.config PlainBcrypt.lib None 9000 "rt-9"
           "bob@example.com" "N3w-passw0rd"
           (fst (AuthController.changePassword PlainBcrypt.lib "s9" "u-bob" "Bu1lder!!"
                   "N3w-passw0rd" Sample.shop)))
    = Return res.
Proof.
  eexists.
  eapply (proj1 (proj2
            (changed_password_logs_in PlainJwtProps.lib Sample.config PlainBcrypt.lib None
               "s9" "u-bob" "Bu1lder!!" "N3w-passw0rd" Sample.shop Sample.bob
               RegistrationProps.plain_bcrypt_accepts eq_refl eq_refl eq_refl
               ltac:(vm_compute; reflexivity)))).
  - vm_compute. reflexivity.
  - vm_compute. tauto.
Defined.

End PasswordChangeProps.

(** ** The order of the permissions *)

Module PermissionOrderProps.

(** X26. The permissions of [PermissionUtil] are nested: who may manage
    users may manage orders, who may manage orders may manage products
    and view financials, and every role may view orders; a buyer may do
    nothing else. *)
Theorem permissions_nested (role : UserRole) (sellerRole : option SellerRole) :
  (PermissionUtil.canManageUsers role = true ->
   PermissionUtil.canManageOrders role sellerRole = true)
  /\ (PermissionUtil.canManageOrders role sellerRole = true ->
      PermissionUtil.canManageProducts role sellerRole = true
      /\ PermissionUtil.canViewFinancials role sellerRole = true)
  /\ PermissionUtil.canViewOrders role sellerRole = true
  /\ (role = BUYER ->
      PermissionUtil.canManageProducts role sellerRole = false
      /\ PermissionUtil.canManageOrders role sellerRole = false
      /\ PermissionUtil.canViewFinancials role sellerRole = false
      /\ PermissionUtil.canManageUsers role = false).
Proof.
  destruct role; destruct sellerRole as [[| |] |]; cbn;
    repeat split; intros; try reflexivity; congruence.
Qed.

End PermissionOrderProps.
